(** * Magento2Api adapter: a shallow embedding of the response converters
      and of the session-bound request handlers.

    The adapter is a JavaScript class.  Backend payloads are JSON trees,
    thrown errors are ordinary objects, and the handlers mutate a session
    object while they talk to the REST backend.  The embedding keeps that
    shape: a type of JavaScript values, an error monad for the pure
    converters, and a state-and-error monad over the session and the log of
    backend requests for the handlers. *)

From stdpp Require Import base option list strings pretty gmap.
From Stdlib Require Import ZArith Lia Ascii.

Local Set Warnings "-register-all".

Open Scope string_scope.
Open Scope list_scope.
Open Scope Z_scope.

(** ** JavaScript values *)

(** Own enumerable data properties, in insertion order.  (JavaScript
    enumerates integer-like keys first; no property of the payloads
    modelled here depends on the order of keys.) *)
Definition props (A : Type) : Type := list (string * A).

Fixpoint obj_get {A} (k : string) (o : props A) : option A :=
  match o with
  | [] => None
  | (k', v) :: o' => if String.eqb k k' then Some v else obj_get k o'
  end.

(** [o[k] = v]: an existing key keeps its position, a new key goes last. *)
Fixpoint obj_set {A} (k : string) (v : A) (o : props A) : props A :=
  match o with
  | [] => [(k, v)]
  | (k', v') :: o' =>
      if String.eqb k k' then (k', v) :: o' else (k', v') :: obj_set k v o'
  end.

(** [delete o[k]]. *)
Fixpoint obj_del {A} (k : string) (o : props A) : props A :=
  match o with
  | [] => []
  | (k', v') :: o' =>
      if String.eqb k k' then obj_del k o' else (k', v') :: obj_del k o'
  end.

(** Numbers are integers: identifiers, quantities, status codes and amounts,
    within the range JavaScript holds exactly and prints in decimal digits
    (up to 2^53 - 1 in absolute value).  The code modelled here never
    computes with a number taken from a payload; it tests truthiness,
    compares with [===] and prints.  Arrays
    are objects in JavaScript, so besides their elements they carry the
    named properties a converter may write on them.  Prototype chains and
    built-in properties ([length], methods) are not part of a value. *)
Inductive value : Type :=
  | VUndef
  | VNull
  | VBool (b : bool)
  | VNum (n : Z)
  | VStr (s : string)
  | VArr (elems : list value) (named : props value)
  | VObj (fields : props value).

Definition prop (o : props value) (k : string) : value :=
  default VUndef (obj_get k o).

(** A JSON array literal. *)
Definition arr (l : list value) : value := VArr l [].

(** ToBoolean. *)
Definition truthy (v : value) : bool :=
  match v with
  | VUndef | VNull => false
  | VBool b => b
  | VNum n => negb (n =? 0)
  | VStr s => negb (String.eqb s "")
  | VArr _ _ | VObj _ => true
  end.

(** [a === b].  Objects and arrays compare by reference; the nodes of a
    parsed JSON payload are pairwise distinct objects, so two of them are
    never identical. *)
Definition strict_eq (a b : value) : bool :=
  match a, b with
  | VUndef, VUndef | VNull, VNull => true
  | VBool x, VBool y => Bool.eqb x y
  | VNum x, VNum y => x =? y
  | VStr x, VStr y => String.eqb x y
  | _, _ => false
  end.

Fixpoint join (sep : string) (l : list string) : string :=
  match l with
  | [] => ""
  | [s] => s
  | s :: l' => s +:+ sep +:+ join sep l'
  end.

(** ToString, as template literals and property keys apply it. *)
Fixpoint to_string (v : value) : string :=
  match v with
  | VUndef => "undefined"
  | VNull => "null"
  | VBool true => "true"
  | VBool false => "false"
  | VNum n => pretty n
  | VStr s => s
  | VArr l _ =>
      join "," (map (fun x => match x with
                              | VUndef | VNull => ""
                              | _ => to_string x
                              end) l)
  | VObj _ => "[object Object]"
  end.

(** [a || b] and a destructuring default [= d]. *)
Definition js_or (a b : value) : value := if truthy a then a else b.
Definition or_default (a d : value) : value :=
  match a with VUndef => d | _ => a end.

(** ** Exceptions *)

Inductive outcome (A : Type) : Type :=
  | Ok (a : A)
  | Throw (e : value).
Arguments Ok {A} a.
Arguments Throw {A} e.

Class Monad (m : Type -> Type) : Type := {
  ret : forall {A}, A -> m A;
  bind : forall {A B}, m A -> (A -> m B) -> m B
}.

Declare Scope js_scope.
Delimit Scope js_scope with js.
Notation "x <- c ;; k" := (bind c (fun x => k))
  (at level 100, c at next level, right associativity) : js_scope.
Notation "c ;; k" := (bind c (fun _ => k))
  (at level 100, right associativity) : js_scope.
Open Scope js_scope.

#[export] Instance outcome_monad : Monad outcome := {
  ret := fun A a => Ok a;
  bind := fun A B c k => match c with Ok a => k a | Throw e => Throw e end
}.

(** The error a failed property access or method call raises.  Its message
    text depends on the engine; a fixed text stands for it. *)
Definition TypeError : value :=
  VObj [("name", VStr "TypeError"); ("message", VStr "TypeError")].

(** [new Error(message)]. *)
Definition new_Error (message : string) : value :=
  VObj [("message", VStr message)].

(** [v.k] for a property name [k] that is not built in: a primitive has
    no such property, and reading one off [null] or [undefined] throws. *)
Definition get_prop (v : value) (k : string) : outcome value :=
  match v with
  | VUndef | VNull => Throw TypeError
  | VObj o => Ok (prop o k)
  | VArr _ p => Ok (prop p k)
  | VBool _ | VNum _ | VStr _ => Ok VUndef
  end.

(** The object [v] once its property [k] holds [x]. *)
Definition put_prop (v : value) (k : string) (x : value) : value :=
  match v with
  | VObj o => VObj (obj_set k x o)
  | VArr l p => VArr l (obj_set k x p)
  | _ => v
  end.

(** [v.k = x] in strict code (class bodies are strict): writing to a
    primitive throws.  The mutated object is returned. *)
Definition set_prop (v : value) (k : string) (x : value) : outcome value :=
  match v with
  | VObj _ | VArr _ _ => Ok (put_prop v k x)
  | _ => Throw TypeError
  end.

(** [delete v.k]. *)
Definition del_prop (v : value) (k : string) : outcome value :=
  match v with
  | VUndef | VNull => Throw TypeError
  | VObj o => Ok (VObj (obj_del k o))
  | VArr l p => Ok (VArr l (obj_del k p))
  | _ => Ok v
  end.

(** A left-to-right loop whose body may throw. *)
Fixpoint foldM {A B} (f : B -> A -> outcome B) (acc : B) (l : list A)
  : outcome B :=
  match l with
  | [] => Ok acc
  | x :: l' => acc' <- f acc x ;; foldM f acc' l'
  end.

(** [l.map(f)] with a callback that may throw. *)
Fixpoint mapM {A B} (f : A -> outcome B) (l : list A) : outcome (list B) :=
  match l with
  | [] => Ok []
  | x :: l' => y <- f x ;; ys <- mapM f l' ;; Ok (y :: ys)
  end.

(** ** Response converters *)

(** A converter receives [response], takes [response.data] and mutates that
    object in place; the response it returns holds the mutated object.
    [with_data response data'] is the response after the mutation. *)
Definition with_data (response data' : value) : value :=
  put_prop response "data" data'.

(** *** Assignment to a computed key

    [o[k] = v] on an object the code has built from [{}] looks [k] up
    along the prototype chain before it writes.  Every property of
    [Object.prototype] is a writable data property but one: [__proto__] is
    an accessor, whose setter replaces the prototype of [o] when [v] is an
    object or [null] and does nothing otherwise.  So the assignment makes
    [k] an own property of [o] unless [k] is [__proto__] and that accessor
    is still inherited.  It no longer is once the prototype of [o] has
    become [null], or a payload object that has [__proto__] as an own
    property ([JSON.parse] defines one for such a key). *)
Inductive prototype : Type :=
  | Object_prototype
  | null_prototype
  | payload_prototype (v : value).

(** An object under construction: its own properties and its prototype. *)
Record built : Type := { own : props value; proto : prototype }.

(** [{}] *)
Definition empty_object : built := {| own := []; proto := Object_prototype |}.

(** Whether [v], as the prototype of an object, lets the object inherit
    the accessor [__proto__] of [Object.prototype]. *)
Definition keeps_setter (v : value) : bool :=
  match v with
  | VNull => false
  | VObj o | VArr _ o =>
      match obj_get "__proto__" o with Some _ => false | None => true end
  | _ => true
  end.

Definition reaches_setter (p : prototype) : bool :=
  match p with
  | Object_prototype => true
  | null_prototype => false
  | payload_prototype v => keeps_setter v
  end.

(** [o[k] = v] *)
Definition set_key (k : string) (v : value) (o : built) : built :=
  let is_own :=
    match obj_get k (own o) with Some _ => true | None => false end in
  if String.eqb k "__proto__" && negb is_own && reaches_setter (proto o) then
    match v with
    | VObj _ | VArr _ _ => {| own := own o; proto := payload_prototype v |}
    | VNull => {| own := own o; proto := null_prototype |}
    | _ => o
    end
  else {| own := obj_set k v (own o); proto := proto o |}.

(** One step of the [forEach] in [convertAttributesSet]:
    [attributesSet[attribute.attribute_code] = attribute.value]. *)
Definition add_attribute (attributesSet : built) (attribute : value)
  : outcome built :=
  code <- get_prop attribute "attribute_code" ;;
  val <- get_prop attribute "value" ;;
  Ok (set_key (to_string code) val attributesSet).

(** [convertAttributesSet(response)].  The object stored in
    [data.custom_attributes] is given by its own properties: a value
    carries no prototype. *)
Definition convertAttributesSet (response : value) : outcome value :=
  data <- get_prop response "data" ;;
  custom <- get_prop data "custom_attributes" ;;
  let attributes := or_default custom (arr []) in
  match attributes with
  | VArr elems _ =>
      attributesSet <- foldM add_attribute empty_object elems ;;
      data' <- set_prop data "custom_attributes" (VObj (own attributesSet)) ;;
      Ok (with_data response data')
  | _ => Ok response
  end.

(** [path ? `/${path}.html` : path] *)
Definition convertPathToUrl (path : value) : value :=
  if truthy path then VStr ("/" +:+ to_string path +:+ ".html") else path.

(** lodash [isEmpty]: nullish values, numbers and booleans are empty;
    strings and arrays are empty when their length is 0, objects when they
    have no own property. *)
Definition isEmpty (v : value) : bool :=
  match v with
  | VUndef | VNull | VBool _ | VNum _ => true
  | VStr s => String.eqb s ""
  | VArr l _ => match l with [] => true | _ => false end
  | VObj o => match o with [] => true | _ => false end
  end.

(** [Array.isArray] *)
Definition isArray (v : value) : bool :=
  match v with VArr _ _ => true | _ => false end.

(** lodash [pick(object, ...keys)]: the keys the object has. *)
Definition pick (v : value) (keys : list string) : value :=
  let own := match v with VObj o => o | VArr _ p => p | _ => [] end in
  VObj (foldr (fun k acc => match obj_get k own with
                            | Some x => (k, x) :: acc
                            | None => acc
                            end) [] keys).

(** The own enumerable properties an object spread [...v] copies. *)
Definition spread (v : value) : props value :=
  match v with
  | VObj o => o
  | VArr l p => imap (fun i x => (pretty (Z.of_nat i), x)) l ++ p
  | VStr s =>
      imap (fun i c => (pretty (Z.of_nat i), VStr (String c EmptyString)))
           (String.list_ascii_of_string s)
  | _ => []
  end.

(** [{ ...o, ...v }] *)
Definition assign (o : props value) (v : value) : props value :=
  foldl (fun acc '(k, x) => obj_set k x acc) o (spread v).

(** [l.findIndex(p)]: the first index whose element satisfies [p], or -1. *)
Fixpoint findIndex_from (i : Z) (p : value -> outcome bool) (l : list value)
  : outcome Z :=
  match l with
  | [] => Ok (-1)
  | x :: l' =>
      b <- p x ;;
      if (b : bool) then Ok i else findIndex_from (i + 1) p l'
  end.
Definition findIndex := findIndex_from 0.

(** [l[i]] *)
Definition index (l : list value) (i : Z) : value :=
  if i <? 0 then VUndef else default VUndef (l !! Z.to_nat i).

(** The array after [l.splice(start, deleteCount, ...items)]. *)
Definition splice (start deleteCount : Z) (items l : list value)
  : list value :=
  let len := Z.of_nat (length l) in
  let s := if start <? 0 then Z.max (len + start) 0 else Z.min start len in
  let d := Z.min (Z.max deleteCount 0) (len - s) in
  take (Z.to_nat s) l ++ items ++ drop (Z.to_nat (s + d)) l.

(** [e.message.match(/^prefix/)], as a truth value.  Only strings have a
    [match] method. *)
Definition match_prefix (message : value) (prefix : string) : outcome bool :=
  match message with
  | VStr s => Ok (String.prefix prefix s)
  | _ => Throw TypeError
  end.

Section Converters.

(** Code the converters call that is not part of this class:
    [convertKeys] of the base class [Magento2ApiBase], which renames the
    keys of a payload from snake_case to camelCase, in place, and returns
    the payload; [htmlHelpers.stripHtml]; [qs.stringify], [JSON.parse]
    and [parseFloat]. *)
Variable convertKeys : value -> value.
Variable stripHtml : value -> outcome value.
Variable qs_stringify : value -> string.
Variable JSON_parse : string -> outcome value.
Variable parseFloat : value -> value.

(** The callback of [breadcrumbs.map] in [convertBreadcrumbs]. *)
Definition convertBreadcrumb (item : value) : outcome value :=
  name <- get_prop item "name" ;;
  name' <- stripHtml name ;;
  item <- set_prop item "name" name' ;;
  urlPath <- get_prop item "urlPath" ;;
  item <- set_prop item "urlPath" (convertPathToUrl urlPath) ;;
  urlKey <- get_prop item "urlKey" ;;
  item <- set_prop item "urlKey" urlKey ;;
  item <- set_prop item "urlQuery" VNull ;;
  urlQuery <- get_prop item "urlQuery" ;;
  item <- (if truthy urlQuery && isArray urlQuery then
             let first := match urlQuery with
                          | VArr l _ => index l 0
                          | _ => VUndef
                          end in
             filters <- match first with
                        | VStr s => JSON_parse s
                        | _ => Ok first
                        end ;;
             set_prop item "urlQuery" (VObj [("filters", filters)])
           else Ok item) ;;
  urlQuery <- get_prop item "urlQuery" ;;
  if truthy urlQuery then
    urlPath <- get_prop item "urlPath" ;;
    set_prop item "urlPath"
      (VStr (to_string urlPath +:+ "?" +:+ qs_stringify urlQuery))
  else Ok item.

(** [convertBreadcrumbs(breadcrumbs = [])]: the new array [map] builds
    holds the items, which the callback has mutated. *)
Definition convertBreadcrumbs (breadcrumbs : value) : outcome value :=
  match or_default breadcrumbs (arr []) with
  | VArr items _ => items' <- mapM convertBreadcrumb items ;; Ok (arr items')
  | _ => Throw TypeError
  end.

(** The [forEach] callback over [bundleProductOptions]: the links of an
    option absorb their extension attributes. *)
Definition reduceProductLinks (option : value) : outcome value :=
  productLinks <- get_prop option "productLinks" ;;
  match productLinks with
  | VArr links _ =>
      reduced <- mapM (fun productLink =>
                         ext <- get_prop productLink "extensionAttributes" ;;
                         Ok (VObj (assign (assign [] productLink) ext)))
                      links ;;
      set_prop option "productLinks" (arr reduced)
  | _ => Throw TypeError
  end.

(** An array whose elements a loop has mutated in place: the array object
    is the one it was, its elements are the mutated ones. *)
Definition mutated_elems (original : value) (elems' : list value) : value :=
  match original with
  | VArr _ named => VArr elems' named
  | _ => original
  end.

(** The block of [convertProductData] guarded by
    [extensionAttributes && !isEmpty(extensionAttributes)].  It mutates
    both [data] and [extensionAttributes]; both are returned. *)
Definition convertProductExtension (data extensionAttributes price : value)
  : outcome (value * value) :=
  breadcrumbs <- get_prop extensionAttributes "breadcrumbs" ;;
  thumbnailUrl <- get_prop extensionAttributes "thumbnailUrl" ;;
  mediaGallerySizes <- get_prop extensionAttributes "mediaGallerySizes" ;;
  stockItem <- get_prop extensionAttributes "stockItem" ;;
  minPrice <- get_prop extensionAttributes "minPrice" ;;
  maxPrice <- get_prop extensionAttributes "maxPrice" ;;
  configurableProductOptions <-
    get_prop extensionAttributes "configurableProductOptions" ;;
  bundleProductOptions <- get_prop extensionAttributes "bundleProductOptions" ;;
  both <-
    (if truthy breadcrumbs then
       converted <- convertBreadcrumbs breadcrumbs ;;
       data <- set_prop data "breadcrumbs" converted ;;
       Ok (data, put_prop extensionAttributes "breadcrumbs"
                   (mutated_elems breadcrumbs
                      match converted with VArr l _ => l | _ => [] end))
     else Ok (data, extensionAttributes)) ;;
  let '(data, extensionAttributes) := both in
  data <- set_prop data "thumbnail" thumbnailUrl ;;
  data <- set_prop data "gallery" mediaGallerySizes ;;
  both <-
    (if truthy minPrice then
       data <- set_prop data "minPrice" minPrice ;;
       extensionAttributes <- del_prop extensionAttributes "minPrice" ;;
       Ok (data, extensionAttributes)
     else Ok (data, extensionAttributes)) ;;
  let '(data, extensionAttributes) := both in
  both <-
    (if truthy maxPrice then
       data <- set_prop data "maxPrice" maxPrice ;;
       extensionAttributes <- del_prop extensionAttributes "maxPrice" ;;
       Ok (data, extensionAttributes)
     else Ok (data, extensionAttributes)) ;;
  let '(data, extensionAttributes) := both in
  dataMinPrice <- get_prop data "minPrice" ;;
  data <- (if truthy dataMinPrice && strict_eq price (VNum 0)
           then set_prop data "price" dataMinPrice
           else Ok data) ;;
  dataMinPrice <- get_prop data "minPrice" ;;
  dataMaxPrice <- get_prop data "maxPrice" ;;
  data <- (if strict_eq dataMinPrice dataMaxPrice then
             data <- del_prop data "minPrice" ;;
             del_prop data "maxPrice"
           else Ok data) ;;
  data <- (if truthy stockItem
           then set_prop data "stock" (pick stockItem ["qty"; "isInStock"])
           else Ok data) ;;
  data <- set_prop data "configurableOptions"
            (js_or configurableProductOptions (arr [])) ;;
  if truthy bundleProductOptions then
    match bundleProductOptions with
    | VArr options _ =>
        options' <- mapM reduceProductLinks options ;;
        let bundle := mutated_elems bundleProductOptions options' in
        data <- set_prop data "bundleOptions" bundle ;;
        Ok (data, put_prop extensionAttributes "bundleProductOptions" bundle)
    | _ => Throw TypeError
    end
  else Ok (data, extensionAttributes).

(** [convertProductData(response, currency = null)].  [data.extensionAttributes]
    and the local [extensionAttributes] are one object unless the property
    is undefined, in which case the local is a fresh [{}]. *)
Definition convertProductData (response currency : value) : outcome value :=
  let currency := or_default currency VNull in
  response <- convertAttributesSet response ;;
  data <- get_prop response "data" ;;
  let data := convertKeys data in
  ownExtension <- get_prop data "extensionAttributes" ;;
  let extensionAttributes := or_default ownExtension (VObj []) in
  customAttributes <- get_prop data "customAttributes" ;;
  catalogPrice <- get_prop extensionAttributes "catalogDisplayPrice" ;;
  dataPrice <- get_prop data "price" ;;
  let price := js_or catalogPrice dataPrice in
  urlKey <- get_prop customAttributes "urlKey" ;;
  data <- set_prop data "urlPath" (convertPathToUrl urlKey) ;;
  data <- set_prop data "priceAmount" dataPrice ;;
  data <- set_prop data "currency" currency ;;
  data <- set_prop data "price" price ;;
  name <- get_prop data "name" ;;
  name' <- stripHtml name ;;
  data <- set_prop data "name" name' ;;
  priceType <- get_prop customAttributes "priceType" ;;
  data <- set_prop data "priceType" (js_or priceType (VStr "1")) ;;
  both <-
    (if truthy extensionAttributes && negb (isEmpty extensionAttributes)
     then convertProductExtension data extensionAttributes price
     else Ok (data, extensionAttributes)) ;;
  let '(data, extensionAttributes) := both in
  data <- (if truthy customAttributes && negb (isEmpty customAttributes) then
             description <- get_prop customAttributes "description" ;;
             metaTitle <- get_prop customAttributes "metaTitle" ;;
             metaDescription <- get_prop customAttributes "metaDescription" ;;
             metaKeyword <- get_prop customAttributes "metaKeyword" ;;
             data <- set_prop data "description" description ;;
             set_prop data "seo" (VObj [("title", metaTitle);
                                        ("description", metaDescription);
                                        ("keywords", metaKeyword)])
           else Ok data) ;;
  let data := match ownExtension with
              | VUndef => data
              | _ => put_prop data "extensionAttributes" extensionAttributes
              end in
  Ok (with_data response data).

(** [item => item.code === 'discount'] *)
Definition is_discount (item : value) : outcome bool :=
  code <- get_prop item "code" ;;
  Ok (strict_eq code (VStr "discount")).

(** [convertTotals(response)].  The two [splice] calls mutate the array
    held by [totalsData.totalSegments]. *)
Definition convertTotals (response : value) : outcome value :=
  data <- get_prop response "data" ;;
  let totalsData := convertKeys data in
  totalSegments <- get_prop totalsData "totalSegments" ;;
  if truthy totalSegments then
    match totalSegments with
    | VArr segments named =>
        discountIndex <- findIndex is_discount segments ;;
        if negb (discountIndex =? -1) then
          let discountSegment := index segments discountIndex in
          let segments := splice discountIndex 1 [] segments in
          let segments := splice 1 0 [discountSegment] segments in
          Ok (with_data response
                (put_prop totalsData "totalSegments" (VArr segments named)))
        else Ok (with_data response totalsData)
    | _ => Throw TypeError
    end
  else Ok (with_data response totalsData).

(** [processPrice(data = {}, fieldsToProcess = [])] *)
Definition processPrice (data : value) (fieldsToProcess : list string)
  : outcome value :=
  foldM (fun data field =>
           x <- get_prop data field ;;
           set_prop data field (parseFloat x))
        (or_default data (VObj [])) fieldsToProcess.

(** [items.find(totalDataItem => totalDataItem.itemId === itemId)], with
    the position of the element found. *)
Fixpoint find_item (itemId : value) (i : nat) (l : list value)
  : outcome (option (nat * value)) :=
  match l with
  | [] => Ok None
  | t :: l' =>
      tid <- get_prop t "itemId" ;;
      if strict_eq tid itemId then Ok (Some (i, t))
      else find_item itemId (S i) l'
  end.

(** The callback of [quoteData.items.map] in [convertCartData].  It
    mutates the element of [totalsData.items] it finds, so the array is
    threaded through the loop. *)
Definition mergeCartItem (totalsItems item : value)
  : outcome (value * value) :=
  match totalsItems with
  | VArr elems named =>
      itemId <- get_prop item "itemId" ;;
      found <- find_item itemId 0 elems ;;
      match found with
      | None => Throw TypeError
      | Some (i, totalsDataItem) =>
          extensionAttributes <-
            get_prop totalsDataItem "extensionAttributes" ;;
          totalsDataItem <- del_prop totalsDataItem "extensionAttributes" ;;
          totalsDataItem <-
            processPrice totalsDataItem
              ["price"; "priceInclTax"; "rowTotalInclTax";
               "rowTotalWithDiscount"; "taxAmount"; "discountAmount";
               "weeeTaxAmount"] ;;
          availableQty <- get_prop extensionAttributes "availableQty" ;;
          extensionAttributes <-
            set_prop extensionAttributes "availableQty"
              (parseFloat availableQty) ;;
          urlKey <- get_prop extensionAttributes "urlKey" ;;
          item <- set_prop item "link"
                    (VStr ("/" +:+ to_string urlKey +:+ ".html")) ;;
          options <- get_prop totalsDataItem "options" ;;
          totalsDataItem <-
            (if truthy options then
               itemOptions <- match options with
                              | VStr s => JSON_parse s
                              | _ => Ok options
                              end ;;
               set_prop totalsDataItem "itemOptions" itemOptions
             else Ok totalsDataItem) ;;
          Ok (VArr (<[i := totalsDataItem]> elems) named,
              VObj (assign (assign (assign [] item) totalsDataItem)
                      extensionAttributes))
      end
  | _ => Throw TypeError
  end.

Fixpoint mergeCartItems (totalsItems : value) (items : list value)
  : outcome (list value) :=
  match items with
  | [] => Ok []
  | item :: items' =>
      step <- mergeCartItem totalsItems item ;;
      let '(totalsItems, merged) := step in
      rest <- mergeCartItems totalsItems items' ;;
      Ok (merged :: rest)
  end.

(** [convertCartData(quoteData, totalsData)] *)
Definition convertCartData (quoteData totalsData : value) : outcome value :=
  isActive <- get_prop quoteData "isActive" ;;
  quoteData <- set_prop quoteData "active" isActive ;;
  isVirtual <- get_prop quoteData "isVirtual" ;;
  quoteData <- set_prop quoteData "virtual" isVirtual ;;
  quoteCurrencyCode <- get_prop totalsData "quoteCurrencyCode" ;;
  quoteData <- set_prop quoteData "quoteCurrency" quoteCurrencyCode ;;
  couponCode <- get_prop totalsData "couponCode" ;;
  quoteData <- set_prop quoteData "couponCode" couponCode ;;
  totalSegments <- get_prop totalsData "totalSegments" ;;
  totals <- match totalSegments with
            | VArr segments _ =>
                mapM (fun segment =>
                        processed <- processPrice segment ["value"] ;;
                        Ok (VObj (assign [] processed)))
                     segments
            | _ => Throw TypeError
            end ;;
  quoteData <- set_prop quoteData "totals" (arr totals) ;;
  items <- get_prop quoteData "items" ;;
  match items with
  | VArr elems _ =>
      totalsItems <- get_prop totalsData "items" ;;
      merged <- mergeCartItems totalsItems elems ;;
      set_prop quoteData "items" (arr merged)
  | _ => Throw TypeError
  end.

End Converters.

(** ** The session and the REST backend *)

(** [session.cart] is written by this class only, as [{ quoteId }], and
    [session.customerToken] as [{ token, expirationTime }]; either may be
    missing. *)
Record Cart : Type := { quoteId : value }.
Record CustomerToken : Type := { token : value; expirationTime : value }.

Module Session.
Record t : Type := {
  cart : option Cart;
  customerToken : option CustomerToken;
  currency : value;
  orderId : value;
  orderQuoteId : value;
  paypalExpressHash : value;
  baseCurrency : value;
  timezone : value;
  weightUnit : value;
  (** every other property of the session object *)
  other : gmap string value
}.

Definition set_cart (c : option Cart) (s : t) : t :=
  {| cart := c; customerToken := customerToken s; currency := currency s;
     orderId := orderId s; orderQuoteId := orderQuoteId s;
     paypalExpressHash := paypalExpressHash s;
     baseCurrency := baseCurrency s; timezone := timezone s;
     weightUnit := weightUnit s; other := other s |}.

Definition set_customerToken (c : option CustomerToken) (s : t) : t :=
  {| cart := cart s; customerToken := c; currency := currency s;
     orderId := orderId s; orderQuoteId := orderQuoteId s;
     paypalExpressHash := paypalExpressHash s;
     baseCurrency := baseCurrency s; timezone := timezone s;
     weightUnit := weightUnit s; other := other s |}.

Definition set_orderId (v : value) (s : t) : t :=
  {| cart := cart s; customerToken := customerToken s;
     currency := currency s;
     orderId := v; orderQuoteId := orderQuoteId s;
     paypalExpressHash := paypalExpressHash s;
     baseCurrency := baseCurrency s; timezone := timezone s;
     weightUnit := weightUnit s; other := other s |}.

Definition set_orderQuoteId (v : value) (s : t) : t :=
  {| cart := cart s; customerToken := customerToken s;
     currency := currency s;
     orderId := orderId s; orderQuoteId := v;
     paypalExpressHash := paypalExpressHash s;
     baseCurrency := baseCurrency s; timezone := timezone s;
     weightUnit := weightUnit s; other := other s |}.
End Session.

Inductive verb : Type := GET | POST | PUT | DELETE.

(** One call of a REST verb: [this.get(path, payload, { context })]. *)
Record Request : Type := {
  method : verb;
  path : string;
  payload : value;
  context : value
}.

(** What a handler can change: the session object, the number of times the
    session was saved, and the requests sent so far (latest first). *)
Record World : Type := {
  session : Session.t;
  saves : nat;
  requests : list Request
}.

Definition with_session (f : Session.t -> Session.t) (w : World) : World :=
  {| session := f (session w); saves := saves w; requests := requests w |}.

(** A handler runs in a world and either returns or throws; what it did to
    the world before throwing stays done. *)
Definition M (A : Type) : Type := World -> outcome A * World.

#[export] Instance M_monad : Monad M := {
  ret := fun A a w => (Ok a, w);
  bind := fun A B c k w =>
            match c w with
            | (Ok a, w') => k a w'
            | (Throw e, w') => (Throw e, w')
            end
}.

Definition throw {A} (e : value) : M A := fun w => (Throw e, w).

(** A pure computation inside a handler. *)
Definition lift {A} (c : outcome A) : M A := fun w => (c, w).

(** [try { body } catch (e) { handler }] *)
Definition try_catch {A} (body : M A) (handler : value -> M A) : M A :=
  fun w =>
    match body w with
    | (Ok a, w') => (Ok a, w')
    | (Throw e, w') => handler e w'
    end.

Definition getSession : M Session.t := fun w => (Ok (session w), w).
Definition modifySession (f : Session.t -> Session.t) : M unit :=
  fun w => (Ok tt, with_session f w).

(** [this.context.session.save()] *)
Definition saveSession : M unit :=
  fun w => (Ok tt, {| session := session w; saves := S (saves w);
                      requests := requests w |}).

(** [customerToken.token] after the default [customerToken = {}]. *)
Definition token_of (c : option CustomerToken) : value :=
  match c with Some t => token t | None => VUndef end.

(** [cart && cart.quoteId] *)
Definition quoteId_of (c : option Cart) : value :=
  match c with Some c => quoteId c | None => VUndef end.

Definition cart_value (c : Cart) : value := VObj [("quoteId", quoteId c)].

Definition emptyCart : value :=
  VObj [("active", VBool false); ("itemsQty", VNum 0);
        ("items", arr []); ("totals", arr [])].

(** The error a REST call fails with. *)
Definition backend_error (statusCode : Z) (message : string) : value :=
  VObj [("message", VStr message); ("statusCode", VNum statusCode)].

Definition defined {A} (o : option A) : bool :=
  match o with Some _ => true | None => false end.

(** lodash [has(object, key)] and [isPlainObject]. *)
Definition has (v : value) (k : string) : bool :=
  match v with
  | VObj o => defined (obj_get k o)
  | VArr _ p => defined (obj_get k p)
  | _ => false
  end.
Definition isPlainObject (v : value) : bool :=
  match v with VObj _ => true | _ => false end.

(** [v instanceof Object] *)
Definition isObject (v : value) : bool :=
  match v with VObj _ | VArr _ _ => true | _ => false end.

(** ** Request handlers *)

Section Adapter.

(** The REST backend answers a request with a response object or fails
    with an error; its answer may depend on the requests it has already
    served. *)
Variable backend : list Request -> Request -> outcome value.

Variable convertKeys : value -> value.
Variable parseFloat : value -> value.
Variable parseInt : value -> value.
Variable JSON_parse : string -> outcome value.

(** [Date.now()], and
    [addMinutes(dateNow, validTime * 60 - 1).getTime()] of date-fns. *)
Variable Date_now : value.
Variable expirationTime_after : value -> value -> value.

(** [Number(page)] *)
Variable Number : value -> value.

(** [convertList(response, currency)] and [reduceUrl(data, currency)]:
    converters of listing payloads, which work on their two arguments
    only. They are kept abstract here. *)
Variable convertList : value -> value -> outcome value.
Variable reduceUrl : value -> value -> outcome value.

(** Modelled from the spec: the REST verbs [get], [post], [put] and
    [delete] of the base class [Magento2ApiBase], whose source is not
    available.  A verb sends one request to the backend and resolves to
    the response object, or throws the error the call failed with. *)
Definition rest (m : verb) (p : string) (data ctx : value) : M value :=
  fun w =>
    let r := {| method := m; path := p; payload := data; context := ctx |} in
    (backend (requests w) r,
     {| session := session w; saves := saves w;
        requests := r :: requests w |}).

(** Modelled from the spec: what the base class does with a
    [didReceiveResult] hook passed in the request context.  The hook is
    applied to the data of the response. *)
Definition rest_with (hook : value -> outcome value) (m : verb)
  (p : string) (data ctx : value) : M value :=
  response <- rest m p data ctx ;;
  result <- lift (get_prop response "data") ;;
  result <- lift (hook result) ;;
  ret (with_data response result).

Definition removeCartData : M unit :=
  modifySession (Session.set_cart None) ;;
  saveSession.

(** The part of [ensureCart] that runs when the session has no usable
    cart. *)
Definition createCart (token : value) : M Cart :=
  let cartPath := if truthy token then "/carts/mine" else "/guest-carts" in
  response <- rest POST cartPath VUndef VUndef ;;
  data <- lift (get_prop response "data") ;;
  let created := {| quoteId := data |} in
  modifySession (Session.set_cart (Some created)) ;;
  ret created.

Definition ensureCart : M Cart :=
  s <- getSession ;;
  let token := token_of (Session.customerToken s) in
  match Session.cart s with
  | Some c => if truthy (quoteId c) then ret c else createCart token
  | None => createCart token
  end.

Definition getCartPath : M string :=
  s <- getSession ;;
  let token := token_of (Session.customerToken s) in
  if negb (truthy token) && negb (defined (Session.cart s)) then
    throw (new_Error "No cart in session for not registered user.")
  else if truthy token then ret "/carts/mine"
  else ret ("/guest-carts/" +:+ to_string (quoteId_of (Session.cart s))).

(** The [catch] block of [addToCart]. *)
Definition addToCart_catch (e : value) : M value :=
  statusCode <- lift (get_prop e "statusCode") ;;
  if strict_eq statusCode (VNum 400) then
    message <- lift (get_prop e "message") ;;
    stock <- lift (match_prefix message "We don't have as many") ;;
    if (stock : bool) then
      e <- lift (set_prop e "code" (VStr "STOCK_TOO_LOW")) ;;
      e <- lift (set_prop e "userMessage" (VBool true)) ;;
      e <- lift (set_prop e "noLogging" (VBool true)) ;;
      throw e
    else throw e
  else
    message <- lift (get_prop e "message") ;;
    gone <- lift (match_prefix message "No such entity with cartId") ;;
    if (gone : bool) then
      removeCartData ;;
      e <- lift (set_prop e "code" (VStr "INVALID_CART")) ;;
      throw e
    else throw e.

(** The request body [addToCart] builds from its input. *)
Definition cartItemRequest (input : value) (cartData : Cart)
  : outcome value :=
  sku <- get_prop input "sku" ;;
  qty <- get_prop input "qty" ;;
  let cart_item := [("sku", sku); ("qty", qty);
                    ("quote_id", quoteId cartData)] in
  configurableOptions <- get_prop input "configurableOptions" ;;
  cart_item <-
    (if truthy configurableOptions then
       match configurableOptions with
       | VArr options _ =>
           mapped <- mapM (fun item =>
                             optionId <- get_prop item "optionId" ;;
                             val <- get_prop item "value" ;;
                             Ok (VObj [("option_id", optionId);
                                       ("option_value", val)]))
                          options ;;
           Ok (obj_set "product_option"
                 (VObj [("extension_attributes",
                         VObj [("configurable_item_options", arr mapped)])])
                 cart_item)
       | _ => Throw TypeError
       end
     else Ok cart_item) ;;
  bundleOptions <- get_prop input "bundleOptions" ;;
  let cart_item :=
    if truthy bundleOptions then
      obj_set "product_option"
        (VObj [("extension_attributes",
                VObj [("bundle_options", bundleOptions)])])
        cart_item
    else cart_item in
  Ok (VObj [("cart_item", VObj cart_item)]).

(** [addToCart(obj, { input })] *)
Definition addToCart (args : value) : M value :=
  input <- lift (get_prop args "input") ;;
  cartData <- ensureCart ;;
  cartPath <- getCartPath ;;
  product <- lift (cartItemRequest input cartData) ;;
  try_catch
    (response <- rest POST (cartPath +:+ "/items") product VUndef ;;
     cartItem <- lift (get_prop response "data") ;;
     let cartItem := convertKeys cartItem in
     processed <- lift (processPrice parseFloat cartItem ["price"]) ;;
     ret (match cartItem with VUndef => VUndef | _ => processed end))
    addToCart_catch.

(** [Promise.all([a, b])]: both calls are started before either is
    awaited; the promise resolves to both results or rejects.  Which of
    two failures it rejects with is a matter of timing. *)
Definition promise_all2 (a b : M value) : M (value * value) :=
  fun w =>
    let '(first, w) := a w in
    let '(second, w) := b w in
    (x <- first ;; y <- second ;; Ok (x, y), w).

(** [cart()] *)
Definition cart : M value :=
  s <- getSession ;;
  let quoteId := quoteId_of (Session.cart s) in
  if negb (truthy quoteId) then ret emptyCart
  else
    cartPath <- getCartPath ;;
    try_catch
      (let hook result := Ok (convertKeys result) in
       both <- promise_all2
                 (rest_with hook GET cartPath (VObj []) (VObj []))
                 (rest_with hook GET (cartPath +:+ "/totals")
                    (VObj []) (VObj [])) ;;
       quote <- lift (get_prop both.1 "data") ;;
       totals <- lift (get_prop both.2 "data") ;;
       lift (convertCartData JSON_parse parseFloat quote totals))
      (fun ex => removeCartData ;; ret emptyCart).

(** The [catch] block of [signIn]. *)
Definition signIn_catch (e : value) : M value :=
  statusCode <- lift (get_prop e "statusCode") ;;
  if strict_eq statusCode (VNum 401) then
    e <- lift (set_prop e "userMessage" (VBool true)) ;;
    e <- lift (set_prop e "noLogging" (VBool true)) ;;
    throw e
  else throw e.

(** [signIn(obj, { input })] *)
Definition signIn (args : value) : M value :=
  input <- lift (get_prop args "input") ;;
  s <- getSession ;;
  let quoteId := or_default (quoteId_of (Session.cart s)) VNull in
  let dateNow := Date_now in
  try_catch
    (email <- lift (get_prop input "email") ;;
     password <- lift (get_prop input "password") ;;
     response <- rest POST "/integration/customer/token"
                   (VObj [("username", email); ("password", password);
                          ("guest_quote_id", quoteId)])
                   (VObj [("skipAuth", VBool true)]) ;;
     data <- lift (get_prop response "data") ;;
     let converted := convertKeys data in
     token <- lift (get_prop converted "token") ;;
     validTime <- lift (get_prop converted "validTime") ;;
     modifySession
       (Session.set_customerToken
          (Some {| token := token;
                   expirationTime :=
                     expirationTime_after dateNow validTime |})) ;;
     modifySession (Session.set_cart None) ;;
     ensureCart ;;
     ret (VBool true))
    signIn_catch.

(** [signOut()] *)
Definition signOut : M value :=
  modifySession (Session.set_customerToken None) ;;
  modifySession (Session.set_cart None) ;;
  ret (VBool true).

(** The [catch] block of [signUp]. *)
Definition signUp_catch (e : value) : M unit :=
  statusCode <- lift (get_prop e "statusCode") ;;
  if strict_eq statusCode (VNum 400) then
    e <- lift (set_prop e "userMessage" (VBool true)) ;;
    e <- lift (set_prop e "noLogging" (VBool true)) ;;
    throw e
  else throw e.

(** [signUp(obj, { input })].  The promise of [signIn] is returned
    without [await], so its rejection does not pass through the [catch]
    block. *)
Definition signUp (args : value) : M value :=
  input <- lift (get_prop args "input") ;;
  email <- lift (get_prop input "email") ;;
  firstname <- lift (get_prop input "firstname") ;;
  lastname <- lift (get_prop input "lastname") ;;
  password <- lift (get_prop input "password") ;;
  autoSignIn <- lift (get_prop input "autoSignIn") ;;
  s <- getSession ;;
  let quoteId := or_default (quoteId_of (Session.cart s)) VNull in
  let customerData :=
    VObj [("customer",
           VObj [("email", email); ("firstname", firstname);
                 ("lastname", lastname);
                 ("extension_attributes",
                  VObj [("guest_quote_id", quoteId)])]);
          ("password", password)] in
  try_catch (rest POST "/customers" customerData VUndef ;; ret tt)
    signUp_catch ;;
  if truthy autoSignIn then
    signIn (VObj [("input", VObj [("email", email); ("password", password)])])
  else ret (VBool true).

(** [convertAddressData(response)] *)
Definition convertAddressData (response : value) : outcome value :=
  let response := convertKeys response in
  response <- (if negb (has response "defaultBilling")
               then set_prop response "defaultBilling" (VBool false)
               else Ok response) ;;
  response <- (if negb (has response "defaultShipping")
               then set_prop response "defaultShipping" (VBool false)
               else Ok response) ;;
  region <- get_prop response "region" ;;
  if isPlainObject region then
    inner <- get_prop region "region" ;;
    set_prop response "region" inner
  else Ok response.

(** [customer()] *)
Definition customer : M value :=
  s <- getSession ;;
  if negb (truthy (token_of (Session.customerToken s))) then ret VNull
  else
    response <- rest GET "/customers/me" VUndef VUndef ;;
    data <- lift (get_prop response "data") ;;
    let convertedData := convertKeys data in
    addresses <- lift (get_prop convertedData "addresses") ;;
    mapped <- lift (match addresses with
                    | VArr l _ => mapM convertAddressData l
                    | _ => Throw TypeError
                    end) ;;
    convertedData <- lift (set_prop convertedData "addresses" (arr mapped)) ;;
    own <- lift (get_prop convertedData "extensionAttributes") ;;
    let extensionAttributes := or_default own (VObj []) in
    convertedData <-
      (if negb (isEmpty extensionAttributes)
       then lift (del_prop convertedData "extensionAttributes")
       else ret convertedData) ;;
    ret (VObj (assign (assign [] convertedData) extensionAttributes)).

(** [orders(obj, params)] *)
Definition orders (params : value) : M value :=
  query <- lift (get_prop params "query") ;;
  page <- lift (get_prop query "page") ;;
  perPage <- lift (get_prop query "perPage") ;;
  s <- getSession ;;
  if negb (truthy (token_of (Session.customerToken s))) then
    throw (new_Error
             "Trying to fetch customer orders without valid customer token")
  else
    let searchCriteria :=
      [("currentPage", page);
       ("sortOrders", arr [VObj [("field", VStr "created_at");
                                 ("direction", VStr "desc")]])] in
    let searchCriteria :=
      if truthy perPage then obj_set "pageSize" perPage searchCriteria
      else searchCriteria in
    response <- rest GET "/orders/mine"
                  (VObj [("searchCriteria", VObj searchCriteria)]) VUndef ;;
    data <- lift (get_prop response "data") ;;
    ret (convertKeys data).

(** [order(obj, params)].  The request is not awaited before
    [convertOrder] receives it: [convertOrder] finds no [data] on the
    promise and hands it back, so the handler resolves to the response
    as the backend sent it. *)
Definition order (params : value) : M value :=
  id <- lift (get_prop params "id") ;;
  s <- getSession ;;
  if negb (truthy id) then throw (new_Error "Failed to load an order.")
  else if negb (truthy (token_of (Session.customerToken s))) then
    throw (new_Error "Failed to load an order.")
  else rest GET ("/orders/" +:+ to_string id +:+ "/order-info") VUndef VUndef.

(** [updateCartItem(obj, { input })] *)
Definition updateCartItem (args : value) : M value :=
  input <- lift (get_prop args "input") ;;
  s <- getSession ;;
  match Session.cart s with
  | None => throw TypeError
  | Some c =>
      let quoteId := quoteId c in
      itemId <- lift (get_prop input "itemId") ;;
      sku <- lift (get_prop input "sku") ;;
      qty <- lift (get_prop input "qty") ;;
      cartPath <- getCartPath ;;
      if negb (truthy quoteId) then
        throw (new_Error "Trying to update cart item without quoteId")
      else
        let data :=
          VObj [("cartItem", VObj [("quote_id", quoteId); ("sku", sku);
                                   ("qty", parseInt qty)])] in
        response <- rest PUT (cartPath +:+ "/items/" +:+ to_string itemId)
                      data VUndef ;;
        cartItem <- lift (get_prop response "data") ;;
        let cartItem := convertKeys cartItem in
        processed <- lift (processPrice parseFloat cartItem ["price"]) ;;
        ret (match cartItem with VUndef => VUndef | _ => processed end)
  end.

(** [removeCartItem(obj, { input })] *)
Definition removeCartItem (args : value) : M value :=
  input <- lift (get_prop args "input") ;;
  s <- getSession ;;
  itemId <- lift (get_prop input "itemId") ;;
  cartPath <- getCartPath ;;
  if truthy (quoteId_of (Session.cart s)) then
    result <- rest DELETE (cartPath +:+ "/items/" +:+ to_string itemId)
                VUndef VUndef ;;
    data <- lift (get_prop result "data") ;;
    if truthy data then ret (VObj [("itemId", itemId)]) else ret (VObj [])
  else ret (VObj []).

(** [forwardAddressAction({ id, method, data })] on the default path
    ['/customers/me/address']. *)
Definition forwardAddressAction (id : value) (m : verb) (data : value)
  : M value :=
  let path := "/customers/me/address" in
  s <- getSession ;;
  if negb (truthy (token_of (Session.customerToken s))) then
    throw (new_Error "You do not have an access to edit address data")
  else
    let addressPath :=
      if truthy id then path +:+ "/" +:+ to_string id else path in
    let sends_body := match m with GET | DELETE => false | _ => true end in
    addressData <-
      (if sends_body then
         street <- lift (get_prop data "street") ;;
         let street := if isArray street then street else arr [street] in
         ret (VObj [("address",
                     VObj (obj_set "street" street (assign [] data)))])
       else ret VNull) ;;
    response <- rest m addressPath addressData VUndef ;;
    result <- lift (get_prop response "data") ;;
    match m with
    | DELETE => ret result
    | _ => lift (convertAddressData result)
    end.

(** [address], [addCustomerAddress], [editCustomerAddress] and
    [removeCustomerAddress]. *)
Definition address (params : value) : M value :=
  params <- ret (or_default params (VObj [])) ;;
  id <- lift (get_prop params "id") ;;
  forwardAddressAction id GET VNull.
Definition addCustomerAddress (args : value) : M value :=
  input <- lift (get_prop args "input") ;;
  forwardAddressAction VUndef POST (or_default input VNull).
Definition editCustomerAddress (args : value) : M value :=
  input <- lift (get_prop args "input") ;;
  forwardAddressAction VUndef PUT (or_default input VNull).
Definition removeCustomerAddress (args : value) : M value :=
  input <- lift (get_prop args "input") ;;
  id <- lift (get_prop input "id") ;;
  forwardAddressAction id DELETE VNull.

(** [validatePasswordToken(obj, params)]: the [catch] block marks the
    error and does not rethrow it. *)
Definition validatePasswordToken (params : value) : M value :=
  token <- lift (get_prop params "token") ;;
  let validatePath :=
    "/customers/0/password/resetLinkToken/" +:+ to_string token in
  try_catch
    (result <- rest GET validatePath VUndef VUndef ;;
     lift (get_prop result "data"))
    (fun e =>
       e <- lift (set_prop e "userMessage" (VBool true)) ;;
       e <- lift (set_prop e "noLogging" (VBool true)) ;;
       ret VUndef).

(** The [catch] block of [changeCustomerPassword]. *)
Definition changeCustomerPassword_catch (e : value) : M value :=
  statusCode <- lift (get_prop e "statusCode") ;;
  if strict_eq statusCode (VNum 401) || strict_eq statusCode (VNum 503) then
    e <- lift (set_prop e "userMessage" (VBool true)) ;;
    e <- lift (del_prop e "code") ;;
    e <- lift (set_prop e "noLogging" (VBool true)) ;;
    throw e
  else throw e.

(** [changeCustomerPassword(obj, { input })] *)
Definition changeCustomerPassword (args : value) : M value :=
  input <- lift (get_prop args "input") ;;
  newPassword <- lift (get_prop input "password") ;;
  currentPassword <- lift (get_prop input "currentPassword") ;;
  s <- getSession ;;
  if negb (truthy (token_of (Session.customerToken s))) then
    throw (new_Error "You do not have an access to edit account data")
  else
    try_catch
      (result <- rest PUT "/customers/me/password"
                   (VObj [("currentPassword", currentPassword);
                          ("newPassword", newPassword)]) VUndef ;;
       lift (get_prop result "data"))
      changeCustomerPassword_catch.

(** The [catch] block of [applyCoupon]. *)
Definition applyCoupon_catch (e : value) : M value :=
  statusCode <- lift (get_prop e "statusCode") ;;
  if strict_eq statusCode (VNum 404) then
    e <- lift (set_prop e "userMessage" (VBool true)) ;;
    e <- lift (set_prop e "noLogging" (VBool true)) ;;
    throw e
  else throw e.

(** [applyCoupon(obj, { input })] *)
Definition applyCoupon (args : value) : M value :=
  input <- lift (get_prop args "input") ;;
  s <- getSession ;;
  route <- getCartPath ;;
  if negb (truthy (quoteId_of (Session.cart s))) then
    throw (new_Error "Trying to apply coupon without quoteId in session")
  else
    try_catch
      (couponCode <- lift (get_prop input "couponCode") ;;
       result <- rest PUT (route +:+ "/coupons/" +:+ to_string couponCode)
                   VUndef VUndef ;;
       lift (get_prop result "data"))
      applyCoupon_catch.

(** [cancelCoupon()].  The request is sent and not awaited: the handler
    reads [data] off the pending promise, which is undefined, and a
    failure of the request never reaches the caller. *)
Definition cancelCoupon : M value :=
  s <- getSession ;;
  route <- getCartPath ;;
  if truthy (quoteId_of (Session.cart s)) then
    (fun w => (Ok VUndef,
               (rest DELETE (route +:+ "/coupons") VUndef VUndef w).2))
  else throw (new_Error "Trying to remove coupon without quoteId in session").

(** [prepareAddressForOrder(address)] *)
Definition prepareAddressForOrder (address : value) : value :=
  VObj (obj_del "id"
          (obj_del "defaultShipping"
             (obj_del "defaultBilling" (assign [] address)))).

(** [performCartAction(path, method, data)] *)
Definition performCartAction (p : string) (m : verb) (data : value)
  : M value :=
  s <- getSession ;;
  match Session.cart s with
  | None => throw TypeError
  | Some c =>
      if negb (truthy (quoteId c)) then
        throw (new_Error
                 ("Quote id is empty, cannot perform api call for " +:+ p))
      else
        cartPath <- getCartPath ;;
        response <- rest m (cartPath +:+ p)
                      (match m with GET => VNull | _ => data end) VUndef ;;
        result <- lift (get_prop response "data") ;;
        let cartData := convertKeys result in
        if isObject cartData then ret (with_data response cartData)
        else lift (set_prop response "data" (VObj [("data", cartData)]))
  end.

(** [estimateShippingMethods(obj, { input })] *)
Definition estimateShippingMethods (args : value) : M value :=
  input <- lift (get_prop args "input") ;;
  address <- lift (get_prop input "address") ;;
  input <- lift (set_prop input "address" (prepareAddressForOrder address)) ;;
  response <- performCartAction "/estimate-shipping-methods" POST
                (VObj (assign [] input)) ;;
  data <- lift (get_prop response "data") ;;
  match data with
  | VArr methods named =>
      s <- getSession ;;
      methods <- lift (mapM (fun method =>
                               set_prop method "currency" (Session.currency s))
                            methods) ;;
      ret (convertKeys (VArr methods named))
  | _ => throw TypeError
  end.

(** [setShipping(obj, { input })] *)
Definition setShipping (args : value) : M value :=
  input <- lift (get_prop args "input") ;;
  billingAddress <- lift (get_prop input "billingAddress") ;;
  shippingAddress <- lift (get_prop input "shippingAddress") ;;
  let magentoData :=
    VObj [("addressInformation",
           VObj (obj_set "shippingAddress"
                   (prepareAddressForOrder shippingAddress)
                   (obj_set "billingAddress"
                      (prepareAddressForOrder billingAddress)
                      (assign [] input))))] in
  response <- performCartAction "/shipping-information" POST magentoData ;;
  data <- lift (get_prop response "data") ;;
  ret (convertKeys data).

(** The [catch] block of [placeOrder]. *)
Definition placeOrder_catch (e : value) : M value :=
  statusCode <- lift (get_prop e "statusCode") ;;
  if strict_eq statusCode (VNum 400) then
    e <- lift (set_prop e "userMessage" (VBool true)) ;;
    e <- lift (set_prop e "noLogging" (VBool true)) ;;
    throw e
  else throw e.

(** [placeOrder(obj, { input })] *)
Definition placeOrder (args : value) : M value :=
  input <- lift (get_prop args "input") ;;
  response <- try_catch
                (performCartAction "/deity-order" PUT (VObj (assign [] input)))
                placeOrder_catch ;;
  orderData <- lift (get_prop response "data") ;;
  extensionAttributes <- lift (get_prop orderData "extensionAttributes") ;;
  adyen <- (if truthy extensionAttributes
            then lift (get_prop extensionAttributes "adyen")
            else ret extensionAttributes) ;;
  orderData <-
    (if truthy adyen then
       orderData <- lift (set_prop orderData "adyen" adyen) ;;
       extensionAttributes <- lift (del_prop extensionAttributes "adyen") ;;
       ret (put_prop orderData "extensionAttributes" extensionAttributes)
     else ret orderData) ;;
  let response := with_data response orderData in
  orderId <- lift (get_prop orderData "orderId") ;;
  modifySession (Session.set_orderId orderId) ;;
  s <- getSession ;;
  if negb (truthy (Session.orderId s)) then
    throw (new_Error "no order id from magento.")
  else
    match Session.cart s with
    | None => throw TypeError
    | Some c =>
        modifySession (Session.set_orderQuoteId (quoteId c)) ;;
        lift (get_prop response "data")
    end.

(** [lastOrder()] *)
Definition lastOrder : M value :=
  s <- getSession ;;
  let orderId := Session.orderId s in
  let paypalExpressHash := Session.paypalExpressHash s in
  lastOrderId <-
    (if negb (truthy orderId) && truthy paypalExpressHash then
       orderIdRequest <-
         rest GET ("/orders/get-order-from-paypal-hash/"
                   +:+ to_string paypalExpressHash) VUndef VUndef ;;
       lift (get_prop orderIdRequest "data")
     else ret orderId) ;;
  if negb (truthy lastOrderId) then ret (VObj [])
  else
    response <- rest GET ("/orders/" +:+ to_string lastOrderId) (VObj [])
                  (VObj [("useAdminToken", VBool true)]) ;;
    data <- lift (get_prop response "data") ;;
    let data := convertKeys data in
    payment <- lift (get_prop data "payment") ;;
    paymentMethod <- lift (get_prop payment "method") ;;
    lift (set_prop data "paymentMethodName" paymentMethod).

(** [fetchList(path, params)] *)
Definition fetchList (p : string) (params : value) : M value :=
  query <- lift (get_prop params "query") ;;
  let query := or_default query (VObj []) in
  page <- lift (get_prop query "page") ;;
  let page := or_default page (VNum 1) in
  perPage <- lift (get_prop query "perPage") ;;
  filters <- lift (get_prop params "filters") ;;
  let filterGroups := or_default filters (arr []) in
  includeSubcategories <- lift (get_prop params "includeSubcategories") ;;
  let includeSubcategories := or_default includeSubcategories (VBool false) in
  withAttributeFilters <- lift (get_prop params "withAttributeFilters") ;;
  let withAttributeFilters := or_default withAttributeFilters (arr []) in
  sortOrders <- lift (get_prop params "sortOrders") ;;
  let sortOrders := or_default sortOrders (VObj []) in
  let searchCriteria :=
    [("sortOrders", sortOrders); ("currentPage", Number page);
     ("filterGroups", filterGroups)] in
  let searchCriteria :=
    if truthy perPage then obj_set "pageSize" perPage searchCriteria
    else searchCriteria in
  (* [sortOrders.length] throws on [null]; the assignment it guards stores
     the value the property already has *)
  sortOrdersLength <- lift (get_prop sortOrders "length") ;;
  response <- rest GET p
                (VObj [("includeSubcategories", includeSubcategories);
                       ("withAttributeFilters", withAttributeFilters);
                       ("searchCriteria", VObj searchCriteria)])
                (VObj [("useAdminToken", VBool true)]) ;;
  s <- getSession ;;
  lift (convertList response (Session.currency s)).

(** [fetchUrl(_, params)]: the hook reads the currency when the result
    arrives. *)
Definition fetchUrl (params : value) : M value :=
  p <- lift (get_prop params "path") ;;
  loadEntityData <- lift (get_prop params "loadEntityData") ;;
  let loadEntityData := or_default loadEntityData (VBool false) in
  response <- rest GET "/url/"
                (VObj [("request_path", p);
                       ("load_entity_data", loadEntityData)])
                (VObj []) ;;
  result <- lift (get_prop response "data") ;;
  s <- getSession ;;
  result <- lift (reduceUrl result (Session.currency s)) ;;
  ret (with_data response result).

(** [product(obj, { id })] *)
Definition product (args : value) : M value :=
  id <- lift (get_prop args "id") ;;
  fetchUrl (VObj [("path", VStr ("catalog/product/view/id/" +:+ to_string id));
                  ("loadEntityData", VBool true)]).

(** [countries()] *)
Definition countries : M value :=
  response <- rest GET "/directory/countries" (VObj [])
                (VObj [("useAdminToken", VBool false)]) ;;
  data <- lift (get_prop response "data") ;;
  match data with
  | VArr items _ =>
      mapped <- lift (mapM (fun item =>
                              id <- get_prop item "id" ;;
                              english <- get_prop item "full_name_english" ;;
                              locale <- get_prop item "full_name_locale" ;;
                              regions <- get_prop item "available_regions" ;;
                              Ok (VObj [("code", id);
                                        ("englishName", english);
                                        ("localName", locale);
                                        ("regions", js_or regions (arr []))]))
                           items) ;;
      ret (VObj [("items", arr mapped)])
  | _ => throw TypeError
  end.

(** [editCustomerData(obj, { input })] *)
Definition editCustomerData (args : value) : M value :=
  input <- lift (get_prop args "input") ;;
  response <- rest PUT "/customers/me"
                (VObj [("customer", VObj (assign [] input))]) VUndef ;;
  data <- lift (get_prop response "data") ;;
  ret (convertKeys data).

(** [requestCustomerPasswordResetToken(obj, { input })] *)
Definition requestCustomerPasswordResetToken (args : value) : M value :=
  input <- lift (get_prop args "input") ;;
  email <- lift (get_prop input "email") ;;
  rest PUT "/customers/password"
    (VObj [("email", email); ("template", VStr "email_reset")]) VUndef ;;
  ret (VBool true).

(** [resetCustomerPassword(obj, { input })] *)
Definition resetCustomerPassword (args : value) : M value :=
  input <- lift (get_prop args "input") ;;
  resetToken <- lift (get_prop input "resetToken") ;;
  newPassword <- lift (get_prop input "password") ;;
  result <- rest PUT "/customers/password/reset"
              (VObj [("email", VStr ""); ("resetToken", resetToken);
                     ("newPassword", newPassword)]) VUndef ;;
  lift (get_prop result "data").

(** The [ShopConfig] resolvers of [addTypeResolvers]. *)
Definition baseCurrency : M value :=
  s <- getSession ;; ret (Session.baseCurrency s).
Definition timezone : M value :=
  s <- getSession ;; ret (Session.timezone s).
Definition weightUnit : M value :=
  s <- getSession ;; ret (Session.weightUnit s).

(** The request [addToCart] posts, once the cart is ensured. *)
Definition addToCart_request (args : value) : M Request :=
  input <- lift (get_prop args "input") ;;
  cartData <- ensureCart ;;
  cartPath <- getCartPath ;;
  product <- lift (cartItemRequest input cartData) ;;
  ret {| method := POST; path := cartPath +:+ "/items";
         payload := product; context := VUndef |}.

End Adapter.

(** ** Properties of handlers *)

(** The error a run ends with, if it throws. *)
Definition thrown {A} (r : outcome A * World) : option value :=
  match r.1 with Throw e => Some e | Ok _ => None end.

(** [e.userMessage === true]: the error is shown to the user. *)
Definition user_visible (e : value) : bool :=
  match get_prop e "userMessage" with
  | Ok v => strict_eq v (VBool true)
  | Throw _ => false
  end.

(** The run of a handler ends with an error that is marked as
    user-visible. *)
Definition marked {A} (r : outcome A * World) : bool :=
  match thrown r with
  | Some e => user_visible e
  | None => false
  end.

(** Two sessions have the same cart, customer token and currency. *)
Definition same_three (s s' : Session.t) : Prop :=
  Session.cart s = Session.cart s' /\
  Session.customerToken s = Session.customerToken s' /\
  Session.currency s = Session.currency s'.

(** Every session field but the cart, the customer token and the currency
    has the same content in [s] and [s']. *)
Definition same_but_three (s s' : Session.t) : Prop :=
  Session.orderId s = Session.orderId s' /\
  Session.orderQuoteId s = Session.orderQuoteId s' /\
  Session.paypalExpressHash s = Session.paypalExpressHash s' /\
  Session.baseCurrency s = Session.baseCurrency s' /\
  Session.timezone s = Session.timezone s' /\
  Session.weightUnit s = Session.weightUnit s' /\
  Session.other s = Session.other s'.

(** Every session field no handler writes has the same content in [s] and
    [s']: all but [cart], [customerToken], [orderId] and [orderQuoteId]. *)
Definition same_unwritten (s s' : Session.t) : Prop :=
  Session.currency s = Session.currency s' /\
  Session.paypalExpressHash s = Session.paypalExpressHash s' /\
  Session.baseCurrency s = Session.baseCurrency s' /\
  Session.timezone s = Session.timezone s' /\
  Session.weightUnit s = Session.weightUnit s' /\
  Session.other s = Session.other s'.

(** Two sessions have the same content in every field some handler reads:
    all named fields but [orderQuoteId], which [same_written] is about. *)
Definition same_read (s s' : Session.t) : Prop :=
  Session.cart s = Session.cart s' /\
  Session.customerToken s = Session.customerToken s' /\
  Session.currency s = Session.currency s' /\
  Session.orderId s = Session.orderId s' /\
  Session.paypalExpressHash s = Session.paypalExpressHash s' /\
  Session.baseCurrency s = Session.baseCurrency s' /\
  Session.timezone s = Session.timezone s' /\
  Session.weightUnit s = Session.weightUnit s'.

(** Two worlds a handler cannot tell apart: the fields it may read agree
    and the backend has served the same requests. *)
Definition alike (w w' : World) : Prop :=
  same_read (session w) (session w') /\ requests w = requests w'.

(** Two worlds that differ at most outside the cart, the customer token
    and the currency of the session. *)
Definition alike_on_three (w w' : World) : Prop :=
  same_three (session w) (session w') /\ requests w = requests w'.

(** The value [convertAttributesSet] is to file under key [k]: that of the
    last record of the array whose attribute code prints as [k]. *)
Fixpoint attribute_value (k : string) (attributes : list value)
  : option value :=
  match attributes with
  | [] => None
  | a :: rest =>
      match attribute_value k rest with
      | Some v => Some v
      | None =>
          match a with
          | VObj o =>
              if String.eqb k (to_string (prop o "attribute_code"))
              then Some (prop o "value") else None
          | _ => None
          end
      end
  end.

(** The payload [convertProductData] works on: the data of the response,
    with its attributes flattened and its keys converted. *)
Definition productData (convertKeys : value -> value) (response : value)
  : outcome value :=
  response <- convertAttributesSet response ;;
  data <- get_prop response "data" ;;
  Ok (convertKeys data).

(** The two requests [cart] sends for the cart at [cartPath]. *)
Definition quote_request (cartPath : string) : Request :=
  {| method := GET; path := cartPath; payload := VObj [];
     context := VObj [] |}.
Definition totals_request (cartPath : string) : Request :=
  {| method := GET; path := cartPath +:+ "/totals"; payload := VObj [];
     context := VObj [] |}.

(** The request [ensureCart] sends to create a cart. *)
Definition createCart_request (token : value) : Request :=
  {| method := POST;
     path := if truthy token then "/carts/mine" else "/guest-carts";
     payload := VUndef; context := VUndef |}.

(** What two runs, one from [w] to [post] and one from [w'] to [post'],
    have done to [orderQuoteId], the field that is written and never read:
    each has left the value it found, or both have stored the same
    value. *)
Definition same_written (w w' post post' : World) : Prop :=
  (Session.orderQuoteId (session post) = Session.orderQuoteId (session w) /\
   Session.orderQuoteId (session post')
   = Session.orderQuoteId (session w')) \/
  Session.orderQuoteId (session post) = Session.orderQuoteId (session post').

(** A computation is confined when it leaves the unwritten fields of the
    session as they were, and when its outcome, the requests it sends and
    what it leaves in the session fields that are read or written depend
    on nothing in the session but the fields that may be read. *)
Definition confined {A} (m : M A) : Prop :=
  (forall w, same_unwritten (session w) (session (m w).2)) /\
  (forall w w', alike w w' ->
                (m w).1 = (m w').1 /\ alike (m w).2 (m w').2 /\
                same_written w w' (m w).2 (m w').2).

(** [d] is an object whose [price] is [p]. *)
Definition priced (p d : value) : Prop :=
  isObject d = true /\ get_prop d "price" = Ok p.

(** ** Sample payloads *)

(** A payload whose keys are in camelCase already is left as it is by
    [convertKeys], and a text without markup by [stripHtml]. *)
Definition camelCase_already (v : value) : value := v.
Definition no_markup (v : value) : outcome value := Ok v.
Definition never_parsed (s : string) : outcome value := Throw TypeError.
Definition unused_query (v : value) : string := "".

Definition attribute (code : string) (v : value) : value :=
  VObj [("attribute_code", VStr code); ("value", v)].

Definition category_response : value :=
  VObj [("data",
         VObj [("id", VNum 4);
               ("custom_attributes",
                arr [attribute "url_path" (VStr "men/shoes");
                     attribute "display_mode" (VStr "PRODUCTS");
                     attribute "url_path" (VStr "men/boots")])])].

Definition bare_response : value :=
  VObj [("data", VObj [("id", VNum 1)])].

Definition flat_response : value :=
  VObj [("data", VObj [("id", VNum 1);
                       ("custom_attributes",
                        VObj [("url_path", VStr "men")])])].

Definition breadcrumb (name urlPath : string) (urlQuery : value) : value :=
  VObj [("name", VStr name); ("urlPath", VStr urlPath);
        ("urlKey", VStr urlPath); ("urlQuery", urlQuery)].

Definition sample_breadcrumbs : value :=
  arr [breadcrumb "Men" "men" (arr [VStr "{}"]);
       breadcrumb "Shoes" "men/shoes" VNull].

Definition segment (code : string) (amount : Z) : value :=
  VObj [("code", VStr code); ("value", VNum amount)].

Definition totals_response (segments : list value) : value :=
  VObj [("data", VObj [("grandTotal", VNum 95);
                       ("totalSegments", arr segments)])].

Definition sample_segments : list value :=
  [segment "subtotal" 100; segment "shipping" 5; segment "discount" (-10);
   segment "grand_total" 95].

(** A [convertKeys] for payloads with snake_case keys: an underscore is
    dropped and the letter after it is capitalised, at every level. *)
Definition upper (c : ascii) : ascii :=
  let n := nat_of_ascii c in
  if ((97 <=? n) && (n <=? 122))%nat then ascii_of_nat (n - 32) else c.

Fixpoint camelCase_from (up : bool) (s : string) : string :=
  match s with
  | EmptyString => EmptyString
  | String c s' =>
      if Ascii.eqb c "_"%char then camelCase_from true s'
      else String (if up then upper c else c) (camelCase_from false s')
  end.
Definition camelCase := camelCase_from false.

Fixpoint snake_to_camel (v : value) : value :=
  match v with
  | VObj o => VObj (map (fun kv => (camelCase kv.1, snake_to_camel kv.2)) o)
  | VArr l p => VArr (map snake_to_camel l) p
  | _ => v
  end.

Definition product_response (price : value) (extension : props value)
  : value :=
  VObj [("data",
         VObj [("sku", VStr "24-WB01"); ("name", VStr "Duffle Bag");
               ("price", price);
               ("extension_attributes", VObj extension);
               ("custom_attributes",
                arr [attribute "url_key" (VStr "duffle-bag")])])].

(** Sessions of a guest with and without a cart, and of a signed-in
    customer. *)
Definition new_session : Session.t :=
  {| Session.cart := None; Session.customerToken := None;
     Session.currency := VStr "EUR"; Session.orderId := VUndef;
     Session.orderQuoteId := VUndef; Session.paypalExpressHash := VUndef;
     Session.baseCurrency := VStr "EUR";
     Session.timezone := VStr "Europe/Warsaw";
     Session.weightUnit := VStr "kgs"; Session.other := ∅ |}.

Definition guest_session (quote : value) : Session.t :=
  Session.set_cart (Some {| quoteId := quote |}) new_session.

Definition customer_session : Session.t :=
  Session.set_customerToken
    (Some {| token := VStr "t0k3n"; expirationTime := VNum 3600 |})
    new_session.

Definition world_of (s : Session.t) : World :=
  {| session := s; saves := 0; requests := [] |}.

(** A backend that is down. *)
Definition backend_down (served : list Request) (r : Request)
  : outcome value :=
  Throw (backend_error 503 "Service Unavailable").

(** A backend that fails every request with the same error. *)
Definition backend_failing (statusCode : Z) (message : string)
  (served : list Request) (r : Request) : outcome value :=
  Throw (backend_error statusCode message).

(** For requests that fail with the given status code, the message of the
    error decides whether the handler marks the error it throws: with some
    message it is marked and with some other it is not.  The handler is
    given as a function of the backend it talks to. *)
Definition message_decides {A}
  (handler : (list Request -> Request -> outcome value) -> M A)
  (statusCode : Z) : Prop :=
  exists (shown logged : string) (w : World),
    marked (handler (backend_failing statusCode shown) w) = true /\
    marked (handler (backend_failing statusCode logged) w) = false.

Definition signIn_args : value :=
  VObj [("input", VObj [("email", VStr "jo@example.com");
                        ("password", VStr "secret")])].

Definition signUp_args : value :=
  VObj [("input", VObj [("email", VStr "jo@example.com");
                        ("firstname", VStr "Jo"); ("lastname", VStr "Doe");
                        ("password", VStr "secret");
                        ("autoSignIn", VBool true)])].

(** A backend that serves its first request and fails every later one
    with the same error. *)
Definition backend_failing_after_first (statusCode : Z) (message : string)
  (served : list Request) (r : Request) : outcome value :=
  match served with
  | [] => Ok (VObj [("data", VObj [("id", VNum 7)])])
  | _ => Throw (backend_error statusCode message)
  end.

Definition applyCoupon_args : value :=
  VObj [("input", VObj [("couponCode", VStr "SALE")])].

Definition changeCustomerPassword_args : value :=
  VObj [("input", VObj [("password", VStr "new");
                        ("currentPassword", VStr "old")])].

(** A backend that creates carts: the first cart it creates gets no id,
    every later one the id "q2"; other requests are answered with [true]. *)
Definition backend_blank_first_cart (served : list Request) (r : Request)
  : outcome value :=
  match method r, served with
  | POST, [] => Ok (VObj [("data", VStr "")])
  | POST, _ => Ok (VObj [("data", VStr "q2")])
  | _, _ => Ok (VObj [("data", VBool true)])
  end.

(** A backend that answers every request with the same data. *)
Definition backend_constant (data : value) (served : list Request)
  (r : Request) : outcome value :=
  Ok (VObj [("data", data)]).

Definition no_float (v : value) : value := v.

Definition addToCart_args : value :=
  VObj [("input", VObj [("sku", VStr "24-WB01"); ("qty", VNum 1)])].

Definition addToCart_post (quote : string) : Request :=
  {| method := POST; path := "/guest-carts/" +:+ quote +:+ "/items";
     payload := VObj [("cart_item",
                       VObj [("sku", VStr "24-WB01"); ("qty", VNum 1);
                             ("quote_id", VStr quote)])];
     context := VUndef |}.

Definition placeOrder_args : value :=
  VObj [("input", VObj [("paymentMethod", VObj [("method", VStr "checkmo")])])].

(** A backend that answers every request with an order. *)
Definition order_backend : list Request -> Request -> outcome value :=
  backend_constant
    (VObj [("orderId", VNum 1001);
           ("payment", VObj [("method", VStr "checkmo")])]).

(** The session of a guest who has placed order 1001, with a field no
    handler knows. *)
Definition ordered_session : Session.t :=
  {| Session.cart := Some {| quoteId := VStr "q1" |};
     Session.customerToken := None;
     Session.currency := VStr "EUR"; Session.orderId := VNum 1001;
     Session.orderQuoteId := VStr "q0"; Session.paypalExpressHash := VUndef;
     Session.baseCurrency := VStr "EUR";
     Session.timezone := VStr "Europe/Warsaw";
     Session.weightUnit := VStr "kgs";
     Session.other := {[ "storeCode" := VStr "de" ]} |}.

(** The same session, but for the recorded quote and the unknown field. *)
Definition ordered_session' : Session.t :=
  Session.set_orderId (VNum 1001) (guest_session (VStr "q1")).

(** ** Listings, categories and URLs *)

(** [s.endsWith(suffix)] *)
Definition endsWith (s suffix : string) : bool :=
  let n := String.length s in
  let m := String.length suffix in
  (m <=? n)%nat && String.eqb (String.substring (n - m) m s) suffix.

(** [s.replace(pattern, replacement)] for a string pattern: the first
    occurrence is replaced.  The replacements used here hold no [$]. *)
Fixpoint replace_first (pattern replacement s : string) {struct s} : string :=
  if String.prefix pattern s then
    replacement
    +:+ String.substring (String.length pattern)
          (String.length s - String.length pattern) s
  else
    match s with
    | EmptyString => EmptyString
    | String c s' => String c (replace_first pattern replacement s')
    end.

(** [l.some(p)] with a callback that may throw. *)
Fixpoint someM (p : value -> outcome bool) (l : list value) : outcome bool :=
  match l with
  | [] => Ok false
  | x :: l' => b <- p x ;; if (b : bool) then Ok true else someM p l'
  end.

(** The filter group [addSearchFilter] pushes. *)
Definition filter_group (field val conditionType : value) : value :=
  VObj [("filters",
         arr [VObj [("condition_type", conditionType); ("field", field);
                    ("value", val)]])].

(** [addSearchFilter(params = {}, field, value, conditionType = 'eq')].
    Only arrays have [push]. *)
Definition addSearchFilter (params field val conditionType : value)
  : outcome value :=
  let params := or_default params (VObj []) in
  let conditionType := or_default conditionType (VStr "eq") in
  filters <- get_prop params "filters" ;;
  let filters := if isEmpty filters then arr [] else filters in
  params <- set_prop params "filters" filters ;;
  match filters with
  | VArr groups named =>
      set_prop params "filters"
        (VArr (groups ++ [filter_group field val conditionType]) named)
  | _ => Throw TypeError
  end.

(** The callback of [filters.some] in [isFilterSet]: a group has a
    filter on [filterName]. *)
Definition group_has_filter (filterName group : value) : outcome bool :=
  filterItems <- get_prop group "filters" ;;
  match or_default filterItems (arr []) with
  | VArr items _ =>
      someM (fun filterItem =>
               field <- get_prop filterItem "field" ;;
               Ok (strict_eq field filterName))
            items
  | _ => Throw TypeError
  end.

(** [isFilterSet(filterName, params = {})].  Only arrays have [some]. *)
Definition isFilterSet (filterName params : value) : outcome bool :=
  let params := js_or (or_default params (VObj [])) (VObj []) in
  filters <- get_prop params "filters" ;;
  match or_default filters (arr []) with
  | VArr groups _ => someM (group_has_filter filterName) groups
  | _ => Throw TypeError
  end.

(** The filters [fetchProductList] adds to its [params] before it fetches
    the list. *)
Definition productListFilters (params : value) : outcome value :=
  let params := or_default params (VObj []) in
  params <- addSearchFilter params (VStr "visibility") (VStr "2,4")
              (VStr "in") ;;
  statusSet <- isFilterSet (VStr "status") params ;;
  params <- (if negb statusSet
             then addSearchFilter params (VStr "status") (VStr "1") VUndef
             else Ok params) ;;
  addSearchFilter params (VStr "type_id")
    (VStr "simple,configurable,bundle") (VStr "in").

(** [v.length]: arrays and strings have one built in. *)
Definition js_length (v : value) : outcome value :=
  match v with
  | VArr l _ => Ok (VNum (Z.of_nat (length l)))
  | VStr s => Ok (VNum (Z.of_nat (String.length s)))
  | _ => get_prop v "length"
  end.

(** [Object.keys(o)]: the keys that are array indices come first, in
    ascending order, then the other keys as they were inserted.  An array
    index is the decimal form of an integer from 0 to 2^32 - 2. *)
Definition digit (c : ascii) : option Z :=
  let n := Z.of_nat (nat_of_ascii c) in
  if (48 <=? n) && (n <=? 57) then Some (n - 48) else None.

Fixpoint parse_digits (acc : Z) (s : string) : option Z :=
  match s with
  | EmptyString => Some acc
  | String c s' =>
      match digit c with
      | Some d => parse_digits (10 * acc + d) s'
      | None => None
      end
  end.

Definition index_of_key (k : string) : option Z :=
  match k with
  | EmptyString => None
  | String c EmptyString => digit c
  | String c _ =>
      if Ascii.eqb c "0"%char then None
      else match parse_digits 0 k with
           | Some n => if n <? 4294967295 then Some n else None
           | None => None
           end
  end.

Fixpoint insert_key (n : Z) (k : string) (l : list (Z * string))
  : list (Z * string) :=
  match l with
  | [] => [(n, k)]
  | (m, k') :: l' =>
      if n <? m then (n, k) :: l else (m, k') :: insert_key n k l'
  end.

Definition Object_keys {A} (o : props A) : list string :=
  let keys := map fst o in
  let indices :=
    foldr (fun k acc => match index_of_key k with
                        | Some n => insert_key n k acc
                        | None => acc
                        end) [] keys in
  map snd indices
  ++ List.filter (fun k => negb (defined (index_of_key k))) keys.

(** The nesting depth of a value. *)
Fixpoint depth (v : value) : nat :=
  match v with
  | VArr l p =>
      S (Nat.max (foldr (fun x n => Nat.max (depth x) n) 0%nat l)
           (foldr (fun kv n => Nat.max (depth kv.2) n) 0%nat p))
  | VObj o => S (foldr (fun kv n => Nat.max (depth kv.2) n) 0%nat o)
  | _ => 0%nat
  end.

Section Catalog.

Variable backend : list Request -> Request -> outcome value.
Variable convertKeys : value -> value.
Variable stripHtml : value -> outcome value.
Variable qs_stringify : value -> string.
Variable JSON_parse : string -> outcome value.
Variable Number : value -> value.
Variable convertList : value -> value -> outcome value.

(** [replaceLinks] of the base class [Magento2ApiBase], and the members
    [HIGH] and [NORMAL] of [ApiUrlPriority] in [@deity/falcon-server-env]:
    their source is not available. *)
Variable replaceLinks : value -> outcome value.
Variable HIGH NORMAL : value.

(** [getFetchUrlPriority(path)].  Only strings have [endsWith]. *)
Definition getFetchUrlPriority (path : value) : outcome value :=
  match path with
  | VStr s => Ok (if endsWith s ".html" then HIGH else NORMAL)
  | _ => Throw TypeError
  end.

(** [fetchProductList(params = {})] *)
Definition fetchProductList (params : value) : M value :=
  params <- lift (productListFilters params) ;;
  fetchList backend Number convertList "/products" params.

(** The filters [products] collects from [params.filters] in the object
    [filtersToCheck]: [filtersToCheck[item.field] = item.value] for each
    item. *)
Definition filtersToCheck (simpleFilters : value) : outcome built :=
  len <- js_length simpleFilters ;;
  if truthy len then
    match simpleFilters with
    | VArr items _ =>
        foldM (fun acc item =>
                 field <- get_prop item "field" ;;
                 val <- get_prop item "value" ;;
                 Ok (set_key (to_string field) val acc))
              empty_object items
    | _ => Throw TypeError
    end
  else Ok empty_object.

(** The filters [products] makes of its [params] before it fetches the
    list.  Only arrays have [join]. *)
Definition productsFilters (params : value) : outcome value :=
  filters <- get_prop params "filters" ;;
  let simpleFilters := or_default filters (arr []) in
  categoryId <- get_prop params "categoryId" ;;
  skus <- get_prop params "skus" ;;
  toCheck <- filtersToCheck simpleFilters ;;
  let toCheck :=
    own (if truthy categoryId then set_key "category_id" categoryId toCheck
         else toCheck) in
  params <- set_prop params "filters" (arr []) ;;
  params <- foldM (fun params key =>
                     if truthy (prop toCheck key)
                     then addSearchFilter params (VStr key)
                            (prop toCheck key) VUndef
                     else Ok params)
                  params (Object_keys toCheck) ;;
  if truthy skus then
    match skus with
    | VArr _ _ =>
        addSearchFilter params (VStr "sku") (VStr (to_string skus))
          (VStr "in")
    | _ => Throw TypeError
    end
  else Ok params.

(** [products(obj, params)] *)
Definition products (params : value) : M value :=
  params <- lift (productsFilters params) ;;
  fetchProductList params.

(** [convertCategoryData(response)], for a payload nested less than
    [fuel] deep.  [data] is read off the response once
    [convertAttributesSet] has mutated it.  The children are converted in
    place, so [children_data] holds the converted children afterwards; so
    are the breadcrumbs of the extension attributes. *)
Fixpoint convertCategoryData_upto (fuel : nat) (response : value)
  : outcome value :=
  match fuel with
  | O => Throw TypeError
  | S fuel =>
      response <- convertAttributesSet response ;;
      data <- get_prop response "data" ;;
      extensionAttributes <- get_prop data "extension_attributes" ;;
      customAttributes <- get_prop data "custom_attributes" ;;
      children <- get_prop data "children_data" ;;
      let childrenData := or_default children (arr []) in
      urlPath <- get_prop customAttributes "url_path" ;;
      both <- (if negb (truthy urlPath) then
                 urlPath <- get_prop data "url_path" ;;
                 data <- del_prop data "url_path" ;;
                 Ok (urlPath, data)
               else Ok (urlPath, data)) ;;
      let '(urlPath, data) := both in
      data <- del_prop data "created_at" ;;
      data <- del_prop data "product_count" ;;
      data <- set_prop data "urlPath"
                (if truthy urlPath then convertPathToUrl urlPath
                 else urlPath) ;;
      data <- match childrenData with
              | VArr items named =>
                  items' <- mapM (fun item =>
                                    converted <-
                                      convertCategoryData_upto fuel
                                        (VObj [("data", item)]) ;;
                                    get_prop converted "data")
                                 items ;;
                  Ok (match children with
                      | VUndef => data
                      | _ => put_prop data "children_data"
                               (VArr items' named)
                      end)
              | _ => Throw TypeError
              end ;;
      breadcrumbs <- (if truthy extensionAttributes
                      then get_prop extensionAttributes "breadcrumbs"
                      else Ok extensionAttributes) ;;
      data <- (if truthy breadcrumbs then
                 converted <- convertBreadcrumbs stripHtml qs_stringify
                                JSON_parse breadcrumbs ;;
                 data <- set_prop data "breadcrumbs" converted ;;
                 Ok (put_prop data "extension_attributes"
                       (put_prop extensionAttributes "breadcrumbs"
                          (mutated_elems breadcrumbs
                             match converted with
                             | VArr l _ => l
                             | _ => []
                             end)))
               else Ok data) ;;
      Ok (with_data response data)
  end.

(** [convertCategoryData(response)]: the recursion goes down the tree of
    [children_data] and ends with it. *)
Definition convertCategoryData (response : value) : outcome value :=
  convertCategoryData_upto (S (depth response)) response.

(** [category(obj, { id })] *)
Definition category (args : value) : M value :=
  id <- lift (get_prop args "id") ;;
  response <- rest backend GET ("/categories/" +:+ to_string id) (VObj [])
                (VObj [("useAdminToken", VBool true)]) ;;
  lift (convertCategoryData response).

(** [reduceCmsPage(response)] *)
Definition reduceCmsPage (response : value) : outcome value :=
  data <- get_prop response "data" ;;
  title <- get_prop data "title" ;;
  id <- get_prop data "id" ;;
  content <- get_prop data "content" ;;
  content <- replaceLinks content ;;
  set_prop response "data"
    (VObj [("id", id); ("content", content); ("title", title)]).

(** [reduceProduct(response, currency = null)] and
    [reduceCategory(response)] *)
Definition reduceProduct (response currency : value) : outcome value :=
  convertProductData convertKeys stripHtml qs_stringify JSON_parse response
    (or_default currency VNull).
Definition reduceCategory (response : value) : outcome value :=
  convertCategoryData response.

(** [reduceUrl(data, currency = null)].  Only strings have [replace].
    The reducers return a response whose data is an object, which
    [Object.assign] then extends. *)
Definition reduceUrl (data currency : value) : outcome value :=
  let currency := or_default currency VNull in
  type <- get_prop data "entity_type" ;;
  match type with
  | VStr type =>
      entityData <- get_prop data (replace_first "-" "_" type) ;;
      let unifiedType := VStr ("shop-" +:+ replace_first "cms-" "" type) in
      if strict_eq entityData VNull then
        id <- get_prop data "entity_id" ;;
        Ok (VObj [("id", id); ("type", unifiedType)])
      else
        reduced <-
          (if String.eqb type "cms-page"
           then reduceCmsPage (VObj [("data", entityData)])
           else if String.eqb type "product"
           then reduceProduct (VObj [("data", entityData)]) currency
           else if String.eqb type "category"
           then reduceCategory (VObj [("data", entityData)])
           else Throw (new_Error ("Unknown url entity type: " +:+ type
                                  +:+ " in magento api."))) ;;
        reducedData <- get_prop reduced "data" ;;
        set_prop reducedData "type" unifiedType
  | _ => Throw TypeError
  end.

End Catalog.

(** ** The handlers of the class *)

(** [Number.MAX_SAFE_INTEGER], and lodash [isLength]. *)
Definition MAX_SAFE_INTEGER : Z := 9007199254740991.
Definition isLength (v : value) : bool :=
  match v with
  | VNum n => (0 <=? n) && (n <=? MAX_SAFE_INTEGER)
  | _ => false
  end.

(** The values lodash [forEach(collection, f)] hands to [f], as long as [f]
    does not return [false]: the elements of an array, the characters of a
    string, the properties [0 .. length - 1] of an object that has a valid
    [length], the own properties of any other object. *)
Definition forEach_values (collection : value) : list value :=
  match collection with
  | VArr l _ => l
  | VStr s =>
      map (fun c => VStr (String c EmptyString))
        (String.list_ascii_of_string s)
  | VObj o =>
      match prop o "length" with
      | VNum n =>
          if isLength (VNum n)
          then map (fun i => prop o (pretty (Z.of_nat i)))
                 (seq 0 (Z.to_nat n))
          else map (prop o) (Object_keys o)
      | _ => map (prop o) (Object_keys o)
      end
  | _ => []
  end.

Section Handlers.

Variable backend : list Request -> Request -> outcome value.
Variable convertKeys : value -> value.
Variable parseFloat : value -> value.
Variable parseInt : value -> value.
Variable JSON_parse : string -> outcome value.
Variable Date_now : value.
Variable expirationTime_after : value -> value -> value.
Variable Number : value -> value.
Variable convertList : value -> value -> outcome value.
Variable reduceUrl : value -> value -> outcome value.
Variable stripHtml : value -> outcome value.
Variable qs_stringify : value -> string.

(** Code the resolvers use that is not part of this class: the properties
    [storeList] and [storeConfigMap] of the instance, which the base class
    [Magento2ApiBase] fills, and its methods [getActiveStoreConfig] and
    [fetchBackendConfig], whose source is not available.  What these
    methods do to the session is not known. *)
Variable storeList : value.
Variable storeConfigMap : value.
Variable getActiveStoreConfig : M value.
Variable fetchBackendConfig : M value.

(** [getActiveStores()].  Only arrays have [map]. *)
Definition getActiveStores : M value :=
  match storeList with
  | VArr websites _ =>
      stores <- lift (mapM (fun storeWebsite =>
                              name <- get_prop storeWebsite "name" ;;
                              defaultStore <- get_prop storeWebsite
                                                "defaultStore" ;;
                              code <- get_prop defaultStore "code" ;;
                              Ok (VObj [("name", name); ("code", code)]))
                           websites) ;;
      ret (arr stores)
  | _ => throw TypeError
  end.

(** [getActiveCurrencies()].  The group ids compared are numbers or
    strings. *)
Definition getActiveCurrencies : M value :=
  currentStoreConfig <- getActiveStoreConfig ;;
  currencies <-
    lift (foldM (fun currencies storeConfig =>
                   if truthy currentStoreConfig then
                     current <- get_prop currentStoreConfig
                                  "store_group_id" ;;
                     group <- get_prop storeConfig "store_group_id" ;;
                     if strict_eq current group then
                       code <- get_prop storeConfig
                                 "default_display_currency_code" ;;
                       Ok (currencies ++ [code])
                     else Ok currencies
                   else Ok currencies)
                [] (forEach_values storeConfigMap)) ;;
  ret (arr currencies).

(** The methods of the class that are asynchronous or mention the
    session, and the resolvers [addTypeResolvers] registers ([shop],
    [stores], [currencies], [baseCurrency], [timezone], [weightUnit]), as
    one type of calls.  The methods left out are [addTypeResolvers]
    itself, which registers the resolvers and does nothing else, and the
    converters, which are functions of their arguments and mention
    neither the session nor the backend. *)
Inductive handler : Type :=
  | Call_shop
  | Call_stores
  | Call_currencies
  | Call_baseCurrency
  | Call_timezone
  | Call_weightUnit
  | Call_category (args : value)
  | Call_products (params : value)
  | Call_fetchProductList (params : value)
  | Call_fetchList (p : string) (params : value)
  | Call_fetchUrl (params : value)
  | Call_product (args : value)
  | Call_countries
  | Call_editCustomerData (args : value)
  | Call_requestCustomerPasswordResetToken (args : value)
  | Call_resetCustomerPassword (args : value)
  | Call_addToCart (args : value)
  | Call_ensureCart
  | Call_getCartPath
  | Call_cart
  | Call_signIn (args : value)
  | Call_signOut
  | Call_signUp (args : value)
  | Call_customer
  | Call_orders (params : value)
  | Call_order (params : value)
  | Call_updateCartItem (args : value)
  | Call_removeCartItem (args : value)
  | Call_address (params : value)
  | Call_addCustomerAddress (args : value)
  | Call_editCustomerAddress (args : value)
  | Call_removeCustomerAddress (args : value)
  | Call_forwardAddressAction (id : value) (m : verb) (data : value)
  | Call_validatePasswordToken (params : value)
  | Call_changeCustomerPassword (args : value)
  | Call_applyCoupon (args : value)
  | Call_cancelCoupon
  | Call_estimateShippingMethods (args : value)
  | Call_performCartAction (p : string) (m : verb) (data : value)
  | Call_setShipping (args : value)
  | Call_placeOrder (args : value)
  | Call_lastOrder
  | Call_removeCartData.

Definition run (h : handler) : M value :=
  match h with
  | Call_shop => fetchBackendConfig
  | Call_stores => getActiveStores
  | Call_currencies => getActiveCurrencies
  | Call_baseCurrency => baseCurrency
  | Call_timezone => timezone
  | Call_weightUnit => weightUnit
  | Call_category args =>
      category backend stripHtml qs_stringify JSON_parse args
  | Call_products params => products backend Number convertList params
  | Call_fetchProductList params =>
      fetchProductList backend Number convertList params
  | Call_fetchList p params => fetchList backend Number convertList p params
  | Call_fetchUrl params => fetchUrl backend reduceUrl params
  | Call_product args => product backend reduceUrl args
  | Call_countries => countries backend
  | Call_editCustomerData args => editCustomerData backend convertKeys args
  | Call_requestCustomerPasswordResetToken args =>
      requestCustomerPasswordResetToken backend args
  | Call_resetCustomerPassword args => resetCustomerPassword backend args
  | Call_addToCart args => addToCart backend convertKeys parseFloat args
  | Call_ensureCart => c <- ensureCart backend ;; ret (cart_value c)
  | Call_getCartPath => p <- getCartPath ;; ret (VStr p)
  | Call_cart => cart backend convertKeys parseFloat JSON_parse
  | Call_signIn args =>
      signIn backend convertKeys Date_now expirationTime_after args
  | Call_signOut => signOut
  | Call_signUp args =>
      signUp backend convertKeys Date_now expirationTime_after args
  | Call_customer => customer backend convertKeys
  | Call_orders params => orders backend convertKeys params
  | Call_order params => order backend params
  | Call_updateCartItem args =>
      updateCartItem backend convertKeys parseFloat parseInt args
  | Call_removeCartItem args => removeCartItem backend args
  | Call_address params => address backend convertKeys params
  | Call_addCustomerAddress args =>
      addCustomerAddress backend convertKeys args
  | Call_editCustomerAddress args =>
      editCustomerAddress backend convertKeys args
  | Call_removeCustomerAddress args =>
      removeCustomerAddress backend convertKeys args
  | Call_forwardAddressAction id m data =>
      forwardAddressAction backend convertKeys id m data
  | Call_validatePasswordToken params => validatePasswordToken backend params
  | Call_changeCustomerPassword args => changeCustomerPassword backend args
  | Call_applyCoupon args => applyCoupon backend args
  | Call_cancelCoupon => cancelCoupon backend
  | Call_estimateShippingMethods args =>
      estimateShippingMethods backend convertKeys args
  | Call_performCartAction p m data =>
      performCartAction backend convertKeys p m data
  | Call_setShipping args => setShipping backend convertKeys args
  | Call_placeOrder args => placeOrder backend convertKeys args
  | Call_lastOrder => lastOrder backend convertKeys
  | Call_removeCartData => removeCartData ;; ret VUndef
  end.

End Handlers.

(** A converted category tree: no node has [created_at] or
    [product_count], every node has a [urlPath], and the children of a
    node are converted trees. *)
Inductive converted_category : value -> Prop :=
  | converted_category_node data :
      has data "created_at" = false ->
      has data "product_count" = false ->
      has data "urlPath" = true ->
      (forall items named,
         get_prop data "children_data" = Ok (VArr items named) ->
         Forall converted_category items) ->
      converted_category data.

(** The [itemId] of each entry of [totalsData.items]. *)
Definition itemIds (totalsItems : value) : list (outcome value) :=
  match totalsItems with
  | VArr elems _ => map (fun t => get_prop t "itemId") elems
  | _ => []
  end.

(** An item of the quote has an entry in the totals: one whose [itemId]
    is strictly equal to its own. *)
Definition has_totals (totalsItems item : value) : Prop :=
  exists itemId found,
    get_prop item "itemId" = Ok itemId /\
    Ok found ∈ itemIds totalsItems /\
    strict_eq found itemId = true.

(** A quote with one item, and its totals. *)
Definition sample_quote : value :=
  VObj [("isActive", VBool true);
        ("items", arr [VObj [("itemId", VNum 5); ("sku", VStr "24-WB01")]])].

Definition sample_totals : value :=
  VObj [("quoteCurrencyCode", VStr "EUR");
        ("totalSegments", arr [segment "grand_total" 95]);
        ("items",
         arr [VObj [("itemId", VNum 5); ("price", VNum 34);
                    ("extensionAttributes",
                     VObj [("urlKey", VStr "duffle-bag")])]])].

(** The value [products] is to filter field [k] by: that of the last
    filter of the list whose field prints as [k]. *)
Fixpoint filter_value (k : string) (simpleFilters : list value)
  : option value :=
  match simpleFilters with
  | [] => None
  | item :: rest =>
      match filter_value k rest with
      | Some v => Some v
      | None =>
          match get_prop item "field", get_prop item "value" with
          | Ok field, Ok v =>
              if String.eqb k (to_string field) then Some v else None
          | _, _ => None
          end
      end
  end.

(** The elements of an array; no other value has any. *)
Definition elements (v : value) : list value :=
  match v with VArr l _ => l | _ => [] end.

(** ** The category page: fetching more products *)

(** The values an array spread [[...v]] takes from [v]: the elements of
    an array, the characters of a string; other values are not
    iterable. *)
Definition iterate (v : value) : outcome (list value) :=
  match v with
  | VArr l _ => Ok l
  | VStr s =>
      Ok (map (fun c => VStr (String c EmptyString))
            (String.list_ascii_of_string s))
  | _ => Throw TypeError
  end.

(** [updateQuery(prev, { fetchMoreResult })] of [fetchMore] *)
Definition updateQuery (prev options : value) : outcome value :=
  fetchMoreResult <- get_prop options "fetchMoreResult" ;;
  if negb (truthy fetchMoreResult) then Ok prev
  else
    prevProducts <- get_prop prev "products" ;;
    prevItems <- get_prop prevProducts "items" ;;
    prevItems <- iterate prevItems ;;
    moreProducts <- get_prop fetchMoreResult "products" ;;
    moreItems <- get_prop moreProducts "items" ;;
    moreItems <- iterate moreItems ;;
    pagination <- get_prop moreProducts "pagination" ;;
    let products :=
      obj_set "pagination" (VObj (assign [] pagination))
        (obj_set "items" (arr (prevItems ++ moreItems))
           (assign [] prevProducts)) in
    Ok (VObj (assign (assign [] prev) (VObj [("products", VObj products)]))).

(** One page of products, as the query returns it. *)
Definition products_page (ids : list Z) (currentPage : Z) (nextPage : value)
  : value :=
  VObj [("category", VObj [("name", VStr "Bags")]);
        ("products",
         VObj [("items", arr (map (fun id => VObj [("id", VNum id)]) ids));
               ("pagination",
                VObj [("currentPage", VNum currentPage);
                      ("nextPage", nextPage)])])].

(** Parameters of a product listing: two filters on one field, a filter
    with an empty value and a filter on [__proto__]. *)
Definition sample_products_params : value :=
  VObj [("filters",
         arr [VObj [("field", VStr "color"); ("value", VStr "red")];
              VObj [("field", VStr "size"); ("value", VStr "")];
              VObj [("field", VStr "__proto__"); ("value", VStr "x")];
              VObj [("field", VStr "color"); ("value", VStr "blue")]]);
        ("categoryId", VNum 4)].

(** * Theorems *)

(** ** Objects *)

Lemma obj_get_set_eq {A} k (v : A) o : obj_get k (obj_set k v o) = Some v.
Proof.
  induction o as [|[k' v'] o IH]; simpl.
  - by rewrite String.eqb_refl.
  - destruct (String.eqb k k') eqn:E; simpl; rewrite E; [done|apply IH].
Qed.

Lemma obj_get_set_ne {A} k k' (v : A) o :
  k <> k' -> obj_get k' (obj_set k v o) = obj_get k' o.
Proof.
  intros Hne. induction o as [|[k0 v0] o IH]; simpl.
  - destruct (String.eqb_spec k' k); [congruence|done].
  - destruct (String.eqb_spec k k0) as [->|Hk]; simpl.
    + destruct (String.eqb_spec k' k0); [congruence|done].
    + destruct (String.eqb_spec k' k0); [done|apply IH].
Qed.

Lemma obj_get_del_ne {A} k k' (o : props A) :
  k <> k' -> obj_get k' (obj_del k o) = obj_get k' o.
Proof.
  intros Hne. induction o as [|[k0 v0] o IH]; simpl; [done|].
  destruct (String.eqb_spec k k0) as [->|Hk]; simpl.
  - destruct (String.eqb_spec k' k0); [congruence|apply IH].
  - destruct (String.eqb_spec k' k0); [done|apply IH].
Qed.

Lemma get_put_eq v k x :
  isObject v = true -> get_prop (put_prop v k x) k = Ok x.
Proof.
  destruct v; simpl; try done; intros _; unfold prop;
    by rewrite obj_get_set_eq.
Qed.

Lemma get_put_ne v k k' x :
  k <> k' -> get_prop (put_prop v k x) k' = get_prop v k'.
Proof.
  intros Hne. destruct v; simpl; try done; unfold prop;
    by rewrite obj_get_set_ne.
Qed.

Lemma set_prop_object v k x :
  isObject v = true -> set_prop v k x = Ok (put_prop v k x).
Proof. by destruct v. Qed.

Lemma set_prop_inv v k x v' :
  set_prop v k x = Ok v' -> v' = put_prop v k x /\ isObject v = true.
Proof. destruct v; simpl; try done; by intros [= <-]. Qed.

Lemma put_prop_object v k x :
  isObject v = true -> isObject (put_prop v k x) = true.
Proof. by destruct v. Qed.

Ltac obj := repeat (assumption || apply put_prop_object).

Lemma get_prop_defined v k x :
  get_prop v k = Ok x -> x <> VUndef -> isObject v = true.
Proof. destruct v; simpl; congruence. Qed.

(** ** convertAttributesSet *)

Lemma add_attribute_record acc o :
  add_attribute acc (VObj o)
  = Ok (set_key (to_string (prop o "attribute_code")) (prop o "value") acc).
Proof. reflexivity. Qed.

(** A key other than [__proto__] is read off the own properties as after
    an ordinary write. *)
Lemma obj_get_set_key k k' v o :
  k' <> "__proto__" ->
  obj_get k' (own (set_key k v o))
  = if String.eqb k' k then Some v else obj_get k' (own o).
Proof.
  intros Hk'. unfold set_key.
  destruct (String.eqb_spec k "__proto__") as [->|Hk]; cbn [andb].
  - destruct (String.eqb_spec k' "__proto__") as [|_]; [done|].
    destruct (negb _ && reaches_setter (proto o)).
    + by destruct v.
    + cbn [own]. by apply obj_get_set_ne.
  - cbn [own]. destruct (String.eqb_spec k' k) as [->|Hne].
    + apply obj_get_set_eq.
    + by apply obj_get_set_ne.
Qed.

(** While the accessor is inherited and every value assigned to
    [__proto__] keeps it so, [__proto__] does not become a property. *)
Lemma set_key_no_proto k v o :
  obj_get "__proto__" (own o) = None ->
  reaches_setter (proto o) = true ->
  (k = "__proto__" -> keeps_setter v = true) ->
  obj_get "__proto__" (own (set_key k v o)) = None /\
  reaches_setter (proto (set_key k v o)) = true.
Proof.
  intros Hown Hproto Hv. unfold set_key.
  destruct (String.eqb_spec k "__proto__") as [->|Hk]; cbn [andb].
  - rewrite Hown, Hproto. cbn [negb andb]. specialize (Hv eq_refl).
    by destruct v.
  - cbn [own proto]. by rewrite obj_get_set_ne.
Qed.

(** The loop over an array of records files every record and never throws. *)
Lemma foldM_add_attribute elems : forall acc,
  Forall (fun a => isPlainObject a = true) elems ->
  exists flat,
    foldM add_attribute acc elems = Ok flat /\
    (forall k,
       k <> "__proto__" ->
       obj_get k (own flat)
       = match attribute_value k elems with
         | Some v => Some v
         | None => obj_get k (own acc)
         end) /\
    (obj_get "__proto__" (own acc) = None ->
     reaches_setter (proto acc) = true ->
     (forall o,
        VObj o ∈ elems ->
        to_string (prop o "attribute_code") = "__proto__" ->
        keeps_setter (prop o "value") = true) ->
     obj_get "__proto__" (own flat) = None).
Proof.
  induction elems as [|a elems IH]; intros acc Hall.
  - exists acc. by repeat split.
  - inversion Hall as [|? ? Ha Hrest]; subst.
    destruct a; try discriminate Ha.
    cbn [foldM]. rewrite add_attribute_record. cbn [bind outcome_monad].
    destruct (IH (set_key (to_string (prop fields "attribute_code"))
                    (prop fields "value") acc) Hrest)
      as (flat & Hrun & Hget & Hproto).
    exists flat. split; [exact Hrun|]. split.
    + intros k Hk. rewrite (Hget k Hk). simpl.
      destruct (attribute_value k elems); [done|].
      rewrite obj_get_set_key by done.
      by destruct (String.eqb k (to_string (prop fields "attribute_code"))).
    + intros Hown Hreach Hkeeps.
      destruct (set_key_no_proto (to_string (prop fields "attribute_code"))
                  (prop fields "value") acc Hown Hreach) as [Hown' Hreach'].
      { apply Hkeeps. by left. }
      apply Hproto; [exact Hown'|exact Hreach'|].
      intros o Ho. apply Hkeeps. by right.
Qed.



(** An attribute whose code is [__proto__] is not filed: its value goes to
    the setter of [Object.prototype].  Once that setter has made the
    prototype [null], the next such attribute is filed like any other. *)
Lemma convertAttributesSet_proto_attribute :
  convertAttributesSet
    (VObj [("data",
            VObj [("custom_attributes",
                   arr [attribute "__proto__" (VStr "a");
                        attribute "url_path" (VStr "men")])])])
  = Ok (VObj [("data",
               VObj [("custom_attributes",
                      VObj [("url_path", VStr "men")])])]) /\
  convertAttributesSet
    (VObj [("data",
            VObj [("custom_attributes",
                   arr [attribute "__proto__" VNull;
                        attribute "__proto__" (VStr "a")])])])
  = Ok (VObj [("data",
               VObj [("custom_attributes",
                      VObj [("__proto__", VStr "a")])])]).
Proof. split; reflexivity. Qed.


(** ** convertBreadcrumbs *)

Lemma mapM_Forall2 {A B} (f : A -> outcome B) l : forall l',
  mapM f l = Ok l' -> Forall2 (fun x y => f x = Ok y) l l'.
Proof.
  induction l as [|x l IH]; intros l' H; simpl in H.
  - injection H as <-. constructor.
  - destruct (f x) as [y|] eqn:Hx; [|discriminate].
    cbn [bind outcome_monad] in H.
    destruct (mapM f l) as [ys|] eqn:Hl; [|discriminate].
    cbn [bind outcome_monad] in H. injection H as <-.
    constructor; [exact Hx|by apply IH].
Qed.

Lemma mapM_ext {A B} (f g : A -> outcome B) l :
  (forall x, f x = g x) -> mapM f l = mapM g l.
Proof.
  intros Hfg. induction l as [|x l IH]; [done|].
  cbn [mapM]. by rewrite Hfg, IH.
Qed.

Lemma mapM_returns {A B} (f : A -> outcome B) l :
  Forall (fun x => exists y, f x = Ok y) l -> exists l', mapM f l = Ok l'.
Proof.
  induction 1 as [|x l [y Hy] _ [l' Hl']]; simpl.
  - by eexists.
  - rewrite Hy. cbn [bind outcome_monad]. rewrite Hl'. by eexists.
Qed.

Section Breadcrumbs.

Variable stripHtml : value -> outcome value.
Variable qs_stringify : value -> string.
Variable JSON_parse : string -> outcome value.

(** What the callback makes of an item: four assignments, the last of which
    sets [urlQuery] to [null]; neither of the two blocks after it runs. *)
Lemma convertBreadcrumb_unfold item :
  convertBreadcrumb stripHtml qs_stringify JSON_parse item
  = (name <- get_prop item "name" ;;
     name' <- stripHtml name ;;
     item1 <- set_prop item "name" name' ;;
     urlPath <- get_prop item "urlPath" ;;
     urlKey <- get_prop item "urlKey" ;;
     Ok (put_prop
           (put_prop
              (put_prop item1 "urlPath" (convertPathToUrl urlPath))
              "urlKey" urlKey)
           "urlQuery" VNull)).
Proof.
  unfold convertBreadcrumb.
  destruct (get_prop item "name") as [name|]; [|done].
  cbn [bind outcome_monad].
  destruct (stripHtml name) as [name'|]; [|done].
  cbn [bind outcome_monad].
  destruct (set_prop item "name" name') as [item1|] eqn:Hset; [|done].
  cbn [bind outcome_monad].
  apply set_prop_inv in Hset as [-> Hobj].
  rewrite !get_put_ne by discriminate.
  destruct (get_prop item "urlPath") as [urlPath|]; [|done].
  cbn [bind outcome_monad].
  rewrite set_prop_object by obj. cbn [bind outcome_monad].
  rewrite !get_put_ne by discriminate.
  destruct (get_prop item "urlKey") as [urlKey|]; [|done].
  cbn [bind outcome_monad].
  rewrite set_prop_object by obj. cbn [bind outcome_monad].
  rewrite set_prop_object by obj. cbn [bind outcome_monad].
  rewrite get_put_eq by obj. cbn [bind outcome_monad].
  cbn [truthy andb]. cbn [bind outcome_monad].
  rewrite get_put_eq by obj. reflexivity.
Qed.

Lemma convertBreadcrumb_urlQuery item item' :
  convertBreadcrumb stripHtml qs_stringify JSON_parse item = Ok item' ->
  get_prop item' "urlQuery" = Ok VNull /\
  exists urlPath,
    get_prop item "urlPath" = Ok urlPath /\
    get_prop item' "urlPath" = Ok (convertPathToUrl urlPath).
Proof.
  rewrite convertBreadcrumb_unfold.
  destruct (get_prop item "name") as [name|]; [|done].
  cbn [bind outcome_monad].
  destruct (stripHtml name) as [name'|]; [|done].
  cbn [bind outcome_monad].
  destruct (set_prop item "name" name') as [item1|] eqn:Hset; [|done].
  cbn [bind outcome_monad].
  apply set_prop_inv in Hset as [-> Hobj].
  destruct (get_prop item "urlPath") as [urlPath|] eqn:Hpath; [|done].
  cbn [bind outcome_monad].
  destruct (get_prop item "urlKey") as [urlKey|]; [|done].
  cbn [bind outcome_monad]. intros [= <-].
  split.
  - apply get_put_eq. obj.
  - exists urlPath. split; [done|].
    rewrite !get_put_ne by discriminate. apply get_put_eq. obj.
Qed.

(** The callback returns on every object whose name [stripHtml] accepts. *)
Lemma convertBreadcrumb_returns item :
  isObject item = true ->
  (forall v, exists v', stripHtml v = Ok v') ->
  exists item', convertBreadcrumb stripHtml qs_stringify JSON_parse item
                = Ok item'.
Proof.
  intros Hobj Hstrip. rewrite convertBreadcrumb_unfold.
  destruct item; try discriminate Hobj; cbn [get_prop bind outcome_monad];
    match goal with |- context [stripHtml ?v] =>
      destruct (Hstrip v) as [v' ->] end;
    cbn; by eexists.
Qed.

End Breadcrumbs.

(** C9.  Whatever list [convertBreadcrumbs] is given, every item it returns
    has [urlQuery] equal to [null] and, as [urlPath], the converted path of
    the input item with nothing appended.  The two blocks that would parse
    [urlQuery] and append a query string never run: the result does not
    depend on [JSON.parse] or [qs.stringify].  The function returns on
    every array of objects. *)
Theorem convertBreadcrumbs_urlQuery_null :
  forall stripHtml qs_stringify JSON_parse breadcrumbs,
    (forall result,
       convertBreadcrumbs stripHtml qs_stringify JSON_parse breadcrumbs
       = Ok result ->
       exists items named items',
         or_default breadcrumbs (arr []) = VArr items named /\
         result = arr items' /\
         Forall2 (fun item item' =>
                    get_prop item' "urlQuery" = Ok VNull /\
                    exists urlPath,
                      get_prop item "urlPath" = Ok urlPath /\
                      get_prop item' "urlPath" = Ok (convertPathToUrl urlPath))
                 items items') /\
    (forall qs_stringify' JSON_parse',
       convertBreadcrumbs stripHtml qs_stringify' JSON_parse' breadcrumbs
       = convertBreadcrumbs stripHtml qs_stringify JSON_parse breadcrumbs) /\
    (forall items named,
       or_default breadcrumbs (arr []) = VArr items named ->
       Forall (fun item => isObject item = true) items ->
       (forall v, exists v', stripHtml v = Ok v') ->
       exists result,
         convertBreadcrumbs stripHtml qs_stringify JSON_parse breadcrumbs
         = Ok result).
Proof.
  intros stripHtml qs_stringify JSON_parse breadcrumbs.
  unfold convertBreadcrumbs. split; [|split].
  - intros result Hrun.
    destruct (or_default breadcrumbs (arr [])) as [| | | | |items named|];
      try discriminate Hrun.
    destruct (mapM _ items) as [items'|] eqn:Hmap; [|discriminate Hrun].
    cbn [bind outcome_monad] in Hrun. injection Hrun as <-.
    exists items, named, items'. repeat split.
    apply mapM_Forall2 in Hmap.
    eapply Forall2_impl; [exact Hmap|].
    intros item item' H. exact (convertBreadcrumb_urlQuery _ _ _ _ _ H).
  - intros qs_stringify' JSON_parse'.
    destruct (or_default breadcrumbs (arr [])) as [| | | | |items named|];
      try reflexivity.
    rewrite (mapM_ext _ (convertBreadcrumb stripHtml qs_stringify JSON_parse));
      [reflexivity|].
    intros item.
    by rewrite (convertBreadcrumb_unfold stripHtml qs_stringify' JSON_parse'),
      (convertBreadcrumb_unfold stripHtml qs_stringify JSON_parse).
  - intros items named -> Hall Hstrip.
    destruct (mapM_returns
                (convertBreadcrumb stripHtml qs_stringify JSON_parse) items)
      as [items' ->].
    + eapply Forall_impl; [exact Hall|]. intros item Hobj.
      by apply convertBreadcrumb_returns.
    + by eexists.
Qed.

Lemma convertBreadcrumbs_urlQuery_null_witness :
  convertBreadcrumbs no_markup unused_query never_parsed sample_breadcrumbs
  = Ok (arr [VObj [("name", VStr "Men"); ("urlPath", VStr "/men.html");
                   ("urlKey", VStr "men"); ("urlQuery", VNull)];
             VObj [("name", VStr "Shoes"); ("urlPath", VStr "/men/shoes.html");
                   ("urlKey", VStr "men/shoes"); ("urlQuery", VNull)]]) /\
  exists items',
    Forall (fun item' => get_prop item' "urlQuery" = Ok VNull) items' /\
    length items' = 2%nat.
Proof.
  split; [reflexivity|].
  destruct (convertBreadcrumbs_urlQuery_null no_markup unused_query
              never_parsed sample_breadcrumbs) as (Hitems & _ & Hret).
  destruct (Hret _ _ eq_refl) as [result Hrun].
  { repeat constructor. }
  { intros v. by exists v. }
  destruct (Hitems result Hrun) as (items & named & items' & Hin & -> & Hall).
  exists items'. injection Hin as <- <-. split.
  - clear Hrun. induction Hall as [|???? [H _]]; constructor; done.
  - by rewrite <- (Forall2_length _ _ _ Hall).
Defined.

(** ** convertTotals *)

Lemma findIndex_from_first l : forall k i d,
  l !! i = Some d ->
  is_discount d = Ok true ->
  (forall j seg, (j < i)%nat -> l !! j = Some seg ->
                 is_discount seg = Ok false) ->
  findIndex_from k is_discount l = Ok (k + Z.of_nat i).
Proof.
  induction l as [|x l IH]; intros k i d Hi Hd Hbefore; [done|].
  destruct i as [|i]; cbn [findIndex_from].
  - injection Hi as ->. rewrite Hd. cbn [bind outcome_monad].
    f_equal. lia.
  - rewrite (Hbefore 0%nat x) by (done || lia). cbn [bind outcome_monad].
    rewrite (IH (k + 1) i d); [f_equal; lia|done|done|].
    intros j seg Hj Hseg. apply (Hbefore (S j)); [lia|done].
Qed.

Lemma findIndex_from_none l : forall k,
  Forall (fun seg => is_discount seg = Ok false) l ->
  findIndex_from k is_discount l = Ok (-1).
Proof.
  induction l as [|x l IH]; intros k Hall; [done|].
  inversion Hall as [|? ? Hx Hl]; subst. cbn [findIndex_from].
  rewrite Hx. cbn [bind outcome_monad]. by apply IH.
Qed.

(** Removing one element with [splice]. *)
Lemma splice_remove (l : list value) (i : nat) :
  (i < length l)%nat -> splice (Z.of_nat i) 1 [] l = delete i l.
Proof.
  intros Hi. unfold splice.
  destruct (Z.ltb_spec (Z.of_nat i) 0); [lia|].
  rewrite Z.min_l by lia. rewrite Nat2Z.id.
  replace (Z.to_nat _) with (S i) by lia.
  by rewrite delete_take_drop.
Qed.

(** Inserting one element at index 1 with [splice]. *)
Lemma splice_insert_1 (l : list value) (x : value) :
  splice 1 0 [x] l = take 1 l ++ x :: drop 1 l.
Proof.
  unfold splice. cbn [Z.ltb Z.compare].
  destruct l as [|y l]; [done|].
  rewrite Z.min_l by (cbn [length]; lia).
  replace (Z.to_nat (1 + _)) with 1%nat by (cbn [length]; lia).
  done.
Qed.

(** C3, as amended.  When [totalSegments] holds a segment with code
    ['discount'], [convertTotals] moves the first such segment to index 1,
    or to index 0 when it is the only segment, and keeps the order of all
    other segments; when no segment has that code the list stays as it
    is. *)
Theorem convertTotals_moves_discount :
  forall convertKeys response data segments named,
    get_prop response "data" = Ok data ->
    get_prop (convertKeys data) "totalSegments" = Ok (VArr segments named) ->
    (forall i discount,
       segments !! i = Some discount ->
       is_discount discount = Ok true ->
       (forall j seg, (j < i)%nat -> segments !! j = Some seg ->
                      is_discount seg = Ok false) ->
       exists segments',
         convertTotals convertKeys response
         = Ok (with_data response
                 (put_prop (convertKeys data) "totalSegments"
                    (VArr segments' named))) /\
         let target := Nat.min 1 (length segments - 1) in
         segments' !! target = Some discount /\
         delete target segments' = delete i segments) /\
    (Forall (fun seg => is_discount seg = Ok false) segments ->
     convertTotals convertKeys response
     = Ok (with_data response (convertKeys data))).
Proof.
  intros convertKeys response data segments named Hdata Hsegs.
  unfold convertTotals. rewrite Hdata. cbn [bind outcome_monad].
  rewrite Hsegs. cbn [bind outcome_monad truthy]. split.
  - intros i discount Hi Hd Hbefore.
    assert (Hlt : (i < length segments)%nat) by (by eapply lookup_lt_Some).
    unfold findIndex.
    rewrite (findIndex_from_first segments 0 i discount) by done.
    cbn [bind outcome_monad].
    destruct (Z.eqb_spec (0 + Z.of_nat i) (-1)) as [|_]; [lia|].
    cbn [negb]. rewrite Z.add_0_l.
    rewrite splice_remove by done. rewrite splice_insert_1.
    eexists. split; [reflexivity|].
    assert (Hidx : index segments (Z.of_nat i) = discount).
    { unfold index. destruct (Z.ltb_spec (Z.of_nat i) 0); [lia|].
      by rewrite Nat2Z.id, Hi. }
    rewrite Hidx.
    assert (Hlen : length (take 1 (delete i segments))
                   = Nat.min 1 (length segments - 1)).
    { rewrite length_take, length_delete; [done|by eexists]. }
    cbv zeta. rewrite <- Hlen. split.
    + by rewrite list_lookup_middle.
    + by rewrite delete_middle, take_drop.
  - intros Hnone. unfold findIndex.
    by rewrite findIndex_from_none.
Qed.

Lemma convertTotals_moves_discount_witness :
  convertTotals camelCase_already (totals_response sample_segments)
  = Ok (totals_response
          [segment "subtotal" 100; segment "discount" (-10);
           segment "shipping" 5; segment "grand_total" 95]) /\
  exists segments',
    segments' !! 1%nat = Some (segment "discount" (-10)) /\
    delete 1%nat segments'
    = [segment "subtotal" 100; segment "shipping" 5; segment "grand_total" 95].
Proof.
  split; [reflexivity|].
  destruct (convertTotals_moves_discount camelCase_already
              (totals_response sample_segments) _ sample_segments []
              eq_refl eq_refl) as [Hmove _].
  destruct (Hmove 2%nat (segment "discount" (-10)) eq_refl eq_refl)
    as (segments' & _ & Hat & Hrest).
  { intros [|[|j]] seg Hj Hseg; [| |lia]; by injection Hseg as <-. }
  exists segments'. by split.
Defined.

(** C3, refuted as stated: when the discount is the only segment it ends up
    at index 0, and index 1 of the returned list holds nothing. *)
Lemma convertTotals_single_discount_at_0 :
  convertTotals camelCase_already (totals_response [segment "discount" (-10)])
  = Ok (totals_response [segment "discount" (-10)]) /\
  [segment "discount" (-10)] !! 0%nat = Some (segment "discount" (-10)) /\
  [segment "discount" (-10)] !! 1%nat = None.
Proof. repeat split. Qed.

(** ** convertProductData *)

Lemma priced_put p d k x :
  k <> "price" -> priced p d -> priced p (put_prop d k x).
Proof.
  intros Hk [Hobj Hp]. split; [by apply put_prop_object|].
  by rewrite get_put_ne.
Qed.

Lemma priced_set p d k x d' :
  k <> "price" -> priced p d -> set_prop d k x = Ok d' -> priced p d'.
Proof.
  intros Hk Hd Hset. apply set_prop_inv in Hset as [-> _].
  by apply priced_put.
Qed.

Lemma priced_del p d k d' :
  k <> "price" -> priced p d -> del_prop d k = Ok d' -> priced p d'.
Proof.
  intros Hk [Hobj Hp] Hdel.
  destruct d; try discriminate Hobj; injection Hdel as <-;
    (split; [done|]); cbn [get_prop] in *; unfold prop in *;
    by rewrite obj_get_del_ne.
Qed.

Lemma set_price d p d' :
  isObject d = true -> set_prop d "price" p = Ok d' -> priced p d'.
Proof.
  intros Hobj Hset. apply set_prop_inv in Hset as [-> _].
  split; [by apply put_prop_object|by apply get_put_eq].
Qed.

Lemma isObject_set d k x d' : set_prop d k x = Ok d' -> isObject d' = true.
Proof.
  intros H. apply set_prop_inv in H as [-> ?]. by apply put_prop_object.
Qed.

Lemma isObject_del d k d' :
  isObject d = true -> del_prop d k = Ok d' -> isObject d' = true.
Proof. destruct d; try done; by intros _ [= <-]. Qed.

(** One [bind]: the bound computation returned, with what it returned. *)
Ltac bound H :=
  let x := fresh "x" in
  let E := fresh "E" in
  match type of H with
  | bind ?c _ = Ok _ =>
      destruct c as [x|] eqn:E; [|discriminate H];
      cbn [bind outcome_monad] in H
  | match ?c with Ok _ => _ | Throw _ => _ end = Ok _ =>
      destruct c as [x|] eqn:E; [|discriminate H];
      cbn [bind outcome_monad] in H
  end.

Section ProductData.

Variable convertKeys : value -> value.
Variable stripHtml : value -> outcome value.
Variable qs_stringify : value -> string.
Variable JSON_parse : string -> outcome value.

(** The block on extension attributes leaves, as the price of a product
    whose price was 0, the truthy [minPrice] of the extension attributes. *)
Lemma convertProductExtension_price data ext d' e' :
  isObject data = true ->
  truthy (prop ext "minPrice") = true ->
  convertProductExtension stripHtml qs_stringify JSON_parse
    data (VObj ext) (VNum 0) = Ok (d', e') ->
  priced (prop ext "minPrice") d'.
Proof.
  intros Hobj Hmin H. unfold convertProductExtension in H.
  cbn [get_prop bind outcome_monad] in H. rewrite Hmin in H.
  bound H. destruct x as [d1 e1].
  assert (Hd1 : isObject d1 = true).
  { destruct (truthy (prop ext "breadcrumbs")); [|by injection E as <- <-].
    bound E. bound E. injection E as <- _. by eapply isObject_set. }
  clear E. bound H. bound H. bound H. destruct x1 as [d2 e2].
  assert (Hd2 : isObject d2 = true /\ get_prop d2 "minPrice"
                                      = Ok (prop ext "minPrice")).
  { bound E1. bound E1. injection E1 as <- _.
    apply set_prop_inv in E2 as [-> Hx0]. split; [by obj|].
    by apply get_put_eq. }
  clear E1. destruct Hd2 as [Hd2 Hmin2].
  bound H. destruct x1 as [d3 e3].
  assert (Hd3 : isObject d3 = true /\ get_prop d3 "minPrice"
                                      = Ok (prop ext "minPrice")).
  { destruct (truthy (prop ext "maxPrice")); [|by injection E1 as <- <-].
    bound E1. bound E1. injection E1 as <- _.
    apply set_prop_inv in E2 as [-> _]. split; [by obj|].
    by rewrite get_put_ne. }
  clear E1. destruct Hd3 as [Hd3 Hmin3]. rewrite Hmin3 in H.
  cbn [bind outcome_monad] in H. rewrite Hmin in H.
  cbn [strict_eq Z.eqb andb] in H.
  bound H. apply set_price in E1; [|done].
  bound H. bound H. bound H.
  assert (Hx4 : priced (prop ext "minPrice") x4).
  { destruct (strict_eq x2 x3); [|by injection E4 as <-].
    bound E4. eapply priced_del; [|eapply priced_del|]; [| |done|done|done];
      done. }
  clear E4. bound H.
  assert (Hx5 : priced (prop ext "minPrice") x5).
  { destruct (truthy (prop ext "stockItem")); [|by injection E4 as <-].
    eapply priced_set; [|exact Hx4|exact E4]; discriminate. }
  clear E4. bound H.
  assert (Hx6 : priced (prop ext "minPrice") x6)
    by (eapply priced_set; [|exact Hx5|exact E4]; discriminate).
  destruct (truthy (prop ext "bundleProductOptions")).
  - destruct (prop ext "bundleProductOptions"); try discriminate H.
    bound H. bound H. injection H as <- _.
    eapply priced_set; [|exact Hx6|eassumption]; discriminate.
  - by injection H as <- _.
Qed.

(** A response [convertAttributesSet] returns is an object. *)
Lemma convertAttributesSet_object response r :
  convertAttributesSet response = Ok r -> isObject r = true.
Proof.
  unfold convertAttributesSet. intros H. bound H. bound H.
  assert (Hresp : isObject response = true).
  { destruct response; try done; injection E as <-; discriminate E0. }
  destruct (or_default x0 (arr [])); try (by injection H as <-).
  bound H. bound H. injection H as <-. by apply put_prop_object.
Qed.

(** C2, as amended.  When the effective price (the extension attribute
    [catalogDisplayPrice] if it is truthy, otherwise [data.price]) is the
    number 0 and the extension attribute [minPrice] is truthy, the product
    [convertProductData] returns has that [minPrice] as its price. *)
Theorem convertProductData_price_fallback :
  forall response currency result data ext dataPrice,
    productData convertKeys response = Ok data ->
    get_prop data "extensionAttributes" = Ok (VObj ext) ->
    get_prop data "price" = Ok dataPrice ->
    js_or (prop ext "catalogDisplayPrice") dataPrice = VNum 0 ->
    truthy (prop ext "minPrice") = true ->
    convertProductData convertKeys stripHtml qs_stringify JSON_parse
      response currency = Ok result ->
    exists data',
      get_prop result "data" = Ok data' /\
      get_prop data' "price" = Ok (prop ext "minPrice").
Proof.
  intros response currency result data ext dataPrice
    Hdata Hext Hprice Hzero Hmin H.
  unfold productData in Hdata. bound Hdata. bound Hdata.
  injection Hdata as <-.
  unfold convertProductData in H. rewrite E in H.
  cbn [bind outcome_monad] in H. rewrite E0 in H.
  cbn [bind outcome_monad] in H. rewrite Hext in H.
  cbn [bind outcome_monad or_default] in H. bound H.
  cbn [get_prop] in H. cbn [bind outcome_monad] in H.
  rewrite Hprice in H. cbn [bind outcome_monad] in H. rewrite Hzero in H.
  assert (Hobj : isObject (convertKeys x0) = true)
    by (eapply get_prop_defined; [exact Hext|discriminate]).
  do 10 bound H.
  assert (Hx11 : isObject x11 = true) by (by eapply isObject_set).
  bound H. destruct x12 as [d e].
  assert (Hnonempty : truthy (VObj ext) && negb (isEmpty (VObj ext)) = true).
  { destruct ext; [discriminate Hmin|done]. }
  rewrite Hnonempty in E12.
  apply convertProductExtension_price in E12; [|done|done].
  bound H. injection H as <-.
  assert (Hx12 : priced (prop ext "minPrice") x12).
  { destruct (truthy x1 && negb (isEmpty x1)); [|by injection E13 as <-].
    do 5 bound E13.
    eapply priced_set; [|eapply priced_set|exact E13]; [| |done|exact E18];
      discriminate. }
  exists (put_prop x12 "extensionAttributes" e). split.
  - apply get_put_eq. by eapply convertAttributesSet_object.
  - by apply priced_put.
Qed.

End ProductData.

Lemma convertProductData_price_fallback_witness :
  convertProductData snake_to_camel no_markup unused_query never_parsed
    (product_response (VNum 0) [("min_price", VNum 5); ("max_price", VNum 9)])
    (VStr "EUR")
  <> Throw TypeError /\
  exists result data',
    convertProductData snake_to_camel no_markup unused_query never_parsed
      (product_response (VNum 0)
         [("min_price", VNum 5); ("max_price", VNum 9)])
      (VStr "EUR") = Ok result /\
    get_prop result "data" = Ok data' /\
    get_prop data' "price" = Ok (VNum 5).
Proof.
  split; [discriminate|].
  eexists. 
  destruct (convertProductData_price_fallback snake_to_camel no_markup
              unused_query never_parsed
              (product_response (VNum 0)
                 [("min_price", VNum 5); ("max_price", VNum 9)])
              (VStr "EUR") _ _ [("minPrice", VNum 5); ("maxPrice", VNum 9)]
              (VNum 0) eq_refl eq_refl eq_refl eq_refl eq_refl eq_refl)
    as (data' & Hdata & Hprice).
  exists data'. by repeat split.
Defined.

(** C2, refuted as stated: [catalogDisplayPrice] is present and equal to 0,
    [minPrice] is present, and the price returned is [data.price], not
    [minPrice]. *)
Lemma convertProductData_present_zero_catalog_price :
  exists result data',
    convertProductData snake_to_camel no_markup unused_query never_parsed
      (product_response (VNum 10)
         [("catalog_display_price", VNum 0); ("min_price", VNum 5);
          ("max_price", VNum 9)])
      (VStr "EUR") = Ok result /\
    get_prop result "data" = Ok data' /\
    get_prop data' "price" = Ok (VNum 10) /\
    get_prop data' "minPrice" = Ok (VNum 5).
Proof. do 2 eexists. repeat split. Qed.

(** ** The session monad *)

Lemma bind_M {A B} (c : M A) (k : A -> M B) w :
  bind c k w = match c w with
               | (Ok a, w') => k a w'
               | (Throw e, w') => (Throw e, w')
               end.
Proof. reflexivity. Qed.

Lemma bind_ret {A B} (a : A) (k : A -> M B) w : bind (ret a) k w = k a w.
Proof. reflexivity. Qed.

(** What one REST call does: it asks the backend and logs the request. *)
Lemma rest_run backend m p data ctx w :
  rest backend m p data ctx w
  = (backend (requests w)
       {| method := m; path := p; payload := data; context := ctx |},
     {| session := session w; saves := saves w;
        requests := {| method := m; path := p; payload := data;
                       context := ctx |} :: requests w |}).
Proof. reflexivity. Qed.

Lemma rest_with_world backend hook m p data ctx w :
  (rest_with backend hook m p data ctx w).2
  = {| session := session w; saves := saves w;
       requests := {| method := m; path := p; payload := data;
                      context := ctx |} :: requests w |}.
Proof.
  unfold rest_with. rewrite bind_M, rest_run.
  destruct (backend _ _) as [response|]; [|done].
  unfold lift. cbn. destruct (get_prop response "data"); [|done].
  cbn. by destruct (hook a).
Qed.

Lemma rest_with_fails backend hook m p data ctx w e :
  backend (requests w)
    {| method := m; path := p; payload := data; context := ctx |} = Throw e ->
  (rest_with backend hook m p data ctx w).1 = Throw e.
Proof.
  intros Hfail. unfold rest_with. by rewrite bind_M, rest_run, Hfail.
Qed.

(** [removeCartData] drops the cart and saves the session. *)
Lemma removeCartData_run w :
  removeCartData w
  = (Ok tt, {| session := Session.set_cart None (session w);
               saves := S (saves w); requests := requests w |}).
Proof. reflexivity. Qed.

(** With a cart in the session [getCartPath] returns, and touches nothing. *)
Lemma getCartPath_with_cart w c :
  Session.cart (session w) = Some c ->
  getCartPath w
  = (Ok (if truthy (token_of (Session.customerToken (session w)))
         then "/carts/mine"
         else "/guest-carts/" +:+ to_string (quoteId c)), w).
Proof.
  intros Hc. unfold getCartPath. rewrite bind_M. cbn [getSession].
  rewrite Hc. cbn [defined negb]. rewrite andb_false_r.
  by destruct (truthy _).
Qed.

(** ** cart *)

(** C8.  [cart] never throws.  Without a quote id in the session it returns
    the empty cart [{ active: false, itemsQty: 0, items: [], totals: [] }]
    and calls nothing; when either of its two fetches fails it removes the
    cart from the session, saves the session and returns the same empty
    cart. *)
Theorem cart_never_throws :
  forall backend convertKeys parseFloat JSON_parse w,
    let result := cart backend convertKeys parseFloat JSON_parse w in
    let empty := VObj [("active", VBool false); ("itemsQty", VNum 0);
                       ("items", VArr [] []); ("totals", VArr [] [])] in
    (exists v, result.1 = Ok v) /\
    (truthy (quoteId_of (Session.cart (session w))) = false ->
     result = (Ok empty, w)) /\
    (forall cartPath,
       truthy (quoteId_of (Session.cart (session w))) = true ->
       (getCartPath w).1 = Ok cartPath ->
       (exists e, backend (requests w) (quote_request cartPath) = Throw e) \/
       (exists e, backend (quote_request cartPath :: requests w)
                    (totals_request cartPath) = Throw e) ->
       result
       = (Ok empty,
          {| session := Session.set_cart None (session w);
             saves := S (saves w);
             requests := totals_request cartPath :: quote_request cartPath
                         :: requests w |})).
Proof.
  intros backend convertKeys parseFloat JSON_parse w result empty.
  subst result empty. unfold cart. rewrite bind_M. cbn [getSession].
  destruct (truthy (quoteId_of (Session.cart (session w)))) eqn:Hq;
    cbn [negb].
  2: { split; [by eexists|]. split; [done|discriminate]. }
  destruct (Session.cart (session w)) as [c|] eqn:Hc; [|discriminate Hq].
  rewrite bind_M, (getCartPath_with_cart w c Hc).
  set (cartPath := if truthy _ then _ else _).
  unfold try_catch. rewrite bind_M. unfold promise_all2.
  destruct (rest_with backend _ GET cartPath (VObj []) (VObj []) w)
    as [first w1] eqn:Hfirst.
  destruct (rest_with backend _ GET (cartPath +:+ "/totals") (VObj [])
              (VObj []) w1) as [second w2] eqn:Hsecond.
  assert (Hw1 : w1 = {| session := session w; saves := saves w;
                        requests := quote_request cartPath :: requests w |}).
  { pose proof (rest_with_world backend (fun r => Ok (convertKeys r)) GET
                  cartPath (VObj []) (VObj []) w) as Hw.
    rewrite Hfirst in Hw. exact Hw. }
  assert (Hw2 : w2 = {| session := session w; saves := saves w;
                        requests := totals_request cartPath
                                    :: quote_request cartPath :: requests w |}).
  { pose proof (rest_with_world backend (fun r => Ok (convertKeys r)) GET
                  (cartPath +:+ "/totals") (VObj []) (VObj []) w1) as Hw.
    rewrite Hsecond, Hw1 in Hw. exact Hw. }
  split; [|split; [discriminate|]].
  - destruct first as [a|]; [destruct second as [b|]|];
      cbn [bind outcome_monad]; try (by eexists).
    unfold lift. cbn [fst snd].
    destruct (get_prop a "data"); [|by eexists].
    destruct (get_prop b "data"); [|by eexists].
    cbn [bind M_monad].
    destruct (convertCartData JSON_parse parseFloat a0 a1); by eexists.
  - intros p _ Hp Hfail. injection Hp as <-.
    assert (Hthrow : exists e, (x <- first ;; y <- second ;; Ok (x, y))
                               = Throw e).
    { destruct Hfail as [[e He]|[e He]].
      - exists e. apply (rest_with_fails backend
                           (fun r => Ok (convertKeys r))) in He.
        rewrite Hfirst in He. cbn [fst] in He. by rewrite He.
      - pose proof (rest_with_fails backend (fun r => Ok (convertKeys r))
                      GET (cartPath +:+ "/totals") (VObj []) (VObj []) w1 e)
          as Hsnd.
        rewrite Hsecond, Hw1 in Hsnd. cbn [fst] in Hsnd.
        rewrite (Hsnd He). destruct first; by eexists. }
    destruct Hthrow as [e ->]. by rewrite bind_M, removeCartData_run, Hw2.
Qed.

Lemma cart_never_throws_witness :
  cart backend_down camelCase_already no_float never_parsed
    (world_of new_session)
  = (Ok (VObj [("active", VBool false); ("itemsQty", VNum 0);
               ("items", VArr [] []); ("totals", VArr [] [])]),
     world_of new_session) /\
  cart backend_down camelCase_already no_float never_parsed
    (world_of (guest_session (VStr "q1")))
  = (Ok (VObj [("active", VBool false); ("itemsQty", VNum 0);
               ("items", VArr [] []); ("totals", VArr [] [])]),
     {| session := new_session; saves := 1;
        requests := [totals_request "/guest-carts/q1";
                     quote_request "/guest-carts/q1"] |}).
Proof.
  destruct (cart_never_throws backend_down camelCase_already no_float
              never_parsed (world_of new_session)) as (_ & Hempty & _).
  destruct (cart_never_throws backend_down camelCase_already no_float
              never_parsed (world_of (guest_session (VStr "q1"))))
    as (_ & _ & Hfail).
  split.
  - by apply Hempty.
  - apply (Hfail "/guest-carts/q1"); [reflexivity|reflexivity|].
    left. by eexists.
Defined.

(** ** ensureCart *)

Lemma createCart_run backend token w :
  createCart backend token w
  = match backend (requests w) (createCart_request token) with
    | Throw e =>
        (Throw e, {| session := session w; saves := saves w;
                     requests := createCart_request token :: requests w |})
    | Ok response =>
        match get_prop response "data" with
        | Throw e =>
            (Throw e, {| session := session w; saves := saves w;
                         requests := createCart_request token :: requests w |})
        | Ok data =>
            (Ok {| quoteId := data |},
             {| session := Session.set_cart (Some {| quoteId := data |})
                             (session w);
                saves := saves w;
                requests := createCart_request token :: requests w |})
        end
    end.
Proof.
  unfold createCart. rewrite bind_M, rest_run.
  change {| method := POST; path := _; payload := VUndef; context := VUndef |}
    with (createCart_request token).
  destruct (backend _ _) as [response|]; [|done].
  rewrite bind_M. unfold lift.
  by destruct (get_prop response "data").
Qed.

Lemma ensureCart_run backend w :
  ensureCart backend w
  = if truthy (quoteId_of (Session.cart (session w))) then
      match Session.cart (session w) with
      | Some c => (Ok c, w)
      | None => (Throw TypeError, w)
      end
    else createCart backend (token_of (Session.customerToken (session w))) w.
Proof.
  unfold ensureCart. rewrite bind_M. cbn [getSession].
  destruct (Session.cart (session w)) as [c|]; [|done].
  cbn [quoteId_of]. by destruct (truthy (quoteId c)).
Qed.

(** C10, as amended.  With a truthy quote id in [session.cart],
    [ensureCart] returns that cart and changes nothing, without a backend
    call.  Otherwise it posts to [/carts/mine] when a customer token is
    present and to [/guest-carts] when not, and stores the id it receives
    as [session.cart].  Whenever the id received is truthy, running
    [ensureCart] twice gives the result and the state of running it
    once. *)
Theorem ensureCart_idempotent :
  forall backend w,
    (forall c,
       Session.cart (session w) = Some c -> truthy (quoteId c) = true ->
       ensureCart backend w = (Ok c, w)) /\
    (forall response data,
       truthy (quoteId_of (Session.cart (session w))) = false ->
       let request :=
         createCart_request (token_of (Session.customerToken (session w))) in
       backend (requests w) request = Ok response ->
       get_prop response "data" = Ok data ->
       method request = POST /\
       path request
       = (if truthy (token_of (Session.customerToken (session w)))
          then "/carts/mine" else "/guest-carts") /\
       ensureCart backend w
       = (Ok {| quoteId := data |},
          {| session := Session.set_cart (Some {| quoteId := data |})
                          (session w);
             saves := saves w;
             requests := request :: requests w |})) /\
    ((forall c w', ensureCart backend w = (Ok c, w') ->
                   truthy (quoteId c) = true) ->
     (ensureCart backend ;; ensureCart backend) w = ensureCart backend w).
Proof.
  intros backend w. split; [|split].
  - intros c Hc Hq. by rewrite ensureCart_run, Hc; cbn [quoteId_of]; rewrite Hq.
  - intros response data Hq request Hresp Hdata.
    split; [done|]. split; [done|].
    rewrite ensureCart_run, Hq, createCart_run.
    fold request. by rewrite Hresp, Hdata.
  - intros Htruthy. rewrite bind_M.
    destruct (ensureCart backend w) as [[c|e] w'] eqn:Hrun; [|done].
    specialize (Htruthy c w' eq_refl).
    rewrite ensureCart_run in Hrun.
    destruct (truthy (quoteId_of (Session.cart (session w)))) eqn:Hq.
    + destruct (Session.cart (session w)) as [c0|] eqn:Hc; [|done].
      injection Hrun as <- <-. by rewrite ensureCart_run, Hc, Hq.
    + rewrite createCart_run in Hrun.
      destruct (backend _ _) as [response|]; [|done].
      destruct (get_prop response "data") as [data|]; [|done].
      injection Hrun as <- <-. rewrite ensureCart_run. cbn in *.
      by rewrite Htruthy.
Qed.

Lemma ensureCart_idempotent_witness :
  ensureCart (backend_constant (VStr "q1"))
    (world_of (guest_session (VStr "q0")))
  = (Ok {| quoteId := VStr "q0" |}, world_of (guest_session (VStr "q0"))) /\
  ensureCart (backend_constant (VStr "q1")) (world_of new_session)
  = (Ok {| quoteId := VStr "q1" |},
     {| session := guest_session (VStr "q1"); saves := 0;
        requests := [createCart_request VUndef] |}) /\
  ensureCart (backend_constant (VNum 7)) (world_of customer_session)
  = (Ok {| quoteId := VNum 7 |},
     {| session := Session.set_cart (Some {| quoteId := VNum 7 |})
                     customer_session;
        saves := 0;
        requests := [{| method := POST; path := "/carts/mine";
                        payload := VUndef; context := VUndef |}] |}) /\
  (ensureCart (backend_constant (VStr "q1")) ;;
   ensureCart (backend_constant (VStr "q1"))) (world_of new_session)
  = ensureCart (backend_constant (VStr "q1")) (world_of new_session).
Proof.
  destruct (ensureCart_idempotent (backend_constant (VStr "q1"))
              (world_of (guest_session (VStr "q0")))) as (Hkeep & _ & _).
  destruct (ensureCart_idempotent (backend_constant (VStr "q1"))
              (world_of new_session)) as (_ & Hcreate & Htwice).
  destruct (ensureCart_idempotent (backend_constant (VNum 7))
              (world_of customer_session)) as (_ & Hmine & _).
  split; [by apply Hkeep|]. split; [|split].
  - by apply (Hcreate (VObj [("data", VStr "q1")])).
  - by apply (Hmine (VObj [("data", VNum 7)])).
  - apply Htwice. intros c w' Hrun. by injection Hrun as <- _.
Defined.

(** C10, refuted as stated: when the backend answers the first request
    with an empty id, a second [ensureCart] creates another cart, and the
    session and the result differ from those of a single run. *)
Lemma ensureCart_twice_creates_two_carts :
  ensureCart backend_blank_first_cart (world_of new_session)
  = (Ok {| quoteId := VStr "" |},
     {| session := guest_session (VStr ""); saves := 0;
        requests := [createCart_request VUndef] |}) /\
  (ensureCart backend_blank_first_cart ;;
   ensureCart backend_blank_first_cart) (world_of new_session)
  = (Ok {| quoteId := VStr "q2" |},
     {| session := guest_session (VStr "q2"); saves := 0;
        requests := [createCart_request VUndef; createCart_request VUndef] |}).
Proof. split; reflexivity. Qed.

(** ** Error translation *)

(** ** addToCart *)

(** [addToCart] runs up to its request, posts it, and hands a failure to
    its [catch] block. *)
Lemma addToCart_unfold backend convertKeys parseFloat args w :
  addToCart backend convertKeys parseFloat args w
  = match addToCart_request backend args w with
    | (Throw e, w1) => (Throw e, w1)
    | (Ok request, w1) =>
        try_catch
          (response <- rest backend POST (path request) (payload request)
                         VUndef ;;
           cartItem <- lift (get_prop response "data") ;;
           let cartItem := convertKeys cartItem in
           processed <- lift (processPrice parseFloat cartItem ["price"]) ;;
           ret (match cartItem with VUndef => VUndef | _ => processed end))
          addToCart_catch w1
    end.
Proof.
  unfold addToCart, addToCart_request. rewrite !bind_M. unfold lift.
  destruct (get_prop args "input") as [input|]; [|done].
  rewrite !bind_M.
  destruct (ensureCart backend w) as [[cartData|] w0]; [|done].
  rewrite !bind_M.
  destruct (getCartPath w0) as [[cartPath|] w1]; [|done].
  rewrite !bind_M.
  by destruct (cartItemRequest input cartData).
Qed.

(** The request [addToCart] sends is a POST without context. *)
Lemma addToCart_request_context backend args w request w1 :
  addToCart_request backend args w = (Ok request, w1) ->
  method request = POST /\ context request = VUndef.
Proof.
  unfold addToCart_request. rewrite !bind_M. unfold lift.
  destruct (get_prop args "input") as [input|]; [|done].
  rewrite !bind_M.
  destruct (ensureCart backend w) as [[cartData|] w0]; [|done].
  rewrite !bind_M.
  destruct (getCartPath w0) as [[cartPath|] w2]; [|done].
  rewrite !bind_M.
  destruct (cartItemRequest input cartData); [|done].
  by intros [= <- _].
Qed.

(** C4, as amended.  When the POST of [addToCart] fails with status code
    400 and a message beginning with "We don't have as many", the error is
    rethrown with code STOCK_TOO_LOW, [userMessage] and [noLogging] set.
    When it fails with a status code other than 400 and a message beginning
    with "No such entity with cartId", the cart is removed from the
    session, the session is saved, and the error is rethrown with code
    INVALID_CART. *)
Theorem addToCart_translates_errors :
  forall backend convertKeys parseFloat args w request w1 fields message,
    addToCart_request backend args w = (Ok request, w1) ->
    backend (requests w1) request = Throw (VObj fields) ->
    prop fields "message" = VStr message ->
    (prop fields "statusCode" = VNum 400 ->
     String.prefix "We don't have as many" message = true ->
     addToCart backend convertKeys parseFloat args w
     = (Throw (VObj (obj_set "noLogging" (VBool true)
                       (obj_set "userMessage" (VBool true)
                          (obj_set "code" (VStr "STOCK_TOO_LOW") fields)))),
        {| session := session w1; saves := saves w1;
           requests := request :: requests w1 |})) /\
    (strict_eq (prop fields "statusCode") (VNum 400) = false ->
     String.prefix "No such entity with cartId" message = true ->
     addToCart backend convertKeys parseFloat args w
     = (Throw (VObj (obj_set "code" (VStr "INVALID_CART") fields)),
        {| session := Session.set_cart None (session w1);
           saves := S (saves w1);
           requests := request :: requests w1 |})).
Proof.
  intros backend convertKeys parseFloat args w request w1 fields message
    Hreq Hfail Hmsg.
  pose proof (addToCart_request_context _ _ _ _ _ Hreq) as [Hpost Hctx].
  rewrite addToCart_unfold, Hreq. unfold try_catch.
  rewrite bind_M, rest_run.
  assert (Hsame : {| method := POST; path := path request;
                     payload := payload request; context := VUndef |}
                  = request).
  { destruct request; cbn in *. by subst. }
  rewrite Hsame, Hfail.
  unfold addToCart_catch. rewrite bind_M. unfold lift.
  cbn [get_prop]. split.
  - intros Hstatus Hprefix. rewrite Hstatus, Hmsg.
    cbn -[String.prefix obj_set]. by rewrite Hprefix.
  - intros Hstatus Hprefix. rewrite Hstatus, Hmsg.
    cbn -[String.prefix obj_set]. by rewrite Hprefix.
Qed.

Lemma addToCart_translates_errors_witness :
  addToCart (backend_failing 400 "We don't have as many items as requested")
    camelCase_already no_float addToCart_args
    (world_of (guest_session (VStr "q1")))
  = (Throw (VObj [("message",
                   VStr "We don't have as many items as requested");
                  ("statusCode", VNum 400);
                  ("code", VStr "STOCK_TOO_LOW");
                  ("userMessage", VBool true);
                  ("noLogging", VBool true)]),
     {| session := guest_session (VStr "q1"); saves := 0;
        requests := [addToCart_post "q1"] |}) /\
  addToCart (backend_failing 404 "No such entity with cartId = 7")
    camelCase_already no_float addToCart_args
    (world_of (guest_session (VStr "q1")))
  = (Throw (VObj [("message", VStr "No such entity with cartId = 7");
                  ("statusCode", VNum 404);
                  ("code", VStr "INVALID_CART")]),
     {| session := new_session; saves := 1;
        requests := [addToCart_post "q1"] |}).
Proof.
  split.
  - by apply (addToCart_translates_errors
                (backend_failing 400 "We don't have as many items as requested")
                camelCase_already no_float addToCart_args
                (world_of (guest_session (VStr "q1")))
                (addToCart_post "q1") (world_of (guest_session (VStr "q1")))
                _ "We don't have as many items as requested"
                eq_refl eq_refl eq_refl).
  - by apply (addToCart_translates_errors
                (backend_failing 404 "No such entity with cartId = 7")
                camelCase_already no_float addToCart_args
                (world_of (guest_session (VStr "q1")))
                (addToCart_post "q1") (world_of (guest_session (VStr "q1")))
                _ "No such entity with cartId = 7"
                eq_refl eq_refl eq_refl).
Defined.

(** C4, refuted as stated: a failure with status code 400 and a message
    beginning with "No such entity with cartId" is rethrown as it came,
    and the cart stays in the session. *)
Lemma addToCart_400_keeps_missing_cart :
  addToCart (backend_failing 400 "No such entity with cartId = 7")
    camelCase_already no_float addToCart_args
    (world_of (guest_session (VStr "q1")))
  = (Throw (backend_error 400 "No such entity with cartId = 7"),
     {| session := guest_session (VStr "q1"); saves := 0;
        requests := [addToCart_post "q1"] |}).
Proof. reflexivity. Qed.

(** ** Session fields read and written *)

Lemma same_unwritten_refl s : same_unwritten s s.
Proof. by repeat split. Qed.

Lemma same_unwritten_trans s1 s2 s3 :
  same_unwritten s1 s2 -> same_unwritten s2 s3 -> same_unwritten s1 s3.
Proof.
  unfold same_unwritten. intros (?&?&?&?&?&?) (?&?&?&?&?&?).
  repeat split; congruence.
Qed.

Lemma same_written_refl w w' : same_written w w' w w'.
Proof. by left. Qed.

Lemma same_written_trans w w' w1 w1' w2 w2' :
  same_written w w' w1 w1' -> same_written w1 w1' w2 w2' ->
  same_written w w' w2 w2'.
Proof.
  unfold same_written. intros [[? ?]|?] [[? ?]|?];
    [left; split; congruence|right; congruence..].
Qed.

(** A computation that leaves the world as it is and whose outcome does
    not depend on the world. *)
Lemma confined_const {A} (c : outcome A) : confined (fun w => (c, w)).
Proof.
  split; [intros w; apply same_unwritten_refl|].
  intros w w' H. split; [done|]. split; [exact H|apply same_written_refl].
Qed.

Lemma confined_ret {A} (a : A) : confined (ret a).
Proof. apply (confined_const (Ok a)). Qed.

Lemma confined_throw {A} e : confined (@throw A e).
Proof. apply (confined_const (Throw e)). Qed.

Lemma confined_lift {A} (c : outcome A) : confined (lift c).
Proof. apply (confined_const c). Qed.

Lemma confined_bind {A B} (m : M A) (k : A -> M B) :
  confined m -> (forall a, confined (k a)) -> confined (bind m k).
Proof.
  intros [Hm1 Hm2] Hk. split.
  - intros w. rewrite bind_M. specialize (Hm1 w).
    destruct (m w) as [[a|e] w1]; [|done].
    eapply same_unwritten_trans; [exact Hm1|]. apply (Hk a).
  - intros w w' Hw. rewrite !bind_M. specialize (Hm2 w w' Hw).
    destruct (m w) as [[a|e] w1], (m w') as [[a'|e'] w1'];
      destruct Hm2 as (Heq & Hw1 & Hwritten); try discriminate Heq.
    + injection Heq as <-.
      destruct (proj2 (Hk a) w1 w1' Hw1) as (Hout & Hw2 & Hwritten2).
      split; [exact Hout|]. split; [exact Hw2|].
      by eapply same_written_trans.
    + injection Heq as <-. done.
Qed.

Lemma confined_try_catch {A} (body : M A) (handler : value -> M A) :
  confined body -> (forall e, confined (handler e)) ->
  confined (try_catch body handler).
Proof.
  intros [Hm1 Hm2] Hk. unfold try_catch. split.
  - intros w. specialize (Hm1 w).
    destruct (body w) as [[a|e] w1]; [done|].
    eapply same_unwritten_trans; [exact Hm1|]. apply (Hk e).
  - intros w w' Hw. specialize (Hm2 w w' Hw).
    destruct (body w) as [[a|e] w1], (body w') as [[a'|e'] w1'];
      destruct Hm2 as (Heq & Hw1 & Hwritten); try discriminate Heq.
    + by injection Heq as <-.
    + injection Heq as <-.
      destruct (proj2 (Hk e) w1 w1' Hw1) as (Hout & Hw2 & Hwritten2).
      split; [exact Hout|]. split; [exact Hw2|].
      by eapply same_written_trans.
Qed.

(** Reading the session: what follows may use the fields that may be
    read, and nothing else of the session. *)
Lemma confined_getSession {A} (k : Session.t -> M A) :
  (forall s, confined (k s)) ->
  (forall s s', same_read s s' -> k s = k s') ->
  confined (bind getSession k).
Proof.
  intros Hk Hsame. split.
  - intros w. rewrite bind_M. apply (Hk (session w)).
  - intros w w' Hw. rewrite !bind_M. cbn [getSession].
    rewrite (Hsame (session w) (session w')) by apply Hw.
    by apply (Hk (session w')).
Qed.

Lemma confined_rest backend m p data ctx :
  confined (rest backend m p data ctx).
Proof.
  split; [intros w; apply same_unwritten_refl|].
  intros w w' [Hs Hr]. rewrite !rest_run, Hr.
  split; [done|]. split; [by split|by left].
Qed.

Lemma confined_saveSession : confined saveSession.
Proof.
  split; [intros w; apply same_unwritten_refl|].
  intros w w' [Hs Hr]. split; [done|]. split; [by split|by left].
Qed.

Lemma confined_set_cart c : confined (modifySession (Session.set_cart c)).
Proof.
  split; [by intros w|]. intros w w' [Hs Hr]. split; [done|].
  split; [|by left]. split; [|done]. unfold same_read in *. cbn. tauto.
Qed.

Lemma confined_set_customerToken c :
  confined (modifySession (Session.set_customerToken c)).
Proof.
  split; [by intros w|]. intros w w' [Hs Hr]. split; [done|].
  split; [|by left]. split; [|done]. unfold same_read in *. cbn. tauto.
Qed.

Lemma confined_set_orderId v :
  confined (modifySession (Session.set_orderId v)).
Proof.
  split; [by intros w|]. intros w w' [Hs Hr]. split; [done|].
  split; [|by left]. split; [|done]. unfold same_read in *. cbn. tauto.
Qed.

Lemma confined_set_orderQuoteId v :
  confined (modifySession (Session.set_orderQuoteId v)).
Proof.
  split; [by intros w|]. intros w w' [Hs Hr]. split; [done|].
  split; [|by right]. split; [|done]. unfold same_read in *. cbn. tauto.
Qed.

(** Two sessions with the same readable fields are interchangeable in any
    code that only projects readable fields. *)
Ltac same_fields :=
  let s := fresh "s" in
  let s' := fresh "s" in
  let H := fresh "H" in
  intros s s' H; destruct s, s'; unfold same_read in H; cbn in H;
  destruct H as (?&?&?&?&?&?&?&?); subst; reflexivity.

(** Confinement of a handler body, by its structure. *)
Ltac confine_step :=
  lazymatch goal with
  | |- confined (ret _) => apply confined_ret
  | |- confined (throw _) => apply confined_throw
  | |- confined (lift _) => apply confined_lift
  | |- confined (rest _ _ _ _ _) => apply confined_rest
  | |- confined saveSession => apply confined_saveSession
  | |- confined (modifySession (Session.set_cart _)) =>
      apply confined_set_cart
  | |- confined (modifySession (Session.set_customerToken _)) =>
      apply confined_set_customerToken
  | |- confined (modifySession (Session.set_orderId _)) =>
      apply confined_set_orderId
  | |- confined (modifySession (Session.set_orderQuoteId _)) =>
      apply confined_set_orderQuoteId
  | |- confined (bind getSession _) =>
      apply confined_getSession; [intros ?|same_fields]
  | |- confined (bind _ _) => apply confined_bind; [|intros ?]
  | |- confined (try_catch _ _) => apply confined_try_catch; [|intros ?]
  | |- confined (if ?b then _ else _) => destruct b
  | |- confined (match ?x with _ => _ end) => destruct x
  | |- confined ((fun _ => _) _) => cbv beta
  | |- confined (let _ := _ in _) => cbv zeta
  | |- confined _ => solve [auto 1]
  end.
Ltac confine := repeat confine_step.

Section Confinement.

Variable backend : list Request -> Request -> outcome value.
Variable convertKeys : value -> value.
Variable parseFloat : value -> value.
Variable parseInt : value -> value.
Variable JSON_parse : string -> outcome value.
Variable Date_now : value.
Variable expirationTime_after : value -> value -> value.
Variable Number : value -> value.
Variable convertList : value -> value -> outcome value.
Variable reduceUrl : value -> value -> outcome value.
Variable stripHtml : value -> outcome value.
Variable qs_stringify : value -> string.
Variable storeList : value.
Variable storeConfigMap : value.
Variable getActiveStoreConfig : M value.

(** What [getActiveStoreConfig] of the base class is taken to do. *)
Hypothesis confined_getActiveStoreConfig : confined getActiveStoreConfig.

Lemma confined_rest_with hook m p data ctx :
  confined (rest_with backend hook m p data ctx).
Proof. unfold rest_with. confine. Qed.

Lemma confined_removeCartData : confined removeCartData.
Proof. unfold removeCartData. confine. Qed.

Lemma confined_createCart token : confined (createCart backend token).
Proof. unfold createCart. confine. Qed.

Lemma confined_ensureCart : confined (ensureCart backend).
Proof. unfold ensureCart. confine; apply confined_createCart. Qed.

Lemma confined_getCartPath : confined getCartPath.
Proof. unfold getCartPath. confine. Qed.

Lemma confined_addToCart_catch e : confined (addToCart_catch e).
Proof. unfold addToCart_catch. confine; apply confined_removeCartData. Qed.

Lemma confined_addToCart args :
  confined (addToCart backend convertKeys parseFloat args).
Proof.
  unfold addToCart.
  pose proof confined_ensureCart. pose proof confined_getCartPath.
  pose proof confined_addToCart_catch. confine.
Qed.

(** Two calls started together: the second sees the request of the
    first. *)
Lemma confined_promise_all2 (a b : M value) :
  confined a -> confined b -> confined (promise_all2 a b).
Proof.
  intros [Ha1 Ha2] [Hb1 Hb2]. unfold promise_all2. split.
  - intros w. specialize (Ha1 w). destruct (a w) as [first w1].
    specialize (Hb1 w1). destruct (b w1) as [second w2].
    by eapply same_unwritten_trans.
  - intros w w' Hw. specialize (Ha2 w w' Hw).
    destruct (a w) as [first w1], (a w') as [first' w1'].
    destruct Ha2 as (Hfirst & Hw1 & Hwritten1). specialize (Hb2 w1 w1' Hw1).
    destruct (b w1) as [second w2], (b w1') as [second' w2'].
    destruct Hb2 as (Hsecond & Hw2 & Hwritten2). cbn in *. subst.
    split; [done|]. split; [exact Hw2|]. by eapply same_written_trans.
Qed.

Lemma confined_cart :
  confined (cart backend convertKeys parseFloat JSON_parse).
Proof.
  unfold cart.
  pose proof confined_getCartPath. pose proof confined_removeCartData.
  confine. apply confined_promise_all2; apply confined_rest_with.
Qed.

Lemma confined_signIn_catch e : confined (signIn_catch e).
Proof. unfold signIn_catch. confine. Qed.

Lemma confined_signIn args :
  confined (signIn backend convertKeys Date_now expirationTime_after args).
Proof.
  unfold signIn.
  pose proof confined_ensureCart. pose proof confined_signIn_catch. confine.
Qed.

Lemma confined_signOut : confined signOut.
Proof. unfold signOut. confine. Qed.

Lemma confined_signUp_catch e : confined (signUp_catch e).
Proof. unfold signUp_catch. confine. Qed.

Lemma confined_signUp args :
  confined (signUp backend convertKeys Date_now expirationTime_after args).
Proof.
  unfold signUp.
  pose proof confined_signUp_catch. pose proof confined_signIn. confine.
Qed.

Lemma confined_customer : confined (customer backend convertKeys).
Proof. unfold customer. confine. Qed.

Lemma confined_orders params : confined (orders backend convertKeys params).
Proof. unfold orders. confine. Qed.

Lemma confined_order params : confined (order backend params).
Proof. unfold order. confine. Qed.

Lemma confined_updateCartItem args :
  confined (updateCartItem backend convertKeys parseFloat parseInt args).
Proof. unfold updateCartItem. pose proof confined_getCartPath. confine. Qed.

Lemma confined_removeCartItem args : confined (removeCartItem backend args).
Proof. unfold removeCartItem. pose proof confined_getCartPath. confine. Qed.

Lemma confined_forwardAddressAction id m data :
  confined (forwardAddressAction backend convertKeys id m data).
Proof. unfold forwardAddressAction. confine. Qed.

Lemma confined_address params :
  confined (address backend convertKeys params).
Proof.
  unfold address. pose proof confined_forwardAddressAction. confine.
Qed.

Lemma confined_addCustomerAddress args :
  confined (addCustomerAddress backend convertKeys args).
Proof.
  unfold addCustomerAddress. pose proof confined_forwardAddressAction.
  confine.
Qed.

Lemma confined_editCustomerAddress args :
  confined (editCustomerAddress backend convertKeys args).
Proof.
  unfold editCustomerAddress. pose proof confined_forwardAddressAction.
  confine.
Qed.

Lemma confined_removeCustomerAddress args :
  confined (removeCustomerAddress backend convertKeys args).
Proof.
  unfold removeCustomerAddress. pose proof confined_forwardAddressAction.
  confine.
Qed.

Lemma confined_validatePasswordToken params :
  confined (validatePasswordToken backend params).
Proof. unfold validatePasswordToken. confine. Qed.

Lemma confined_changeCustomerPassword_catch e :
  confined (changeCustomerPassword_catch e).
Proof. unfold changeCustomerPassword_catch. confine. Qed.

Lemma confined_changeCustomerPassword args :
  confined (changeCustomerPassword backend args).
Proof.
  unfold changeCustomerPassword.
  pose proof confined_changeCustomerPassword_catch. confine.
Qed.

Lemma confined_applyCoupon_catch e : confined (applyCoupon_catch e).
Proof. unfold applyCoupon_catch. confine. Qed.

Lemma confined_applyCoupon args : confined (applyCoupon backend args).
Proof.
  unfold applyCoupon.
  pose proof confined_getCartPath. pose proof confined_applyCoupon_catch.
  confine.
Qed.

(** A request that is sent and not awaited. *)
Lemma confined_not_awaited (m : M value) :
  confined m -> confined (fun w => (Ok VUndef, (m w).2)).
Proof.
  intros [Hm1 Hm2]. split; [intros w; apply Hm1|].
  intros w w' Hw. split; [done|]. by apply Hm2.
Qed.

Lemma confined_cancelCoupon : confined (cancelCoupon backend).
Proof.
  unfold cancelCoupon. pose proof confined_getCartPath. confine.
  apply confined_not_awaited, confined_rest.
Qed.

Lemma confined_performCartAction p m data :
  confined (performCartAction backend convertKeys p m data).
Proof. unfold performCartAction. pose proof confined_getCartPath. confine. Qed.

Lemma confined_estimateShippingMethods args :
  confined (estimateShippingMethods backend convertKeys args).
Proof.
  unfold estimateShippingMethods. pose proof confined_performCartAction.
  confine.
Qed.

Lemma confined_setShipping args :
  confined (setShipping backend convertKeys args).
Proof.
  unfold setShipping. pose proof confined_performCartAction. confine.
Qed.

Lemma confined_placeOrder_catch e : confined (placeOrder_catch e).
Proof. unfold placeOrder_catch. confine. Qed.

Lemma confined_placeOrder args :
  confined (placeOrder backend convertKeys args).
Proof.
  unfold placeOrder.
  pose proof confined_performCartAction. pose proof confined_placeOrder_catch.
  confine.
Qed.

Lemma confined_lastOrder : confined (lastOrder backend convertKeys).
Proof. unfold lastOrder. confine. Qed.

Lemma confined_fetchList p params :
  confined (fetchList backend Number convertList p params).
Proof. unfold fetchList. confine. Qed.

Lemma confined_fetchProductList params :
  confined (fetchProductList backend Number convertList params).
Proof. unfold fetchProductList. pose proof confined_fetchList. confine. Qed.

Lemma confined_products params :
  confined (products backend Number convertList params).
Proof. unfold products. pose proof confined_fetchProductList. confine. Qed.

Lemma confined_category args :
  confined (category backend stripHtml qs_stringify JSON_parse args).
Proof. unfold category. confine. Qed.

Lemma confined_fetchUrl params :
  confined (fetchUrl backend reduceUrl params).
Proof. unfold fetchUrl. confine. Qed.

Lemma confined_product args : confined (product backend reduceUrl args).
Proof. unfold product. pose proof confined_fetchUrl. confine. Qed.

Lemma confined_countries : confined (countries backend).
Proof. unfold countries. confine. Qed.

Lemma confined_editCustomerData args :
  confined (editCustomerData backend convertKeys args).
Proof. unfold editCustomerData. confine. Qed.

Lemma confined_requestCustomerPasswordResetToken args :
  confined (requestCustomerPasswordResetToken backend args).
Proof. unfold requestCustomerPasswordResetToken. confine. Qed.

Lemma confined_resetCustomerPassword args :
  confined (resetCustomerPassword backend args).
Proof. unfold resetCustomerPassword. confine. Qed.

Lemma confined_resolvers :
  confined baseCurrency /\ confined timezone /\ confined weightUnit.
Proof.
  unfold baseCurrency, timezone, weightUnit. split; [|split]; confine.
Qed.

Lemma confined_getActiveStores : confined (getActiveStores storeList).
Proof. unfold getActiveStores. confine. Qed.

(** [getActiveCurrencies] touches the session as [getActiveStoreConfig]
    does, and in no other way. *)
Lemma confined_getActiveCurrencies :
  confined (getActiveCurrencies storeConfigMap getActiveStoreConfig).
Proof. unfold getActiveCurrencies. confine. Qed.

End Confinement.




(** * Further properties of the adapter *)

(** ** Objects, continued *)

Lemma obj_get_del_eq {A} k (o : props A) : obj_get k (obj_del k o) = None.
Proof.
  induction o as [|[k' v] o IH]; [done|]. simpl.
  destruct (String.eqb k k') eqn:E; [done|]. simpl. by rewrite E.
Qed.

Lemma obj_set_same {A} k (v : A) o : obj_get k o = Some v -> obj_set k v o = o.
Proof.
  induction o as [|[k' v'] o IH]; [done|]. simpl.
  destruct (String.eqb_spec k k') as [->|Hne].
  - by intros [= ->].
  - intros H. by rewrite IH.
Qed.

Lemma put_prop_same v k x :
  x <> VUndef -> get_prop v k = Ok x -> put_prop v k x = v.
Proof.
  intros Hx H. destruct v; simpl in *; try done; injection H as H;
    unfold prop in H; f_equal; apply obj_set_same;
    destruct (obj_get k _); simpl in H; congruence.
Qed.

Lemma strict_eq_true a b : strict_eq a b = true -> a = b.
Proof.
  destruct a, b; simpl; try done.
  - intros H. f_equal. by destruct b, b0.
  - intros H%Z.eqb_eq. by subst.
  - intros H%String.eqb_eq. by subst.
Qed.

(** ** convertAttributesSet, continued *)

(** X1.  [convertAttributesSet] is idempotent: a response it has returned
    is returned as it is when converted again. *)
Theorem convertAttributesSet_idempotent :
  forall response r,
    convertAttributesSet response = Ok r -> convertAttributesSet r = Ok r.
Proof.
  intros response r H. pose proof H as Hrun.
  unfold convertAttributesSet in H. bound H. bound H.
  assert (Hresp : isObject response = true).
  { destruct response; try done; injection E as <-; discriminate E0. }
  destruct (or_default x0 (arr [])) eqn:Hdef;
    try (injection H as <-; exact Hrun).
  bound H. bound H. injection H as <-.
  apply set_prop_inv in E2 as [-> Hx].
  unfold convertAttributesSet, with_data.
  rewrite get_put_eq by done. cbn [bind outcome_monad].
  by rewrite get_put_eq.
Qed.

Lemma convertAttributesSet_idempotent_witness :
  exists r, convertAttributesSet category_response = Ok r /\
            convertAttributesSet r = Ok r.
Proof.
  eexists. split; [reflexivity|].
  by apply (convertAttributesSet_idempotent category_response).
Defined.

(** ** convertTotals, continued *)

Lemma findIndex_from_range p l : forall k i,
  findIndex_from k p l = Ok i ->
  i = -1 \/ (k <= i < k + Z.of_nat (length l)).
Proof.
  induction l as [|x l IH]; intros k i H; cbn [findIndex_from] in H.
  - left. by injection H.
  - bound H. destruct x0.
    + injection H as <-. right. cbn [length]. lia.
    + apply IH in H as [H|H]; [by left|right]. cbn [length]. lia.
Qed.

Lemma findIndex_from_returns l : forall k,
  Forall (fun seg => seg <> VNull /\ seg <> VUndef) l ->
  exists i, findIndex_from k is_discount l = Ok i.
Proof.
  induction l as [|x l IH]; intros k Hall; [by eexists|].
  inversion Hall as [|? ? [Hnull Hundef] Hl]; subst.
  cbn [findIndex_from].
  assert (Hx : exists b, is_discount x = Ok b)
    by (destruct x; try done; by eexists).
  destruct Hx as [b ->]. cbn [bind outcome_monad].
  destruct b; [by eexists|by apply IH].
Qed.

(** X2.  Whatever the segments are, [convertTotals] returns them all: the
    list it leaves in [totalSegments] is a permutation of the one it was
    given, and it returns on every list without null entries. *)
Theorem convertTotals_permutes_segments :
  forall convertKeys response data segments named,
    get_prop response "data" = Ok data ->
    get_prop (convertKeys data) "totalSegments" = Ok (VArr segments named) ->
    Forall (fun seg => seg <> VNull /\ seg <> VUndef) segments ->
    exists segments',
      convertTotals convertKeys response
      = Ok (with_data response
              (put_prop (convertKeys data) "totalSegments"
                 (VArr segments' named))) /\
      segments' ≡ₚ segments.
Proof.
  intros convertKeys response data segments named Hdata Hsegs Hall.
  unfold convertTotals. rewrite Hdata. cbn [bind outcome_monad].
  rewrite Hsegs. cbn [bind outcome_monad truthy]. unfold findIndex.
  destruct (findIndex_from_returns segments 0 Hall) as [i Hi].
  rewrite Hi. cbn [bind outcome_monad].
  apply findIndex_from_range in Hi as [->|Hrange].
  - exists segments. split; [|done]. cbn [Z.eqb Pos.eqb negb].
    by rewrite put_prop_same.
  - destruct (Z.eqb_spec i (-1)) as [|_]; [lia|]. cbn [negb].
    assert (Hn : exists n, i = Z.of_nat n /\ (n < length segments)%nat)
      by (exists (Z.to_nat i); lia).
    destruct Hn as (n & -> & Hn).
    destruct (lookup_lt_is_Some_2 segments n Hn) as [x Hx].
    rewrite splice_remove, splice_insert_1 by done.
    eexists. split; [reflexivity|].
    assert (Hidx : index segments (Z.of_nat n) = x).
    { unfold index. destruct (Z.ltb_spec (Z.of_nat n) 0); [lia|].
      by rewrite Nat2Z.id, Hx. }
    rewrite Hidx, <- Permutation_middle, take_drop.
    symmetry. by apply delete_Permutation.
Qed.

Lemma convertTotals_permutes_segments_witness :
  exists segments',
    convertTotals camelCase_already (totals_response sample_segments)
    = Ok (totals_response segments') /\
    segments' ≡ₚ sample_segments.
Proof.
  destruct (convertTotals_permutes_segments camelCase_already
              (totals_response sample_segments) _ sample_segments []
              eq_refl eq_refl) as (segments' & Hrun & Hperm).
  { repeat constructor; discriminate. }
  exists segments'. by split.
Defined.

(** ** processPrice *)

Lemma processPrice_fold parseFloat fields : forall data,
  isObject data = true ->
  exists r,
    foldM (fun data field =>
             x <- get_prop data field ;;
             set_prop data field (parseFloat x)) data fields = Ok r /\
    isObject r = true /\
    (forall k, k ∉ fields -> get_prop r k = get_prop data k) /\
    (NoDup fields ->
     forall k, k ∈ fields ->
               exists x, get_prop data k = Ok x /\
                         get_prop r k = Ok (parseFloat x)).
Proof.
  induction fields as [|f fields IH]; intros data Hobj.
  - exists data. repeat split; [done|]. intros _ k Hk. by apply elem_of_nil in Hk.
  - cbn [foldM].
    assert (Hget : exists x, get_prop data f = Ok x)
      by (destruct data; try done; by eexists).
    destruct Hget as [x Hx]. rewrite Hx. cbn [bind outcome_monad].
    rewrite set_prop_object by done. cbn [bind outcome_monad].
    destruct (IH (put_prop data f (parseFloat x))) as (r & Hr & Hobjr & Hout & Hin);
      [by apply put_prop_object|].
    exists r. split; [done|]. split; [done|]. split.
    + intros k Hk. apply not_elem_of_cons in Hk as [Hkf Hk].
      rewrite Hout by done. by rewrite get_put_ne.
    + intros Hnd k Hk. apply NoDup_cons in Hnd as [Hf Hnd].
      apply elem_of_cons in Hk as [->|Hk].
      * exists x. split; [done|]. rewrite Hout by done.
        by apply get_put_eq.
      * destruct (Hin Hnd k Hk) as (y & Hy & Hry).
        exists y. split; [|done]. rewrite <- Hy.
        symmetry. apply get_put_ne. intros ->. done.
Qed.

(** X3.  On an object [processPrice] always returns; it replaces each
    listed field by [parseFloat] of that field and leaves every other
    field as it was.  An undefined [data] is treated as [{}]; on [null]
    it throws as soon as there is a field to process. *)
Theorem processPrice_touches_listed_fields :
  forall parseFloat data fields,
    (isObject data = true ->
     exists r,
       processPrice parseFloat data fields = Ok r /\
       (forall k, k ∉ fields -> get_prop r k = get_prop data k) /\
       (NoDup fields ->
        forall k, k ∈ fields ->
                  exists x, get_prop data k = Ok x /\
                            get_prop r k = Ok (parseFloat x))) /\
    processPrice parseFloat VUndef fields
    = processPrice parseFloat (VObj []) fields /\
    (fields <> [] -> processPrice parseFloat VNull fields = Throw TypeError).
Proof.
  intros parseFloat data fields. split; [|split].
  - intros Hobj. unfold processPrice.
    replace (or_default data (VObj [])) with data by (by destruct data).
    destruct (processPrice_fold parseFloat fields data Hobj)
      as (r & Hr & _ & Hout & Hin).
    by exists r.
  - done.
  - intros Hne. by destruct fields.
Qed.

Lemma processPrice_touches_listed_fields_witness :
  processPrice (fun v => match v with VStr "12.5" => VNum 12 | _ => v end)
    (VObj [("sku", VStr "24-WB01"); ("price", VStr "12.5")]) ["price"]
  = Ok (VObj [("sku", VStr "24-WB01"); ("price", VNum 12)]) /\
  exists r,
    processPrice no_float (VObj [("sku", VStr "24-WB01")]) ["price"] = Ok r /\
    get_prop r "sku" = Ok (VStr "24-WB01") /\
    processPrice no_float VNull ["price"] = Throw TypeError.
Proof.
  split; [reflexivity|].
  destruct (processPrice_touches_listed_fields no_float
              (VObj [("sku", VStr "24-WB01")]) ["price"])
    as (Hobj & _ & Hnull).
  destruct (Hobj eq_refl) as (r & Hr & Hout & _).
  exists r. split; [done|]. split.
  - rewrite Hout; [done|]. by intros [=]%list_elem_of_singleton.
  - by apply Hnull.
Defined.

(** ** The cart of the session *)

(** X4.  Once [ensureCart] has returned, the session holds the cart it
    returned and [getCartPath] does not throw: it gives [/carts/mine] to a
    customer with a token and the path of the returned cart to a guest,
    and changes nothing. *)
Theorem getCartPath_after_ensureCart :
  forall backend w c w',
    ensureCart backend w = (Ok c, w') ->
    Session.cart (session w') = Some c /\
    getCartPath w'
    = (Ok (if truthy (token_of (Session.customerToken (session w)))
           then "/carts/mine"
           else "/guest-carts/" +:+ to_string (quoteId c)), w').
Proof.
  intros backend w c w' Hrun. rewrite ensureCart_run in Hrun.
  assert (Hc : Session.cart (session w') = Some c /\
               Session.customerToken (session w')
               = Session.customerToken (session w)).
  { destruct (truthy (quoteId_of (Session.cart (session w)))).
    - destruct (Session.cart (session w)) eqn:Hc; [|done].
      by injection Hrun as <- <-.
    - rewrite createCart_run in Hrun.
      destruct (backend _ _) as [response|]; [|done].
      destruct (get_prop response "data"); [|done].
      by injection Hrun as <- <-. }
  destruct Hc as [Hc Htoken]. split; [done|].
  by rewrite (getCartPath_with_cart w' c Hc), Htoken.
Qed.

Lemma getCartPath_after_ensureCart_witness :
  getCartPath
    {| session := guest_session (VStr "q1"); saves := 0;
       requests := [createCart_request VUndef] |}
  = (Ok "/guest-carts/q1",
     {| session := guest_session (VStr "q1"); saves := 0;
        requests := [createCart_request VUndef] |}).
Proof.
  by destruct (getCartPath_after_ensureCart (backend_constant (VStr "q1"))
                 (world_of new_session) {| quoteId := VStr "q1" |}
                 {| session := guest_session (VStr "q1"); saves := 0;
                    requests := [createCart_request VUndef] |} eq_refl)
    as [_ Hpath].
Defined.

(** ** signOut *)

(** X5.  [signOut] returns [true] and forgets the customer and the cart
    without a request and without saving the session.  In the session it
    leaves, [customer] returns [null] and [cart] the empty cart, neither
    asking the backend, and [getCartPath] throws. *)
Theorem signOut_forgets_customer_and_cart :
  forall backend convertKeys parseFloat JSON_parse w,
    signOut w
    = (Ok (VBool true),
       with_session
         (fun s => Session.set_cart None (Session.set_customerToken None s))
         w) /\
    (signOut ;; customer backend convertKeys) w
    = (Ok VNull, (signOut w).2) /\
    (signOut ;; cart backend convertKeys parseFloat JSON_parse) w
    = (Ok emptyCart, (signOut w).2) /\
    (signOut ;; getCartPath) w
    = (Throw (new_Error "No cart in session for not registered user."),
       (signOut w).2).
Proof. intros. repeat split. Qed.

(** ** signIn *)

Lemma signIn_catch_throws e w : exists e', signIn_catch e w = (Throw e', w).
Proof.
  unfold signIn_catch. rewrite bind_M. unfold lift.
  destruct (get_prop e "statusCode") as [statusCode|]; [|by eexists].
  destruct (strict_eq statusCode (VNum 401)); [|by eexists].
  rewrite bind_M. destruct (set_prop e "userMessage" _) as [e1|]; [|by eexists].
  rewrite bind_M. destruct (set_prop e1 "noLogging" _); by eexists.
Qed.

(** X6.  What [signIn] does to the session.  The token request carries
    the guest quote id, or [null].  When it fails, [signIn] throws and the
    session is as it was.  When it succeeds, the token is stored and the
    cart of the session is dropped before a cart is created for the
    customer: if that request fails, [signIn] throws and the session
    keeps the token and has no cart; if it succeeds, [signIn] returns
    [true] and the session holds the token and the new cart.  The session
    is not saved. *)
Theorem signIn_session_effects :
  forall backend convertKeys Date_now expirationTime_after
         args input email password w,
    get_prop args "input" = Ok input ->
    get_prop input "email" = Ok email ->
    get_prop input "password" = Ok password ->
    let request :=
      {| method := POST; path := "/integration/customer/token";
         payload :=
           VObj [("username", email); ("password", password);
                 ("guest_quote_id",
                  or_default (quoteId_of (Session.cart (session w))) VNull)];
         context := VObj [("skipAuth", VBool true)] |} in
    let result :=
      signIn backend convertKeys Date_now expirationTime_after args w in
    (forall e,
       backend (requests w) request = Throw e ->
       exists e',
         result = (Throw e', {| session := session w; saves := saves w;
                                requests := request :: requests w |})) /\
    (forall response data tok validTime,
       backend (requests w) request = Ok response ->
       get_prop response "data" = Ok data ->
       get_prop (convertKeys data) "token" = Ok tok ->
       get_prop (convertKeys data) "validTime" = Ok validTime ->
       let signedIn :=
         Session.set_cart None
           (Session.set_customerToken
              (Some {| token := tok;
                       expirationTime :=
                         expirationTime_after Date_now validTime |})
              (session w)) in
       let create := createCart_request tok in
       (forall e,
          backend (request :: requests w) create = Throw e ->
          exists e',
            result
            = (Throw e', {| session := signedIn; saves := saves w;
                            requests := create :: request :: requests w |})) /\
       (forall created id,
          backend (request :: requests w) create = Ok created ->
          get_prop created "data" = Ok id ->
          result
          = (Ok (VBool true),
             {| session := Session.set_cart (Some {| quoteId := id |}) signedIn;
                saves := saves w;
                requests := create :: request :: requests w |}))).
Proof.
  intros backend convertKeys Date_now expirationTime_after args input email
    password w Hinput Hemail Hpassword request result.
  assert (Hrun : result
                 = try_catch
                     (response <- rest backend POST
                                    "/integration/customer/token"
                                    (payload request) (context request) ;;
                      data <- lift (get_prop response "data") ;;
                      let converted := convertKeys data in
                      token <- lift (get_prop converted "token") ;;
                      validTime <- lift (get_prop converted "validTime") ;;
                      modifySession
                        (Session.set_customerToken
                           (Some {| token := token;
                                    expirationTime :=
                                      expirationTime_after Date_now
                                        validTime |})) ;;
                      modifySession (Session.set_cart None) ;;
                      ensureCart backend ;;
                      ret (VBool true))
                     signIn_catch w).
  { subst result. unfold signIn. rewrite bind_M. unfold lift at 1.
    rewrite Hinput. rewrite bind_M. cbn [getSession].
    unfold try_catch. rewrite !bind_M. unfold lift at 1. rewrite Hemail.
    rewrite !bind_M. unfold lift at 1. by rewrite Hpassword. }
  rewrite Hrun. clear Hrun. unfold try_catch. rewrite bind_M, rest_run.
  change {| method := POST; path := _; payload := _; context := _ |}
    with request.
  split.
  - intros e ->. apply signIn_catch_throws.
  - intros response data tok validTime -> Hdata Htok Hvalid.
    assert (Hbody :
      forall w1,
        (data <- lift (get_prop response "data") ;;
         let converted := convertKeys data in
         token <- lift (get_prop converted "token") ;;
         validTime <- lift (get_prop converted "validTime") ;;
         modifySession
           (Session.set_customerToken
              (Some {| token := token;
                       expirationTime :=
                         expirationTime_after Date_now validTime |})) ;;
         modifySession (Session.set_cart None) ;;
         ensureCart backend ;;
         ret (VBool true)) w1
        = match createCart backend tok
                  (with_session
                     (fun s =>
                        Session.set_cart None
                          (Session.set_customerToken
                             (Some {| token := tok;
                                      expirationTime :=
                                        expirationTime_after Date_now
                                          validTime |}) s)) w1) with
          | (Ok _, w2) => (Ok (VBool true), w2)
          | (Throw e, w2) => (Throw e, w2)
          end).
    { intros w1. rewrite bind_M. unfold lift at 1. rewrite Hdata.
      rewrite bind_M. unfold lift at 1. rewrite Htok.
      rewrite bind_M. unfold lift at 1. rewrite Hvalid.
      repeat (rewrite bind_M; cbn [modifySession]). by rewrite ensureCart_run. }
    rewrite Hbody, createCart_run. cbn [requests session saves with_session].
    split.
    + intros e ->. apply signIn_catch_throws.
    + by intros created id -> ->.
Qed.

Lemma signIn_session_effects_witness :
  (exists e',
     signIn backend_down camelCase_already VNull (fun _ _ => VNull)
       (VObj [("input", VObj [("email", VStr "a@b.c");
                              ("password", VStr "secret")])])
       (world_of (guest_session (VStr "q1")))
     = (Throw e',
        {| session := guest_session (VStr "q1"); saves := 0;
           requests :=
             [{| method := POST; path := "/integration/customer/token";
                 payload := VObj [("username", VStr "a@b.c");
                                  ("password", VStr "secret");
                                  ("guest_quote_id", VStr "q1")];
                 context := VObj [("skipAuth", VBool true)] |}] |})) /\
  (signIn (backend_constant (VObj [("token", VStr "t0k3n")]))
     camelCase_already VNull (fun _ _ => VNum 3600)
     (VObj [("input", VObj [("email", VStr "a@b.c");
                            ("password", VStr "secret")])])
     (world_of (guest_session (VStr "q1")))).1
  = Ok (VBool true).
Proof.
  destruct (signIn_session_effects backend_down camelCase_already VNull
              (fun _ _ => VNull)
              (VObj [("input", VObj [("email", VStr "a@b.c");
                                     ("password", VStr "secret")])])
              _ (VStr "a@b.c") (VStr "secret")
              (world_of (guest_session (VStr "q1")))
              eq_refl eq_refl eq_refl) as [Hfail _].
  destruct (signIn_session_effects
              (backend_constant (VObj [("token", VStr "t0k3n")]))
              camelCase_already VNull (fun _ _ => VNum 3600)
              (VObj [("input", VObj [("email", VStr "a@b.c");
                                     ("password", VStr "secret")])])
              _ (VStr "a@b.c") (VStr "secret")
              (world_of (guest_session (VStr "q1")))
              eq_refl eq_refl eq_refl) as [_ Hok].
  split.
  - by apply (Hfail (backend_error 503 "Service Unavailable")).
  - destruct (Hok (VObj [("data", VObj [("token", VStr "t0k3n")])])
                (VObj [("token", VStr "t0k3n")]) (VStr "t0k3n") VUndef
                eq_refl eq_refl eq_refl eq_refl) as [_ Hcreated].
    by rewrite (Hcreated (VObj [("data", VObj [("token", VStr "t0k3n")])])
                  (VObj [("token", VStr "t0k3n")]) eq_refl eq_refl).
Defined.

(** ** performCartAction *)

(** The request [performCartAction] sends for the cart [c]. *)
Lemma performCartAction_run backend convertKeys p m data w c :
  Session.cart (session w) = Some c ->
  truthy (quoteId c) = true ->
  performCartAction backend convertKeys p m data w
  = let request :=
      {| method := m;
         path := (if truthy (token_of (Session.customerToken (session w)))
                  then "/carts/mine"
                  else "/guest-carts/" +:+ to_string (quoteId c)) +:+ p;
         payload := match m with GET => VNull | _ => data end;
         context := VUndef |} in
    (response <- backend (requests w) request ;;
     result <- get_prop response "data" ;;
     if isObject (convertKeys result)
     then Ok (with_data response (convertKeys result))
     else set_prop response "data" (VObj [("data", convertKeys result)]),
     {| session := session w; saves := saves w;
        requests := request :: requests w |}).
Proof.
  intros Hc Hq. unfold performCartAction. rewrite bind_M. cbn [getSession].
  rewrite Hc, Hq. cbn [negb].
  rewrite bind_M, (getCartPath_with_cart w c Hc), bind_M, rest_run.
  cbn zeta. destruct (backend _ _) as [response|]; [|done].
  cbn [bind outcome_monad]. rewrite bind_M. unfold lift.
  destruct (get_prop response "data") as [result|]; [|done].
  cbn [bind outcome_monad]. by destruct (isObject (convertKeys result)).
Qed.

(** X7.  Without a truthy quote id in the session [performCartAction]
    throws and sends nothing.  When the backend answers with objects, the
    [data] of the response [performCartAction] returns is an object: data
    that is not one is wrapped as [{ data }]. *)
Theorem performCartAction_data_is_object :
  forall backend convertKeys p m data w,
    let result := performCartAction backend convertKeys p m data w in
    (truthy (quoteId_of (Session.cart (session w))) = false ->
     result.2 = w /\ exists e, result.1 = Throw e) /\
    ((forall served request response,
        backend served request = Ok response -> isObject response = true) ->
     forall response,
       result.1 = Ok response ->
       exists cartData,
         get_prop response "data" = Ok cartData /\ isObject cartData = true).
Proof.
  intros backend convertKeys p m data w result. subst result. split.
  - intros Hq. unfold performCartAction. rewrite bind_M. cbn [getSession].
    destruct (Session.cart (session w)) as [c|]; [|by eauto].
    cbn [quoteId_of] in Hq. rewrite Hq. cbn [negb]. by eauto.
  - intros Hbackend response.
    destruct (Session.cart (session w)) as [c|] eqn:Hc.
    2: { unfold performCartAction. rewrite bind_M. cbn [getSession].
         by rewrite Hc. }
    destruct (truthy (quoteId c)) eqn:Hq.
    2: { unfold performCartAction. rewrite bind_M. cbn [getSession].
         by rewrite Hc, Hq. }
    rewrite (performCartAction_run _ _ _ _ _ _ c Hc Hq). cbn [fst].
    destruct (backend _ _) as [answer|] eqn:Hanswer; [|done].
    apply Hbackend in Hanswer. cbn [bind outcome_monad].
    destruct (get_prop answer "data") as [cartData|]; [|done].
    cbn [bind outcome_monad].
    destruct (isObject (convertKeys cartData)) eqn:Hobj.
    + intros [= <-]. exists (convertKeys cartData).
      split; [by apply get_put_eq|done].
    + rewrite set_prop_object by done. intros [= <-].
      eexists. split; [by apply get_put_eq|done].
Qed.

Lemma performCartAction_data_is_object_witness :
  (performCartAction (backend_constant (VNum 1001)) camelCase_already
     "/deity-order" PUT VNull (world_of new_session)).2
  = world_of new_session /\
  exists cartData,
    get_prop (VObj [("data", VObj [("data", VNum 1001)])]) "data"
    = Ok cartData /\ isObject cartData = true.
Proof.
  destruct (performCartAction_data_is_object (backend_constant (VNum 1001))
              camelCase_already "/deity-order" PUT VNull
              (world_of new_session)) as [Hnone _].
  destruct (performCartAction_data_is_object (backend_constant (VNum 1001))
              camelCase_already "/deity-order" PUT VNull
              (world_of (guest_session (VStr "q1")))) as [_ Hdata].
  split.
  - by destruct (Hnone eq_refl).
  - apply Hdata; [|reflexivity]. by intros served request response [= <-].
Defined.

(** ** placeOrder *)

(** The two steps of [placeOrder] that move [adyen] out of the extension
    attributes: neither throws on an object, and the order id stays. *)
Lemma placeOrder_adyen extensionAttributes w :
  exists adyen,
    (if truthy extensionAttributes
     then lift (get_prop extensionAttributes "adyen")
     else ret extensionAttributes) w = (Ok adyen, w) /\
    (truthy adyen = true -> isObject extensionAttributes = true).
Proof.
  destruct (truthy extensionAttributes) eqn:Htruthy.
  - destruct (get_prop extensionAttributes "adyen") as [adyen|] eqn:Hadyen.
    2: { by destruct extensionAttributes. }
    exists adyen. split; [done|].
    intros Hta. apply (get_prop_defined _ _ _ Hadyen). by intros ->.
  - exists extensionAttributes. split; [done|congruence].
Qed.

Lemma placeOrder_move_adyen orderData extensionAttributes adyen orderId w :
  isObject orderData = true ->
  (truthy adyen = true -> isObject extensionAttributes = true) ->
  get_prop orderData "orderId" = Ok orderId ->
  exists placed,
    (if truthy adyen then
       orderData <- lift (set_prop orderData "adyen" adyen) ;;
       extensionAttributes <- lift (del_prop extensionAttributes "adyen") ;;
       ret (put_prop orderData "extensionAttributes" extensionAttributes)
     else ret orderData) w = (Ok placed, w) /\
    isObject placed = true /\
    get_prop placed "orderId" = Ok orderId.
Proof.
  intros Hobj Hext Hid. destruct (truthy adyen).
  - rewrite bind_M. unfold lift at 1. rewrite set_prop_object by done.
    rewrite bind_M. unfold lift at 1.
    destruct (del_prop extensionAttributes "adyen") as [ext'|] eqn:Hdel.
    2: { specialize (Hext eq_refl). by destruct extensionAttributes. }
    eexists. split; [reflexivity|]. split; [by obj|].
    by rewrite !get_put_ne.
  - by exists orderData.
Qed.

(** X8.  [placeOrder] with a cart in the session sends one request, a
    [PUT] of the input to [/deity-order] under the cart path.  The order
    id it finds in the answer is written to [session.orderId] before it
    is tested: when it is falsy, which is so whenever the data answered
    is not an object, [placeOrder] throws with the old order id
    overwritten and [session.orderQuoteId] left as it was; when it is
    truthy, the quote id of the cart is recorded as well and the order
    data is returned. *)
Theorem placeOrder_records_order :
  forall backend convertKeys args input c w response data,
    get_prop args "input" = Ok input ->
    Session.cart (session w) = Some c ->
    truthy (quoteId c) = true ->
    let request :=
      {| method := PUT;
         path := (if truthy (token_of (Session.customerToken (session w)))
                  then "/carts/mine"
                  else "/guest-carts/" +:+ to_string (quoteId c))
                 +:+ "/deity-order";
         payload := VObj (assign [] input);
         context := VUndef |} in
    backend (requests w) request = Ok response ->
    isObject response = true ->
    get_prop response "data" = Ok data ->
    let result := placeOrder backend convertKeys args w in
    let failed orderId :=
      (Throw (new_Error "no order id from magento."),
       {| session := Session.set_orderId orderId (session w);
          saves := saves w; requests := request :: requests w |}) in
    (isObject (convertKeys data) = false -> result = failed VUndef) /\
    (forall orderId,
       isObject (convertKeys data) = true ->
       get_prop (convertKeys data) "orderId" = Ok orderId ->
       (truthy orderId = false -> result = failed orderId) /\
       (truthy orderId = true ->
        exists placed,
          get_prop placed "orderId" = Ok orderId /\
          result
          = (Ok placed,
             {| session := Session.set_orderQuoteId (quoteId c)
                             (Session.set_orderId orderId (session w));
                saves := saves w; requests := request :: requests w |}))).
Proof.
  intros backend convertKeys args input c w response data Hinput Hc Hq
    request Hresponse Hobj Hdata result failed.
  assert (Hrun :
    forall answer,
      (if isObject (convertKeys data)
       then Ok (with_data response (convertKeys data))
       else set_prop response "data" (VObj [("data", convertKeys data)]))
      = Ok answer ->
      result
      = (orderData <- lift (get_prop answer "data") ;;
         extensionAttributes <-
           lift (get_prop orderData "extensionAttributes") ;;
         adyen <- (if truthy extensionAttributes
                   then lift (get_prop extensionAttributes "adyen")
                   else ret extensionAttributes) ;;
         orderData <-
           (if truthy adyen then
              orderData <- lift (set_prop orderData "adyen" adyen) ;;
              extensionAttributes <-
                lift (del_prop extensionAttributes "adyen") ;;
              ret (put_prop orderData "extensionAttributes"
                     extensionAttributes)
            else ret orderData) ;;
         let response := with_data answer orderData in
         orderId <- lift (get_prop orderData "orderId") ;;
         modifySession (Session.set_orderId orderId) ;;
         s <- getSession ;;
         if negb (truthy (Session.orderId s)) then
           throw (new_Error "no order id from magento.")
         else
           match Session.cart s with
           | None => throw TypeError
           | Some c =>
               modifySession (Session.set_orderQuoteId (quoteId c)) ;;
               lift (get_prop response "data")
           end)
          {| session := session w; saves := saves w;
             requests := request :: requests w |}).
  { intros answer Hanswer. subst result. unfold placeOrder.
    rewrite bind_M. unfold lift at 1. rewrite Hinput.
    rewrite bind_M. unfold try_catch.
    rewrite (performCartAction_run _ _ _ _ _ _ c Hc Hq). cbn zeta.
    fold request. rewrite Hresponse. cbn [bind outcome_monad].
    rewrite Hdata. cbn [bind outcome_monad]. by rewrite Hanswer. }
  split.
  - intros Hprim. rewrite Hprim in Hrun.
    rewrite (Hrun _ (set_prop_object _ _ _ Hobj)).
    rewrite bind_M. unfold lift at 1. rewrite get_put_eq by done.
    reflexivity.
  - intros orderId Hdataobj HorderId. rewrite Hdataobj in Hrun.
    assert (Hres :
      exists placed,
        get_prop placed "orderId" = Ok orderId /\
        result
        = if truthy orderId
          then (Ok placed,
                {| session := Session.set_orderQuoteId (quoteId c)
                                (Session.set_orderId orderId (session w));
                   saves := saves w; requests := request :: requests w |})
          else failed orderId).
    { rewrite (Hrun _ eq_refl). clear Hrun.
      rewrite bind_M. unfold lift at 1. unfold with_data at 1.
      rewrite get_put_eq by done.
      rewrite bind_M. unfold lift at 1.
      destruct (get_prop (convertKeys data) "extensionAttributes")
        as [extensionAttributes|] eqn:Hext.
      2: { by destruct (convertKeys data). }
      destruct (placeOrder_adyen extensionAttributes
                  {| session := session w; saves := saves w;
                     requests := request :: requests w |})
        as (adyen & Hadyen & Hextobj).
      rewrite bind_M, Hadyen.
      destruct (placeOrder_move_adyen (convertKeys data) extensionAttributes
                  adyen orderId
                  {| session := session w; saves := saves w;
                     requests := request :: requests w |}
                  Hdataobj Hextobj HorderId)
        as (placed & Hmove & Hplacedobj & Hid).
      rewrite bind_M, Hmove. cbn zeta.
      rewrite bind_M. unfold lift at 1. rewrite Hid.
      rewrite bind_M. cbn [modifySession]. rewrite bind_M.
      cbn [getSession with_session session Session.orderId
           Session.set_orderId Session.cart].
      exists placed. split; [done|].
      destruct (truthy orderId); cbn [negb]; [|done].
      rewrite Hc, bind_M.
      cbn [modifySession with_session session saves requests].
      unfold lift, with_data. rewrite get_put_eq; [done|by obj]. }
    destruct Hres as (placed & Hid & ->).
    split; intros ->; [done|by exists placed].
Qed.

Lemma placeOrder_records_order_witness :
  (exists placed,
     get_prop placed "orderId" = Ok (VNum 1001) /\
     placeOrder order_backend camelCase_already placeOrder_args
       (world_of (guest_session (VStr "q1")))
     = (Ok placed,
        {| session := Session.set_orderQuoteId (VStr "q1")
                        (Session.set_orderId (VNum 1001)
                           (guest_session (VStr "q1")));
           saves := 0;
           requests :=
             [{| method := PUT; path := "/guest-carts/q1/deity-order";
                 payload :=
                   VObj [("paymentMethod",
                          VObj [("method", VStr "checkmo")])];
                 context := VUndef |}] |})) /\
  placeOrder (backend_constant (VNum 1001)) camelCase_already placeOrder_args
    (world_of (guest_session (VStr "q1")))
  = (Throw (new_Error "no order id from magento."),
     {| session := Session.set_orderId VUndef (guest_session (VStr "q1"));
        saves := 0;
        requests :=
          [{| method := PUT; path := "/guest-carts/q1/deity-order";
              payload :=
                VObj [("paymentMethod", VObj [("method", VStr "checkmo")])];
              context := VUndef |}] |}).
Proof.
  destruct (placeOrder_records_order order_backend camelCase_already
              placeOrder_args _ {| quoteId := VStr "q1" |}
              (world_of (guest_session (VStr "q1"))) _ _
              eq_refl eq_refl eq_refl eq_refl eq_refl eq_refl)
    as [_ Hplaced].
  destruct (placeOrder_records_order (backend_constant (VNum 1001))
              camelCase_already placeOrder_args _ {| quoteId := VStr "q1" |}
              (world_of (guest_session (VStr "q1"))) _ _
              eq_refl eq_refl eq_refl eq_refl eq_refl eq_refl)
    as [Hfailed _].
  split; [|by apply Hfailed].
  destruct (Hplaced (VNum 1001) eq_refl eq_refl) as [_ Hok].
  by apply Hok.
Defined.

(** ** lastOrder *)

(** X9.  [lastOrder] never writes to the session.  With an order id in
    the session it sends one request, for that order with the admin token,
    and does not ask for the paypal hash.  Without one it first asks for
    the order of the paypal hash, when there is a hash; if no order id
    comes of it, it returns [{}] and does not ask for an order. *)
Theorem lastOrder_requests :
  forall backend convertKeys w,
    let orderId := Session.orderId (session w) in
    let hash := Session.paypalExpressHash (session w) in
    let result := lastOrder backend convertKeys w in
    let order_request id :=
      {| method := GET; path := "/orders/" +:+ to_string id;
         payload := VObj [];
         context := VObj [("useAdminToken", VBool true)] |} in
    let hash_request :=
      {| method := GET;
         path := "/orders/get-order-from-paypal-hash/" +:+ to_string hash;
         payload := VUndef; context := VUndef |} in
    session result.2 = session w /\
    saves result.2 = saves w /\
    (truthy orderId = true ->
     requests result.2 = order_request orderId :: requests w) /\
    (truthy orderId = false -> truthy hash = false ->
     result = (Ok (VObj []), w)) /\
    (truthy orderId = false -> truthy hash = true ->
     forall response id,
       backend (requests w) hash_request = Ok response ->
       get_prop response "data" = Ok id ->
       if truthy id
       then requests result.2
            = order_request id :: hash_request :: requests w
       else result
            = (Ok (VObj []),
               {| session := session w; saves := saves w;
                  requests := hash_request :: requests w |})).
Proof.
  intros backend convertKeys w orderId hash result order_request
    hash_request.
  assert (Hfetch :
    forall id w1,
      truthy id = true ->
      let r := (response <- rest backend GET ("/orders/" +:+ to_string id)
                              (VObj [])
                              (VObj [("useAdminToken", VBool true)]) ;;
                data <- lift (get_prop response "data") ;;
                let data := convertKeys data in
                payment <- lift (get_prop data "payment") ;;
                paymentMethod <- lift (get_prop payment "method") ;;
                lift (set_prop data "paymentMethodName" paymentMethod)) w1 in
      r.2 = {| session := session w1; saves := saves w1;
               requests := order_request id :: requests w1 |}).
  { intros id w1 Hid. cbn zeta. rewrite bind_M, rest_run.
    destruct (backend _ _) as [response|]; [|done].
    rewrite bind_M. unfold lift at 1.
    destruct (get_prop response "data") as [data|]; [|done].
    rewrite bind_M. unfold lift at 1.
    destruct (get_prop (convertKeys data) "payment") as [payment|]; [|done].
    rewrite bind_M. unfold lift at 1.
    destruct (get_prop payment "method") as [paymentMethod|]; [|done].
    unfold lift. by destruct (set_prop _ _ _). }
  subst result. remember (lastOrder backend convertKeys w) as r eqn:Hr.
  unfold lastOrder in Hr. rewrite bind_M in Hr. cbn [getSession] in Hr.
  fold orderId hash in Hr.
  destruct (truthy orderId) eqn:HorderId; cbn [negb andb] in Hr.
  - rewrite bind_ret, HorderId in Hr. cbn [negb] in Hr.
    pose proof (Hfetch orderId w HorderId) as Hw. cbn zeta in Hw.
    rewrite <- Hr in Hw. rewrite Hw. by repeat split.
  - destruct (truthy hash) eqn:Hhash.
    + rewrite !bind_M, rest_run in Hr. fold hash_request in Hr.
      destruct (backend (requests w) hash_request) as [response|] eqn:Hresp.
      2: { subst r. by repeat split. }
      unfold lift at 1 in Hr.
      destruct (get_prop response "data") as [id|] eqn:Hdata.
      2: { subst r. repeat split; try done.
           intros _ _ response' id' [= <-]. by rewrite Hdata. }
      destruct (truthy id) eqn:Hid; cbn [negb] in Hr.
      * pose proof (Hfetch id {| session := session w; saves := saves w;
                                 requests := hash_request :: requests w |}
                      Hid) as Hw.
        cbn zeta in Hw. rewrite <- Hr in Hw. rewrite Hw.
        cbn [session saves requests snd].
        repeat split; try done.
        intros _ _ response' id' [= <-]. rewrite Hdata.
        intros [= <-]. by rewrite Hid.
      * subst r. repeat split; try done.
        intros _ _ response' id' [= <-]. rewrite Hdata.
        intros [= <-]. by rewrite Hid.
    + rewrite bind_ret, HorderId in Hr. cbn [negb] in Hr.
      subst r. by repeat split.
Qed.

Lemma lastOrder_requests_witness :
  requests (lastOrder order_backend camelCase_already
              (world_of ordered_session)).2
  = [{| method := GET; path := "/orders/1001"; payload := VObj [];
        context := VObj [("useAdminToken", VBool true)] |}] /\
  lastOrder backend_down camelCase_already (world_of new_session)
  = (Ok (VObj []), world_of new_session).
Proof.
  destruct (lastOrder_requests order_backend camelCase_already
              (world_of ordered_session)) as (_ & _ & Hone & _).
  destruct (lastOrder_requests backend_down camelCase_already
              (world_of new_session)) as (_ & _ & _ & Hnone & _).
  split; [by apply Hone|by apply Hnone].
Defined.

(** ** Customer addresses *)

Lemma has_put_eq v k x : isObject v = true -> has (put_prop v k x) k = true.
Proof.
  destruct v; try done; intros _; cbn [put_prop has];
    by rewrite obj_get_set_eq.
Qed.

Lemma has_put_ne v k k' x : k <> k' -> has (put_prop v k x) k' = has v k'.
Proof.
  intros Hne. destruct v; try done; cbn [put_prop has];
    by rewrite obj_get_set_ne.
Qed.

Lemma has_object v k : has v k = true -> isObject v = true.
Proof. by destruct v. Qed.

(** X10.  [convertAddressData] returns on objects only, and the address
    it returns always has [defaultBilling] and [defaultShipping]: a value
    the backend sent is kept, a missing one is [false].  A region sent
    as an object is replaced by its [region]; every other property is
    that of the converted response. *)
Theorem convertAddressData_defaults :
  forall convertKeys response r,
    convertAddressData convertKeys response = Ok r ->
    let address := convertKeys response in
    isObject address = true /\
    has r "defaultBilling" = true /\
    has r "defaultShipping" = true /\
    get_prop r "defaultBilling"
    = (if has address "defaultBilling"
       then get_prop address "defaultBilling" else Ok (VBool false)) /\
    get_prop r "defaultShipping"
    = (if has address "defaultShipping"
       then get_prop address "defaultShipping" else Ok (VBool false)) /\
    (forall region,
       get_prop address "region" = Ok region ->
       get_prop r "region"
       = if isPlainObject region then get_prop region "region"
         else Ok region) /\
    (forall k,
       k <> "defaultBilling" -> k <> "defaultShipping" -> k <> "region" ->
       get_prop r k = get_prop address k).
Proof.
  intros convertKeys response r Hrun address.
  unfold convertAddressData in Hrun. fold address in Hrun.
  assert (Hfill :
    forall a k,
      exists a',
        (if negb (has a k) then set_prop a k (VBool false) else Ok a)
        = (if isObject a then Ok a' else Throw TypeError) /\
        (isObject a = true ->
         isObject a' = true /\ has a' k = true /\
         get_prop a' k
         = (if has a k then get_prop a k else Ok (VBool false)) /\
         (forall k', k <> k' ->
                     has a' k' = has a k' /\ get_prop a' k' = get_prop a k'))).
  { intros a k. destruct (has a k) eqn:Hhas; cbn [negb].
    - exists a. rewrite (has_object _ _ Hhas). by repeat split.
    - exists (put_prop a k (VBool false)).
      destruct (isObject a) eqn:Hobj.
      + rewrite set_prop_object by done. split; [done|]. intros _.
        split; [by obj|]. split; [by apply has_put_eq|].
        split; [by apply get_put_eq|]. intros k' Hne.
        split; [by apply has_put_ne|by apply get_put_ne].
      + split; [by destruct a|done]. }
  destruct (Hfill address "defaultBilling") as (a1 & Hset1 & Ha1).
  rewrite Hset1 in Hrun.
  destruct (isObject address) eqn:Hobj; [|discriminate Hrun].
  destruct (Ha1 eq_refl) as (Hobj1 & Hb1 & Hgb1 & Hrest1).
  cbn [bind outcome_monad] in Hrun.
  destruct (Hfill a1 "defaultShipping") as (a2 & Hset2 & Ha2).
  rewrite Hset2, Hobj1 in Hrun.
  destruct (Ha2 Hobj1) as (Hobj2 & Hs2 & Hgs2 & Hrest2).
  cbn [bind outcome_monad] in Hrun.
  destruct (Hrest1 "defaultShipping") as [Hhs1 Hgs1]; [done|].
  destruct (Hrest2 "defaultBilling") as [Hhb2 Hgb2]; [done|].
  rewrite Hhs1, Hgs1 in Hgs2. rewrite Hb1 in Hhb2. rewrite Hgb1 in Hgb2.
  assert (Hregion : get_prop a2 "region" = get_prop address "region").
  { destruct (Hrest2 "region") as [_ ->]; [done|].
    by destruct (Hrest1 "region") as [_ ->]. }
  assert (Hother : forall k, k <> "defaultBilling" -> k <> "defaultShipping" ->
                             get_prop a2 k = get_prop address k).
  { intros k Hk1 Hk2. destruct (Hrest2 k) as [_ ->]; [done|].
    by destruct (Hrest1 k) as [_ ->]. }
  destruct (get_prop a2 "region") as [region|] eqn:Hreg;
    [|by destruct a2].
  cbn [bind outcome_monad] in Hrun.
  split; [done|].
  destruct (isPlainObject region) eqn:Hplain.
  - destruct (get_prop region "region") as [inner|] eqn:Hinner;
      [|by destruct region].
    cbn [bind outcome_monad] in Hrun.
    apply set_prop_inv in Hrun as [-> _].
    rewrite !has_put_ne, !get_put_ne by done.
    do 4 (split; [done|]). split.
    + intros region' Hregion'. rewrite <- Hregion in Hregion'.
      injection Hregion' as <-. rewrite Hplain, Hinner.
      by apply get_put_eq.
    + intros k Hk1 Hk2 Hk3. rewrite get_put_ne by done. by apply Hother.
  - injection Hrun as <-. do 4 (split; [done|]). split.
    + intros region' Hregion'. rewrite <- Hregion in Hregion'.
      injection Hregion' as <-. by rewrite Hplain.
    + intros k Hk1 Hk2 _. by apply Hother.
Qed.

Lemma convertAddressData_defaults_witness :
  convertAddressData camelCase_already
    (VObj [("id", VNum 7); ("defaultShipping", VBool true);
           ("region", VObj [("region", VStr "Mazowieckie")])])
  = Ok (VObj [("id", VNum 7); ("defaultShipping", VBool true);
              ("region", VStr "Mazowieckie");
              ("defaultBilling", VBool false)]) /\
  has (VObj [("id", VNum 7); ("defaultShipping", VBool true);
             ("region", VStr "Mazowieckie");
             ("defaultBilling", VBool false)]) "defaultBilling" = true.
Proof.
  split; [reflexivity|].
  by destruct (convertAddressData_defaults camelCase_already
                 (VObj [("id", VNum 7); ("defaultShipping", VBool true);
                        ("region", VObj [("region", VStr "Mazowieckie")])])
                 _ eq_refl) as (_ & Hbilling & _).
Defined.

(** X11.  [forwardAddressAction] refuses to work without a customer
    token, before anything is sent.  With a token it sends one request,
    to the address path or to the path of the address [id]: a [GET] or
    [DELETE] carries no body, a [POST] or [PUT] carries the address with
    its [street] made an array. *)
Theorem forwardAddressAction_request :
  forall backend convertKeys id m data w,
    let result := forwardAddressAction backend convertKeys id m data w in
    let addressPath :=
      if truthy id then "/customers/me/address/" +:+ to_string id
      else "/customers/me/address" in
    (truthy (token_of (Session.customerToken (session w))) = false ->
     result
     = (Throw (new_Error "You do not have an access to edit address data"),
        w)) /\
    (truthy (token_of (Session.customerToken (session w))) = true ->
     (m = GET \/ m = DELETE ->
      result.2
      = {| session := session w; saves := saves w;
           requests := {| method := m; path := addressPath;
                          payload := VNull; context := VUndef |}
                       :: requests w |}) /\
     (m = POST \/ m = PUT ->
      forall street,
        get_prop data "street" = Ok street ->
        exists address,
          get_prop address "street"
          = Ok (if isArray street then street else arr [street]) /\
          result.2
          = {| session := session w; saves := saves w;
               requests := {| method := m; path := addressPath;
                              payload := VObj [("address", address)];
                              context := VUndef |}
                           :: requests w |})).
Proof.
  intros backend convertKeys id m data w result addressPath.
  assert (Hsent :
    forall addressData,
      ((response <- rest backend m addressPath addressData VUndef ;;
        result <- lift (get_prop response "data") ;;
        match m with
        | DELETE => ret result
        | _ => lift (convertAddressData convertKeys result)
        end) w).2
      = {| session := session w; saves := saves w;
           requests := {| method := m; path := addressPath;
                          payload := addressData; context := VUndef |}
                       :: requests w |}).
  { intros addressData. rewrite bind_M, rest_run.
    destruct (backend _ _) as [response|]; [|done].
    rewrite bind_M. unfold lift at 1.
    destruct (get_prop response "data") as [address|]; [|done].
    unfold lift. destruct m; try done;
      by destruct (convertAddressData convertKeys address). }
  subst result. unfold forwardAddressAction. rewrite bind_M.
  cbn [getSession].
  destruct (truthy (token_of (Session.customerToken (session w))));
    cbn [negb]; (split; [done|]); [|done].
  intros _. split.
  - intros [->| ->]; rewrite bind_ret; apply Hsent.
  - intros Hm street Hstreet.
    exists (VObj (obj_set "street"
                    (if isArray street then street else arr [street])
                    (assign [] data))).
    split; [cbn [get_prop]; unfold prop; by rewrite obj_get_set_eq|].
    destruct Hm as [-> | ->]; rewrite bind_M; unfold lift at 1;
      rewrite bind_M, Hstreet; apply Hsent.
Qed.

Lemma forwardAddressAction_request_witness :
  exists address,
    get_prop address "street" = Ok (arr [VStr "Sezamkowa 1"]) /\
    (forwardAddressAction backend_down camelCase_already (VNum 7) PUT
       (VObj [("street", VStr "Sezamkowa 1")]) (world_of customer_session)).2
    = {| session := customer_session; saves := 0;
         requests := [{| method := PUT; path := "/customers/me/address/7";
                         payload := VObj [("address", address)];
                         context := VUndef |}] |}.
Proof.
  destruct (forwardAddressAction_request backend_down camelCase_already
              (VNum 7) PUT (VObj [("street", VStr "Sezamkowa 1")])
              (world_of customer_session)) as [_ Hsigned].
  destruct (Hsigned eq_refl) as [_ Hbody].
  by apply (Hbody (or_intror eq_refl) (VStr "Sezamkowa 1")).
Defined.

(** ** validatePasswordToken *)

(** X12.  [validatePasswordToken] swallows the error of a failed
    request: after the one [GET] it sends, it returns [undefined] instead
    of throwing.  Only an error that is no object makes it throw, when the
    [catch] block tries to mark it. *)
Theorem validatePasswordToken_swallows_errors :
  forall backend params token e w,
    get_prop params "token" = Ok token ->
    let request :=
      {| method := GET;
         path := "/customers/0/password/resetLinkToken/" +:+ to_string token;
         payload := VUndef; context := VUndef |} in
    backend (requests w) request = Throw e ->
    validatePasswordToken backend params w
    = (if isObject e then Ok VUndef else Throw TypeError,
       {| session := session w; saves := saves w;
          requests := request :: requests w |}).
Proof.
  intros backend params token e w Htoken request Hfail.
  unfold validatePasswordToken. rewrite bind_M. unfold lift at 1.
  rewrite Htoken. unfold try_catch. rewrite bind_M, rest_run.
  fold request. rewrite Hfail. rewrite bind_M. unfold lift at 1.
  destruct (isObject e) eqn:Hobj.
  - rewrite set_prop_object by done. rewrite bind_M. unfold lift.
    rewrite set_prop_object; [done|by obj].
  - by destruct e.
Qed.

Lemma validatePasswordToken_swallows_errors_witness :
  validatePasswordToken (backend_failing 404 "No such entity")
    (VObj [("token", VStr "abc")]) (world_of new_session)
  = (Ok VUndef,
     {| session := new_session; saves := 0;
        requests :=
          [{| method := GET;
              path := "/customers/0/password/resetLinkToken/abc";
              payload := VUndef; context := VUndef |}] |}).
Proof.
  exact (validatePasswordToken_swallows_errors
           (backend_failing 404 "No such entity")
           (VObj [("token", VStr "abc")]) (VStr "abc")
           (backend_error 404 "No such entity") (world_of new_session)
           eq_refl eq_refl).
Defined.

(** ** Cart items *)

Lemma mapM_length {A B} (f : A -> outcome B) l : forall l',
  mapM f l = Ok l' -> length l' = length l.
Proof.
  induction l as [|x l IH]; intros l' H; cbn [mapM] in H.
  - by injection H as <-.
  - bound H. bound H. injection H as <-. cbn [length]. f_equal. by apply IH.
Qed.

(** X13.  The request body [addToCart] builds: the [cart_item] has the
    sku and the quantity of the input and the quote id of the cart.  It
    has a [product_option] only when the input has options; bundle
    options replace configurable ones when both are given. *)
Theorem cartItemRequest_product_option :
  forall input c request,
    cartItemRequest input c = Ok request ->
    exists sku qty configurable bundle item,
      get_prop input "sku" = Ok sku /\
      get_prop input "qty" = Ok qty /\
      get_prop input "configurableOptions" = Ok configurable /\
      get_prop input "bundleOptions" = Ok bundle /\
      request = VObj [("cart_item", VObj item)] /\
      obj_get "sku" item = Some sku /\
      obj_get "qty" item = Some qty /\
      obj_get "quote_id" item = Some (quoteId c) /\
      (truthy bundle = true ->
       obj_get "product_option" item
       = Some (VObj [("extension_attributes",
                      VObj [("bundle_options", bundle)])])) /\
      (truthy bundle = false -> truthy configurable = false ->
       obj_get "product_option" item = None) /\
      (truthy bundle = false -> truthy configurable = true ->
       exists options named mapped,
         configurable = VArr options named /\
         length mapped = length options /\
         obj_get "product_option" item
         = Some (VObj [("extension_attributes",
                        VObj [("configurable_item_options", arr mapped)])])).
Proof.
  intros input c request Hrun. unfold cartItemRequest in Hrun.
  bound Hrun. bound Hrun. bound Hrun.
  rename x into sku, x0 into qty, x1 into configurable.
  destruct (truthy configurable) eqn:Hconf.
  - destruct configurable as [| | | | |options named|]; try discriminate Hrun.
    bound Hrun. rename x into cart_item, E2 into Hitem.
    bound Hitem. rename x into mapped. injection Hitem as <-.
    bound Hrun. rename x into bundle.
    injection Hrun as <-.
    exists sku, qty, (VArr options named), bundle. eexists.
    do 4 (split; [done|]). split; [reflexivity|].
    destruct (truthy bundle); cbn; repeat split; try done.
    intros _ _. exists options, named, mapped.
    split; [done|]. split; [by eapply mapM_length|done].
  - cbn [bind outcome_monad] in Hrun. bound Hrun. rename x into bundle.
    injection Hrun as <-.
    exists sku, qty, configurable, bundle. eexists.
    do 4 (split; [done|]). split; [reflexivity|].
    destruct (truthy bundle); cbn; repeat split; try done;
      intros; congruence.
Qed.

Lemma cartItemRequest_product_option_witness :
  exists item,
    cartItemRequest
      (VObj [("sku", VStr "24-WB01"); ("qty", VNum 1);
             ("configurableOptions",
              arr [VObj [("optionId", VNum 93); ("value", VNum 52)]]);
             ("bundleOptions", arr [VObj [("optionId", VNum 1)]])])
      {| quoteId := VStr "q1" |}
    = Ok (VObj [("cart_item", VObj item)]) /\
    obj_get "product_option" item
    = Some (VObj [("extension_attributes",
                   VObj [("bundle_options",
                          arr [VObj [("optionId", VNum 1)]])])]).
Proof.
  destruct (cartItemRequest_product_option
              (VObj [("sku", VStr "24-WB01"); ("qty", VNum 1);
                     ("configurableOptions",
                      arr [VObj [("optionId", VNum 93); ("value", VNum 52)]]);
                     ("bundleOptions", arr [VObj [("optionId", VNum 1)]])])
              {| quoteId := VStr "q1" |} _ eq_refl)
    as (sku & qty & configurable & bundle & item & _ & _ & _ & Hbundle
        & Hrequest & _ & _ & _ & Hoption & _).
  injection Hbundle as <-. injection Hrequest as <-.
  eexists. split; [reflexivity|]. by apply Hoption.
Defined.

(** X14.  [removeCartItem] asks for the cart path before it looks at the
    cart: a guest without a cart gets the error of [getCartPath], where a
    customer without a quote id gets [{}]; neither sends a request.  With
    a quote id one [DELETE] is sent, and the item id is returned exactly
    when the backend answers with truthy data. *)
Theorem removeCartItem_results :
  forall backend args input itemId w,
    get_prop args "input" = Ok input ->
    get_prop input "itemId" = Ok itemId ->
    let token := token_of (Session.customerToken (session w)) in
    let quote := quoteId_of (Session.cart (session w)) in
    let result := removeCartItem backend args w in
    (truthy token = false -> Session.cart (session w) = None ->
     result
     = (Throw (new_Error "No cart in session for not registered user."), w)) /\
    (truthy quote = false ->
     truthy token = true \/ defined (Session.cart (session w)) = true ->
     result = (Ok (VObj []), w)) /\
    (truthy quote = true ->
     let request :=
       {| method := DELETE;
          path := (if truthy token then "/carts/mine"
                   else "/guest-carts/" +:+ to_string quote)
                  +:+ "/items/" +:+ to_string itemId;
          payload := VUndef; context := VUndef |} in
     forall response data,
       backend (requests w) request = Ok response ->
       get_prop response "data" = Ok data ->
       result
       = (Ok (if truthy data then VObj [("itemId", itemId)] else VObj []),
          {| session := session w; saves := saves w;
             requests := request :: requests w |})).
Proof.
  intros backend args input itemId w Hinput HitemId token quote result.
  assert (Hrun :
    result
    = (cartPath <- getCartPath ;;
       if truthy quote then
         result <- rest backend DELETE
                     (cartPath +:+ "/items/" +:+ to_string itemId)
                     VUndef VUndef ;;
         data <- lift (get_prop result "data") ;;
         if truthy data then ret (VObj [("itemId", itemId)])
         else ret (VObj [])
       else ret (VObj [])) w).
  { subst result. unfold removeCartItem. rewrite bind_M. unfold lift at 1.
    rewrite Hinput. rewrite bind_M. cbn [getSession]. rewrite bind_M.
    unfold lift at 1. by rewrite HitemId. }
  rewrite Hrun. clear Hrun. subst token quote. split; [|split].
  - intros Htoken Hcart. rewrite bind_M. unfold getCartPath.
    rewrite bind_M. cbn [getSession]. by rewrite Htoken, Hcart.
  - intros Hquote Hsome. rewrite bind_M. unfold getCartPath.
    rewrite bind_M. cbn [getSession]. rewrite Hquote.
    destruct (truthy (token_of _)); cbn [negb andb]; [done|].
    destruct Hsome as [|Hsome]; [done|]. by rewrite Hsome.
  - intros Hquote request response data Hresponse Hdata.
    destruct (Session.cart (session w)) as [c|] eqn:Hc; [|done].
    rewrite bind_M, (getCartPath_with_cart w c Hc), Hquote.
    rewrite bind_M, rest_run. cbn [quoteId_of] in request.
    fold request. rewrite Hresponse. rewrite bind_M. unfold lift at 1.
    rewrite Hdata. by destruct (truthy data).
Qed.

Lemma removeCartItem_results_witness :
  removeCartItem backend_down (VObj [("input", VObj [("itemId", VNum 5)])])
    (world_of new_session)
  = (Throw (new_Error "No cart in session for not registered user."),
     world_of new_session) /\
  removeCartItem backend_down (VObj [("input", VObj [("itemId", VNum 5)])])
    (world_of customer_session)
  = (Ok (VObj []), world_of customer_session) /\
  removeCartItem (backend_constant (VBool true))
    (VObj [("input", VObj [("itemId", VNum 5)])])
    (world_of (guest_session (VStr "q1")))
  = (Ok (VObj [("itemId", VNum 5)]),
     {| session := guest_session (VStr "q1"); saves := 0;
        requests := [{| method := DELETE; path := "/guest-carts/q1/items/5";
                        payload := VUndef; context := VUndef |}] |}).
Proof.
  destruct (removeCartItem_results backend_down
              (VObj [("input", VObj [("itemId", VNum 5)])]) _ (VNum 5)
              (world_of new_session) eq_refl eq_refl) as (Hguest & _ & _).
  destruct (removeCartItem_results backend_down
              (VObj [("input", VObj [("itemId", VNum 5)])]) _ (VNum 5)
              (world_of customer_session) eq_refl eq_refl)
    as (_ & Hcustomer & _).
  destruct (removeCartItem_results (backend_constant (VBool true))
              (VObj [("input", VObj [("itemId", VNum 5)])]) _ (VNum 5)
              (world_of (guest_session (VStr "q1"))) eq_refl eq_refl)
    as (_ & _ & Hremoved).
  split; [by apply Hguest|]. split.
  - apply Hcustomer; [reflexivity|]. by left.
  - by apply (Hremoved eq_refl (VObj [("data", VBool true)]) (VBool true)).
Defined.

(** X15.  The item [addToCart] and [updateCartItem] return: when the
    backend answers the request with an object, its [price] is
    [parseFloat] of the price answered and every other property is as
    answered, with converted keys. *)
Theorem addToCart_returns_priced_item :
  forall backend convertKeys parseFloat args w request w1 response cartItem,
    addToCart_request backend args w = (Ok request, w1) ->
    backend (requests w1) request = Ok response ->
    get_prop response "data" = Ok cartItem ->
    isObject (convertKeys cartItem) = true ->
    exists item price,
      addToCart backend convertKeys parseFloat args w
      = (Ok item, {| session := session w1; saves := saves w1;
                     requests := request :: requests w1 |}) /\
      get_prop (convertKeys cartItem) "price" = Ok price /\
      get_prop item "price" = Ok (parseFloat price) /\
      forall k, k <> "price" ->
                get_prop item k = get_prop (convertKeys cartItem) k.
Proof.
  intros backend convertKeys parseFloat args w request w1 response cartItem
    Hreq Hresponse Hdata Hobj.
  pose proof (addToCart_request_context _ _ _ _ _ Hreq) as [Hpost Hctx].
  rewrite addToCart_unfold, Hreq. unfold try_catch.
  rewrite bind_M, rest_run.
  assert (Hsame : {| method := POST; path := path request;
                     payload := payload request; context := VUndef |}
                  = request).
  { destruct request; cbn in *. by subst. }
  rewrite Hsame, Hresponse. rewrite bind_M. unfold lift at 1. rewrite Hdata.
  destruct (processPrice_fold parseFloat ["price"] (convertKeys cartItem)
              Hobj) as (item & Hitem & _ & Hout & Hin).
  destruct (Hin (NoDup_singleton _) "price") as (price & Hprice & Hparsed);
    [by apply list_elem_of_singleton|].
  exists item, price. rewrite bind_M. unfold lift at 1.
  unfold processPrice.
  replace (or_default (convertKeys cartItem) (VObj []))
    with (convertKeys cartItem) by (by destruct (convertKeys cartItem)).
  rewrite Hitem. split; [|split; [done|split; [done|]]].
  - by destruct (convertKeys cartItem).
  - intros k Hk. apply Hout. by intros ->%list_elem_of_singleton.
Qed.

Lemma addToCart_returns_priced_item_witness :
  exists item price,
    addToCart (backend_constant (VObj [("sku", VStr "24-WB01");
                                       ("price", VNum 34)]))
      camelCase_already no_float addToCart_args
      (world_of (guest_session (VStr "q1")))
    = (Ok item, {| session := guest_session (VStr "q1"); saves := 0;
                   requests := [addToCart_post "q1"] |}) /\
    get_prop (VObj [("sku", VStr "24-WB01"); ("price", VNum 34)]) "price"
    = Ok price /\
    get_prop item "price" = Ok (no_float price) /\
    forall k, k <> "price" ->
              get_prop item k
              = get_prop (VObj [("sku", VStr "24-WB01"); ("price", VNum 34)])
                  k.
Proof.
  exact (addToCart_returns_priced_item
           (backend_constant (VObj [("sku", VStr "24-WB01");
                                    ("price", VNum 34)]))
           camelCase_already no_float addToCart_args
           (world_of (guest_session (VStr "q1")))
           (addToCart_post "q1") (world_of (guest_session (VStr "q1")))
           _ _ eq_refl eq_refl eq_refl eq_refl).
Defined.

(** ** URLs of the catalogue *)

Lemma string_length_app a b :
  String.length (a +:+ b) = (String.length a + String.length b)%nat.
Proof. induction a as [|c a IH]; simpl; [done|by rewrite IH]. Qed.

Lemma substring_0_all s : String.substring 0 (String.length s) s = s.
Proof. induction s as [|c s IH]; simpl; [done|by rewrite IH]. Qed.

Lemma substring_app_r a b :
  String.substring (String.length a) (String.length b) (a +:+ b) = b.
Proof. induction a as [|c a IH]; simpl; [apply substring_0_all|done]. Qed.

Lemma endsWith_app a b : endsWith (a +:+ b) b = true.
Proof.
  unfold endsWith. cbn zeta. rewrite string_length_app.
  replace (String.length a + String.length b - String.length b)%nat
    with (String.length a) by lia.
  rewrite substring_app_r, String.eqb_refl, andb_true_r.
  apply Nat.leb_le. lia.
Qed.

Lemma string_app_assoc a b c : (a +:+ b) +:+ c = a +:+ (b +:+ c).
Proof.
  induction a as [|x a IH]; [done|].
  change (String x ((a +:+ b) +:+ c) = String x (a +:+ (b +:+ c))).
  by f_equal.
Qed.

(** X16.  Every URL [convertPathToUrl] makes of a truthy path is one
    [getFetchUrlPriority] gives the high priority; a path that is falsy is
    handed back as it is, and gets the normal priority if it is the empty
    string and a [TypeError] if it is no string. *)
Theorem getFetchUrlPriority_of_converted_path :
  forall HIGH NORMAL path,
    (truthy path = true ->
     getFetchUrlPriority HIGH NORMAL (convertPathToUrl path) = Ok HIGH) /\
    (truthy path = false ->
     getFetchUrlPriority HIGH NORMAL (convertPathToUrl path)
     = match path with VStr _ => Ok NORMAL | _ => Throw TypeError end).
Proof.
  intros HIGH NORMAL path. unfold convertPathToUrl.
  split; intros Hpath; rewrite Hpath.
  - cbn [getFetchUrlPriority].
    by rewrite <- string_app_assoc, endsWith_app.
  - destruct path as [| | | |s| |]; try done. by destruct s.
Qed.

Lemma getFetchUrlPriority_of_converted_path_witness :
  getFetchUrlPriority (VNum 1) (VNum 0) (VStr "/men/shoes.html")
  = Ok (VNum 1) /\
  getFetchUrlPriority (VNum 1) (VNum 0) (VStr "") = Ok (VNum 0).
Proof.
  destruct (getFetchUrlPriority_of_converted_path (VNum 1) (VNum 0)
              (VStr "men/shoes")) as [Hhigh _].
  destruct (getFetchUrlPriority_of_converted_path (VNum 1) (VNum 0)
              (VStr "")) as [_ Hnormal].
  split; [by apply Hhigh|by apply Hnormal].
Defined.

(** ** Search filters *)

Lemma someM_app p l x b :
  someM p l = Ok b ->
  someM p (l ++ [x])
  = if b then Ok true else (found <- p x ;; Ok (found : bool)).
Proof.
  revert b. induction l as [|y l IH]; intros b H; cbn [someM app] in *.
  - injection H as <-. destruct (p x) as [[]|]; done.
  - destruct (p y) as [[]|]; cbn [bind outcome_monad] in *;
      [by injection H as <-|by apply IH|done].
Qed.

Lemma group_has_filter_group name field val conditionType :
  group_has_filter name (filter_group field val conditionType)
  = Ok (strict_eq field name).
Proof.
  unfold group_has_filter, filter_group. cbn.
  by destruct (strict_eq field name).
Qed.

Lemma obj_set_twice {A} k (x y : A) o :
  obj_set k x (obj_set k y o) = obj_set k x o.
Proof.
  induction o as [|[k' v] o IH]; cbn [obj_set].
  - by rewrite String.eqb_refl.
  - destruct (String.eqb k k') eqn:Hk; cbn [obj_set]; rewrite Hk; [done|].
    by rewrite IH.
Qed.

Lemma put_prop_twice v k x y : put_prop (put_prop v k y) k x = put_prop v k x.
Proof. destruct v; try done; cbn [put_prop]; by rewrite obj_set_twice. Qed.

(** What [addSearchFilter] returns on an object. *)
Lemma addSearchFilter_object params field val conditionType :
  isObject params = true ->
  addSearchFilter params field val conditionType
  = (filters <- get_prop params "filters" ;;
     match (if isEmpty filters then arr [] else filters) with
     | VArr groups named =>
         Ok (put_prop params "filters"
               (VArr (groups
                      ++ [filter_group field val
                            (or_default conditionType (VStr "eq"))])
                  named))
     | _ => Throw TypeError
     end).
Proof.
  intros Hobj. unfold addSearchFilter.
  replace (or_default params (VObj [])) with params by (by destruct params).
  destruct (get_prop params "filters") as [filters|]; [|done].
  cbn [bind outcome_monad]. rewrite set_prop_object by done.
  cbn [bind outcome_monad].
  destruct (if isEmpty filters then arr [] else filters) eqn:Hf; try done.
  rewrite set_prop_object by (by obj).
  by rewrite put_prop_twice.
Qed.

Lemma someM_app_inv p l x b :
  someM p (l ++ [x]) = Ok b ->
  exists found,
    someM p l = Ok found /\ if found then b = true else p x = Ok b.
Proof.
  revert b. induction l as [|y l IH]; intros b H; cbn [someM app] in *.
  - exists false. split; [done|]. by destruct (p x) as [[]|].
  - destruct (p y) as [[]|]; cbn [bind outcome_monad] in *; [|by apply IH|done].
    injection H as <-. by exists true.
Qed.

Lemma isEmpty_snoc l x named : isEmpty (VArr (l ++ [x]) named) = false.
Proof. by destruct l. Qed.

(** A successful [addSearchFilter] worked on an object and appended its
    group to the filters, which are a fresh array when there were none. *)
Lemma addSearchFilter_inv params field val conditionType params' :
  addSearchFilter params field val conditionType = Ok params' ->
  let given := or_default params (VObj []) in
  isObject given = true /\
  exists filters groups named,
    get_prop given "filters" = Ok filters /\
    (if isEmpty filters then arr [] else filters) = VArr groups named /\
    params'
    = put_prop given "filters"
        (VArr (groups
               ++ [filter_group field val
                     (or_default conditionType (VStr "eq"))])
           named).
Proof.
  intros Hrun given.
  assert (Hsame : addSearchFilter params field val conditionType
                  = addSearchFilter given field val conditionType)
    by (by destruct params).
  rewrite Hsame in Hrun. clear Hsame.
  assert (Hobj : isObject given = true).
  { destruct given eqn:Hg; try done; by destruct params. }
  split; [done|]. rewrite addSearchFilter_object in Hrun by done.
  bound Hrun. rename x into filters. exists filters.
  destruct (if isEmpty filters then arr [] else filters)
    as [| | | | |groups named|] eqn:Hf; try done.
  injection Hrun as <-. by exists groups, named.
Qed.

Lemma isFilterSet_put params name groups named :
  isObject params = true ->
  isFilterSet name (put_prop params "filters" (VArr groups named))
  = someM (group_has_filter name) groups.
Proof.
  intros Hobj. unfold isFilterSet.
  replace (js_or _ _) with (put_prop params "filters" (VArr groups named))
    by (by destruct params).
  by rewrite get_put_eq.
Qed.

(** X17.  After [addSearchFilter] the filters of the params end with the
    group added, behind the groups they had; filters that were empty are
    replaced by a new array.  No other property of the params changes,
    and [isFilterSet] finds the field added and whatever it found
    before. *)
Theorem addSearchFilter_adds_last_group :
  forall params field val conditionType params',
    addSearchFilter params field val conditionType = Ok params' ->
    let given := or_default params (VObj []) in
    let added :=
      filter_group field val (or_default conditionType (VStr "eq")) in
    exists filters,
      get_prop given "filters" = Ok filters /\
      get_prop params' "filters"
      = Ok (match filters with
            | VArr (g :: groups) named => VArr ((g :: groups) ++ [added]) named
            | _ => arr [added]
            end) /\
      (forall k, k <> "filters" -> get_prop params' k = get_prop given k) /\
      (forall name found,
         isFilterSet name params = Ok found ->
         isFilterSet name params' = Ok (found || strict_eq field name)).
Proof.
  intros params field val conditionType params' Hrun given added.
  destruct (addSearchFilter_inv _ _ _ _ _ Hrun)
    as (Hobj & filters & groups & named & Hfilters & Hgroups & ->).
  fold given added in Hobj, Hfilters |- *.
  exists filters. split; [done|]. split; [|split].
  - rewrite get_put_eq by done. f_equal.
    destruct filters as [| | | |[|c s]|[|g l] named'|[|kv o]]; try done;
      by injection Hgroups as <- <-.
  - intros k Hk. by rewrite get_put_ne.
  - intros name found Hfound. rewrite isFilterSet_put by done.
    unfold isFilterSet in Hfound.
    assert (Hgiven : js_or (or_default params (VObj [])) (VObj []) = given)
      by (fold given; by destruct given).
    rewrite Hgiven, Hfilters in Hfound. cbn [bind outcome_monad] in Hfound.
    assert (Hold : someM (group_has_filter name) groups = Ok found).
    { destruct filters as [| | | |[|c s]|[|g l] named'|[|kv o]]; try done;
        by injection Hgroups as <- <-. }
    rewrite (someM_app _ _ _ _ Hold). unfold added.
    rewrite group_has_filter_group. by destruct found.
Qed.

Lemma addSearchFilter_adds_last_group_witness :
  isFilterSet (VStr "sku")
    (VObj [("filters",
            arr [filter_group (VStr "status") (VStr "1") (VStr "eq");
                 filter_group (VStr "sku") (VStr "24-WB01,24-WB02")
                   (VStr "in")])])
  = Ok true.
Proof.
  destruct (addSearchFilter_adds_last_group
              (VObj [("filters",
                      arr [filter_group (VStr "status") (VStr "1")
                             (VStr "eq")])])
              (VStr "sku") (VStr "24-WB01,24-WB02") (VStr "in") _ eq_refl)
    as (filters & _ & _ & _ & Hset).
  exact (Hset (VStr "sku") false eq_refl).
Defined.

(** X18.  The filters [fetchProductList] fetches with: the filters given
    (the groups of a non-empty array), then one on [visibility] in 2,4,
    then one on [status] = 1 unless a group already filters on [status],
    then one on [type_id].  Nothing else of the params changes. *)
Theorem productListFilters_added :
  forall params params',
    productListFilters params = Ok params' ->
    let given := or_default params (VObj []) in
    exists filters groups named statusSet,
      get_prop given "filters" = Ok filters /\
      (if isEmpty filters then arr [] else filters) = VArr groups named /\
      someM (group_has_filter (VStr "status")) groups = Ok statusSet /\
      get_prop params' "filters"
      = Ok (VArr (groups
                  ++ [filter_group (VStr "visibility") (VStr "2,4")
                        (VStr "in")]
                  ++ (if statusSet then []
                      else [filter_group (VStr "status") (VStr "1")
                              (VStr "eq")])
                  ++ [filter_group (VStr "type_id")
                        (VStr "simple,configurable,bundle") (VStr "in")])
              named) /\
      (forall k, k <> "filters" -> get_prop params' k = get_prop given k).
Proof.
  intros params params' Hrun given. unfold productListFilters in Hrun.
  fold given in Hrun. bound Hrun. rename x into params1, E into Hvis.
  bound Hrun. rename x into statusSet, E into Hstatus.
  bound Hrun. rename x into params2, E into Hdefault.
  destruct (addSearchFilter_inv _ _ _ _ _ Hvis)
    as (Hobj & filters & groups & named & Hfilters & Hgroups & ->).
  assert (Hg : or_default given (VObj []) = given)
    by (subst given; by destruct params).
  rewrite Hg in *. clear Hg.
  rewrite isFilterSet_put in Hstatus by done.
  destruct (someM_app_inv _ _ _ _ Hstatus) as (found & Hfound & Hlast).
  rewrite group_has_filter_group in Hlast. cbn [strict_eq] in Hlast.
  assert (statusSet = found) as ->.
  { destruct found; [done|]. by injection Hlast as <-. }
  clear Hlast Hstatus.
  exists filters, groups, named, found. do 3 (split; [done|]).
  assert (Hnext :
    forall groups0 g field val conditionType r,
      addSearchFilter
        (put_prop given "filters" (VArr (groups0 ++ [g]) named))
        field val conditionType = Ok r ->
      r = put_prop given "filters"
            (VArr ((groups0 ++ [g])
                   ++ [filter_group field val
                         (or_default conditionType (VStr "eq"))]) named)).
  { intros groups0 g field val conditionType r Hr.
    rewrite addSearchFilter_object in Hr by (by obj).
    rewrite get_put_eq in Hr by done. cbn [bind outcome_monad] in Hr.
    rewrite isEmpty_snoc in Hr. injection Hr as <-.
    by rewrite put_prop_twice. }
  destruct found; cbn [negb] in Hdefault.
  - injection Hdefault as <-. apply Hnext in Hrun as ->.
    split; [by rewrite get_put_eq, <- app_assoc|].
    intros k Hk. by rewrite get_put_ne.
  - apply Hnext in Hdefault as ->. apply Hnext in Hrun as ->.
    split; [by rewrite get_put_eq, <- !app_assoc|].
    intros k Hk. by rewrite get_put_ne.
Qed.

Lemma productListFilters_added_witness :
  exists filters groups named statusSet,
    get_prop (VObj [("categoryId", VNum 4)]) "filters" = Ok filters /\
    (if isEmpty filters then arr [] else filters) = VArr groups named /\
    someM (group_has_filter (VStr "status")) groups = Ok statusSet /\
    get_prop
      (VObj [("categoryId", VNum 4);
             ("filters",
              arr [filter_group (VStr "visibility") (VStr "2,4") (VStr "in");
                   filter_group (VStr "status") (VStr "1") (VStr "eq");
                   filter_group (VStr "type_id")
                     (VStr "simple,configurable,bundle") (VStr "in")])])
      "filters"
    = Ok (VArr (groups
                ++ [filter_group (VStr "visibility") (VStr "2,4")
                      (VStr "in")]
                ++ (if statusSet then []
                    else [filter_group (VStr "status") (VStr "1")
                            (VStr "eq")])
                ++ [filter_group (VStr "type_id")
                      (VStr "simple,configurable,bundle") (VStr "in")])
            named).
Proof.
  destruct (productListFilters_added (VObj [("categoryId", VNum 4)]) _
              eq_refl)
    as (filters & groups & named & statusSet & H1 & H2 & H3 & H4 & _).
  by exists filters, groups, named, statusSet.
Defined.

(** ** fetchList *)

(** X19.  [fetchList] never touches the session.  It either throws
    before anything is sent or sends one [GET] to the path, with the
    admin token, whose search criteria hold the filters of the params as
    [filterGroups] (none by default), the page as [currentPage] (1 by
    default) and a [pageSize] exactly when [perPage] is truthy.  A
    [null] for [query] or [sortOrders] is not defaulted: it makes
    [fetchList] throw a [TypeError] before the request. *)
Theorem fetchList_request :
  forall backend Number convertList p params w,
    let result := fetchList backend Number convertList p params w in
    session result.2 = session w /\
    saves result.2 = saves w /\
    ((exists e, result = (Throw e, w)) \/
     exists payload searchCriteria query,
       requests result.2
       = {| method := GET; path := p; payload := payload;
            context := VObj [("useAdminToken", VBool true)] |}
         :: requests w /\
       get_prop payload "searchCriteria" = Ok (VObj searchCriteria) /\
       get_prop params "query" = Ok query /\
       (forall filters,
          get_prop params "filters" = Ok filters ->
          obj_get "filterGroups" searchCriteria
          = Some (or_default filters (arr []))) /\
       (forall page,
          get_prop (or_default query (VObj [])) "page" = Ok page ->
          obj_get "currentPage" searchCriteria
          = Some (Number (or_default page (VNum 1)))) /\
       (forall perPage,
          get_prop (or_default query (VObj [])) "perPage" = Ok perPage ->
          obj_get "pageSize" searchCriteria
          = if truthy perPage then Some perPage else None)) /\
    (isObject params = true ->
     get_prop params "query" = Ok VNull \/
     get_prop params "sortOrders" = Ok VNull ->
     result = (Throw TypeError, w)).
Proof.
  intros backend Number convertList p params w result.
  assert (Hsent :
    forall payload,
      let sent :=
        (response <- rest backend GET p payload
                       (VObj [("useAdminToken", VBool true)]) ;;
         s <- getSession ;;
         lift (convertList response (Session.currency s))) w in
      session sent.2 = session w /\ saves sent.2 = saves w /\
      requests sent.2
      = {| method := GET; path := p; payload := payload;
           context := VObj [("useAdminToken", VBool true)] |}
        :: requests w).
  { intros payload. cbn zeta. rewrite bind_M, rest_run.
    destruct (backend _ _) as [response|]; [|done].
    rewrite bind_M. cbn [getSession]. unfold lift.
    by destruct (convertList _ _). }
  subst result. remember (fetchList _ _ _ _ _ _) as r eqn:Hr.
  unfold fetchList in Hr.
  rewrite bind_M in Hr. unfold lift at 1 in Hr.
  destruct (get_prop params "query") as [query|] eqn:Hquery.
  2: { subst r. split; [done|]. split; [done|]. split; [by eauto|].
       intros Hobj _. by destruct params. }
  rewrite bind_M in Hr. unfold lift at 1 in Hr.
  destruct (get_prop (or_default query (VObj [])) "page") as [page|] eqn:Hpage.
  2: { subst r. split; [done|]. split; [done|]. split; [by eauto|].
       intros _ _. destruct query; cbn in Hpage; try discriminate;
         by injection Hpage as <-. }
  rewrite bind_M in Hr. unfold lift at 1 in Hr.
  destruct (get_prop (or_default query (VObj [])) "perPage")
    as [perPage|] eqn:HperPage.
  2: { by destruct query. }
  assert (Hquery_defined : query <> VNull) by (by intros ->).
  rewrite bind_M in Hr. unfold lift at 1 in Hr.
  destruct (get_prop params "filters") as [filters|] eqn:Hfilters.
  2: { by destruct params. }
  rewrite bind_M in Hr. unfold lift at 1 in Hr.
  destruct (get_prop params "includeSubcategories") as [sub|] eqn:Hsub.
  2: { by destruct params. }
  rewrite bind_M in Hr. unfold lift at 1 in Hr.
  destruct (get_prop params "withAttributeFilters") as [attrs|] eqn:Hattrs.
  2: { by destruct params. }
  rewrite bind_M in Hr. unfold lift at 1 in Hr.
  destruct (get_prop params "sortOrders") as [sortOrders|] eqn:Hsort.
  2: { by destruct params. }
  rewrite bind_M in Hr. unfold lift at 1 in Hr.
  destruct (get_prop (or_default sortOrders (VObj [])) "length")
    as [len|] eqn:Hlen.
  2: { subst r. split; [done|]. split; [done|]. split; [by eauto|].
       intros _ _. destruct sortOrders; cbn in Hlen; try discriminate;
         by injection Hlen as <-. }
  match type of Hr with
  | r = bind (rest _ _ _ ?payload _) _ _ =>
      destruct (Hsent payload) as (Hsession & Hsaves & Hrequests)
  end.
  rewrite <- Hr in Hsession, Hsaves, Hrequests.
  split; [done|]. split; [done|]. split.
  - right. eexists. eexists. exists query.
    split; [exact Hrequests|]. split; [reflexivity|]. split; [done|].
    split; [|split].
    + intros filters' Hf. rewrite ?Hfilters in Hf. injection Hf as <-.
      by destruct (truthy perPage).
    + intros page' Hp. rewrite ?Hpage in Hp. injection Hp as <-.
      by destruct (truthy perPage).
    + intros perPage' Hp. rewrite ?HperPage in Hp. injection Hp as <-.
      by destruct (truthy perPage).
  - intros _ [[= ->]|[= ->]]; [done|discriminate Hlen].
Qed.

Lemma fetchList_request_witness :
  fetchList backend_down no_float (fun response _ => Ok response) "/products"
    (VObj [("sortOrders", VNull)]) (world_of new_session)
  = (Throw TypeError, world_of new_session).
Proof.
  destruct (fetchList_request backend_down no_float
              (fun response _ => Ok response) "/products"
              (VObj [("sortOrders", VNull)]) (world_of new_session))
    as (_ & _ & _ & Hnull).
  apply Hnull; [reflexivity|]. by right.
Defined.

(** ** reduceUrl *)

Lemma strict_eq_null v : strict_eq v VNull = true <-> v = VNull.
Proof. by destruct v. Qed.

(** X20.  [reduceUrl] names the type of what it returns [shop-] and the
    entity type, without a leading [cms-].  For an entity whose data is
    [null] it returns the id and that type, whatever the entity type is;
    otherwise an entity type other than [cms-page], [product] and
    [category] makes it throw, and data that is undefined makes the
    reducer of a known type throw a [TypeError].  A cms page is reduced
    to its id, its content with links replaced, and its title. *)
Theorem reduceUrl_types :
  forall convertKeys stripHtml qs_stringify JSON_parse replaceLinks
         data currency type entityData,
    get_prop data "entity_type" = Ok (VStr type) ->
    get_prop data (replace_first "-" "_" type) = Ok entityData ->
    let reduced :=
      reduceUrl convertKeys stripHtml qs_stringify JSON_parse replaceLinks
        data currency in
    let unifiedType := VStr ("shop-" +:+ replace_first "cms-" "" type) in
    (forall r, reduced = Ok r -> get_prop r "type" = Ok unifiedType) /\
    (entityData = VNull ->
     forall id,
       get_prop data "entity_id" = Ok id ->
       reduced = Ok (VObj [("id", id); ("type", unifiedType)])) /\
    (entityData <> VNull ->
     type <> "cms-page" -> type <> "product" -> type <> "category" ->
     reduced
     = Throw (new_Error ("Unknown url entity type: " +:+ type
                         +:+ " in magento api."))) /\
    (entityData = VUndef ->
     type = "cms-page" \/ type = "product" \/ type = "category" ->
     reduced = Throw TypeError) /\
    (type = "cms-page" ->
     forall id title content content',
       get_prop entityData "id" = Ok id ->
       get_prop entityData "title" = Ok title ->
       get_prop entityData "content" = Ok content ->
       replaceLinks content = Ok content' ->
       reduced
       = Ok (VObj [("id", id); ("content", content'); ("title", title);
                   ("type", VStr "shop-page")])).
Proof.
  intros convertKeys stripHtml qs_stringify JSON_parse replaceLinks
    data currency type entityData Htype Hentity reduced unifiedType.
  assert (Hrun :
    reduced
    = if strict_eq entityData VNull then
        id <- get_prop data "entity_id" ;;
        Ok (VObj [("id", id); ("type", unifiedType)])
      else
        reduced <-
          (if String.eqb type "cms-page"
           then reduceCmsPage replaceLinks (VObj [("data", entityData)])
           else if String.eqb type "product"
           then reduceProduct convertKeys stripHtml qs_stringify JSON_parse
                  (VObj [("data", entityData)]) (or_default currency VNull)
           else if String.eqb type "category"
           then reduceCategory stripHtml qs_stringify JSON_parse
                  (VObj [("data", entityData)])
           else Throw (new_Error ("Unknown url entity type: " +:+ type
                                  +:+ " in magento api."))) ;;
        reducedData <- get_prop reduced "data" ;;
        set_prop reducedData "type" unifiedType).
  { subst reduced. unfold reduceUrl. rewrite Htype.
    cbn [bind outcome_monad]. by rewrite Hentity. }
  rewrite Hrun. clear Hrun. split; [|split; [|split; [|split]]].
  - intros r Hr. destruct (strict_eq entityData VNull).
    + bound Hr. by injection Hr as <-.
    + bound Hr. bound Hr. apply set_prop_inv in Hr as [-> Hobj].
      by apply get_put_eq.
  - intros -> id Hid. cbn [strict_eq]. by rewrite Hid.
  - intros Hnull Hcms Hproduct Hcategory.
    destruct (strict_eq entityData VNull) eqn:Hstrict;
      [by apply strict_eq_null in Hstrict|].
    destruct (String.eqb_spec type "cms-page"); [done|].
    destruct (String.eqb_spec type "product"); [done|].
    by destruct (String.eqb_spec type "category").
  - intros -> [->|[->| ->]]; reflexivity.
  - intros -> id title content content' Hid Htitle Hcontent Hlinks.
    destruct (strict_eq entityData VNull) eqn:Hstrict.
    { apply strict_eq_null in Hstrict. by subst. }
    cbn [String.eqb Ascii.eqb Bool.eqb]. unfold reduceCmsPage.
    change (get_prop (VObj [("data", entityData)]) "data")
      with (Ok entityData).
    cbn [bind outcome_monad]. rewrite Htitle, Hid, Hcontent.
    cbn [bind outcome_monad]. by rewrite Hlinks.
Qed.

Lemma reduceUrl_types_witness :
  reduceUrl camelCase_already no_markup unused_query never_parsed no_markup
    (VObj [("entity_type", VStr "cms-page"); ("entity_id", VNum 2);
           ("cms_page", VNull)]) VUndef
  = Ok (VObj [("id", VNum 2); ("type", VStr "shop-page")]) /\
  reduceUrl camelCase_already no_markup unused_query never_parsed no_markup
    (VObj [("entity_type", VStr "cms-block"); ("entity_id", VNum 2);
           ("cms_block", VObj [])]) VUndef
  = Throw (new_Error "Unknown url entity type: cms-block in magento api.").
Proof.
  destruct (reduceUrl_types camelCase_already no_markup unused_query
              never_parsed no_markup
              (VObj [("entity_type", VStr "cms-page"); ("entity_id", VNum 2);
                     ("cms_page", VNull)]) VUndef "cms-page" VNull
              eq_refl eq_refl) as (_ & Hnull & _).
  destruct (reduceUrl_types camelCase_already no_markup unused_query
              never_parsed no_markup
              (VObj [("entity_type", VStr "cms-block"); ("entity_id", VNum 2);
                     ("cms_block", VObj [])]) VUndef "cms-block" (VObj [])
              eq_refl eq_refl) as (_ & _ & Hunknown & _).
  split; [by apply Hnull|by apply Hunknown].
Defined.

(** ** convertCategoryData *)

Lemma depth_obj_get k (o : props value) x :
  obj_get k o = Some x ->
  (depth x <= foldr (fun kv n => Nat.max (depth kv.2) n) 0 o)%nat.
Proof.
  induction o as [|[k' v] o IH]; cbn [obj_get foldr snd]; [done|].
  destruct (String.eqb k k'); [intros [= ->]; lia|].
  intros H. apply IH in H. lia.
Qed.

Lemma depth_elem (l : list value) x :
  x ∈ l -> (depth x <= foldr (fun x n => Nat.max (depth x) n) 0 l)%nat.
Proof.
  induction 1 as [|? ? ? _ IH]; cbn [foldr]; lia.
Qed.

Lemma depth_get_prop v k x :
  get_prop v k = Ok x -> (depth x <= Nat.pred (depth v))%nat.
Proof.
  destruct v; cbn [get_prop]; intros [= <-]; try (cbn; lia); unfold prop.
  - destruct (obj_get k named) eqn:Hget; [|cbn; lia].
    apply depth_obj_get in Hget. cbn [default depth from_option id]. cbn. lia.
  - destruct (obj_get k fields) eqn:Hget; [|cbn; lia].
    apply depth_obj_get in Hget. cbn. lia.
Qed.

Lemma depth_item items named item :
  item ∈ items -> (depth item < depth (VArr items named))%nat.
Proof. intros Hin. apply depth_elem in Hin. cbn [depth]. lia. Qed.

(** What [convertAttributesSet] leaves of a response it returns. *)
Lemma convertAttributesSet_inv response r :
  convertAttributesSet response = Ok r ->
  exists data data',
    get_prop response "data" = Ok data /\
    get_prop r "data" = Ok data' /\
    r = with_data response data' /\
    isObject response = true /\
    (isObject data = true -> isObject data' = true) /\
    forall k, k <> "custom_attributes" -> get_prop data' k = get_prop data k.
Proof.
  unfold convertAttributesSet. intros H. bound H. bound H.
  rename x into data, x0 into custom.
  assert (Hresp : isObject response = true).
  { destruct response; try done; injection E as <-; discriminate E0. }
  exists data.
  assert (Hsame : exists data',
            get_prop response "data" = Ok data' /\
            response = with_data response data' /\
            (isObject data = true -> isObject data' = true) /\
            forall k, k <> "custom_attributes" ->
                      get_prop data' k = get_prop data k).
  { exists data. repeat split; try done.
    unfold with_data. symmetry. apply put_prop_same; [|done].
    intros ->. discriminate E0. }
  destruct (or_default custom (arr []));
    try (injection H as <-; destruct Hsame as (d & ? & ? & ? & ?);
         exists d; by repeat split).
  bound H. bound H. injection H as <-.
  apply set_prop_inv in E2 as [-> Hobj].
  eexists. split; [done|]. split; [by apply get_put_eq|].
  split; [done|]. split; [done|]. split; [by intros; obj|].
  intros k Hk. by rewrite get_put_ne.
Qed.

Lemma mapM_ext_in {A B} (f g : A -> outcome B) (l : list A) :
  (forall x, x ∈ l -> f x = g x) -> mapM f l = mapM g l.
Proof.
  induction l as [|x l IH]; intros Hfg; cbn [mapM]; [done|].
  rewrite (Hfg x) by left. rewrite IH; [done|].
  intros y Hy. apply Hfg. by right.
Qed.

(** The tree of children ends before the fuel does: with more fuel than
    the response is deep, [convertCategoryData_upto] gives the same
    result whatever the fuel. *)
Lemma convertCategoryData_upto_enough stripHtml qs_stringify JSON_parse :
  forall n m response,
    (depth response < n)%nat -> (depth response < m)%nat ->
    convertCategoryData_upto stripHtml qs_stringify JSON_parse n response
    = convertCategoryData_upto stripHtml qs_stringify JSON_parse m response.
Proof.
  induction n as [|n IH]; intros [|m] response Hn Hm; try lia.
  cbn [convertCategoryData_upto].
  destruct (convertAttributesSet response) as [r|] eqn:Hset; [|done].
  cbn [bind outcome_monad].
  destruct (convertAttributesSet_inv _ _ Hset)
    as (data0 & data' & Hdata0 & Hdata' & _ & _ & _ & Hkeep).
  rewrite Hdata'. cbn [bind outcome_monad].
  destruct (get_prop data' "extension_attributes") as [ext|]; [|done].
  cbn [bind outcome_monad].
  destruct (get_prop data' "custom_attributes") as [custom|]; [|done].
  cbn [bind outcome_monad].
  destruct (get_prop data' "children_data") as [children|] eqn:Hchildren;
    [|done].
  cbn [bind outcome_monad].
  destruct (get_prop custom "url_path") as [urlPath|]; [|done].
  cbn [bind outcome_monad].
  match goal with
  | |- (match ?c with Ok _ => _ | Throw _ => _ end) = _ =>
      destruct c as [[urlPath' data1]|]; [|done]
  end.
  destruct (del_prop data1 "created_at") as [data2|]; [|done].
  cbn [bind outcome_monad].
  destruct (del_prop data2 "product_count") as [data3|]; [|done].
  cbn [bind outcome_monad].
  destruct (set_prop data3 "urlPath" _) as [data4|]; [|done].
  cbn [bind outcome_monad].
  destruct (or_default children (arr [])) as [| | | | |items named|] eqn:Hitems;
    try done.
  erewrite mapM_ext_in; [reflexivity|].
  intros item Hitem.
  assert (Hdeep : (depth item + 3 <= depth response)%nat).
  { assert (children = VArr items named) as ->.
    { destruct children; try discriminate Hitems;
        cbn [or_default] in Hitems; [|done].
      injection Hitems as <- <-. by apply elem_of_nil in Hitem. }
    rewrite Hkeep in Hchildren by done.
    apply depth_get_prop in Hchildren. apply depth_get_prop in Hdata0.
    apply (depth_item _ named) in Hitem. lia. }
  cbn beta. rewrite (IH m (VObj [("data", item)])); [done| |]; cbn; lia.
Qed.

Lemma has_del_eq v k v' : del_prop v k = Ok v' -> has v' k = false.
Proof.
  destruct v; try done; intros [= <-]; try done; cbn [has];
    by rewrite obj_get_del_eq.
Qed.

Lemma has_del_ne v k k' v' :
  k <> k' -> del_prop v k = Ok v' -> has v' k' = has v k'.
Proof.
  intros Hne. destruct v; try done; intros [= <-]; try done; cbn [has];
    by rewrite obj_get_del_ne.
Qed.

Lemma get_del_ne v k k' v' :
  k <> k' -> del_prop v k = Ok v' -> get_prop v' k' = get_prop v k'.
Proof.
  intros Hne. destruct v; try done; intros [= <-]; try done;
    cbn [get_prop]; unfold prop; by rewrite obj_get_del_ne.
Qed.

Lemma convertCategoryData_upto_node stripHtml qs_stringify JSON_parse
  fuel response r :
  convertCategoryData_upto stripHtml qs_stringify JSON_parse (S fuel) response
  = Ok r ->
  exists data0 data custom u p,
    get_prop response "data" = Ok data0 /\
    get_prop r "data" = Ok data /\
    has data "created_at" = false /\
    has data "product_count" = false /\
    has data "urlPath" = true /\
    get_prop data "custom_attributes" = Ok custom /\
    get_prop custom "url_path" = Ok u /\
    get_prop data0 "url_path" = Ok p /\
    get_prop data "urlPath"
    = Ok (convertPathToUrl (if truthy u then u else p)) /\
    (if truthy u then get_prop data "url_path" = Ok p
     else has data "url_path" = false) /\
    (forall items named,
       get_prop data "children_data" = Ok (VArr items named) ->
       exists items0,
         get_prop data0 "children_data" = Ok (VArr items0 named) /\
         Forall2
           (fun item0 item =>
              exists r',
                convertCategoryData_upto stripHtml qs_stringify JSON_parse
                  fuel (VObj [("data", item0)]) = Ok r' /\
                get_prop r' "data" = Ok item)
           items0 items).
Proof.
  intros Hrun. cbn [convertCategoryData_upto] in Hrun.
  bound Hrun. rename x into r0, E into Hset.
  destruct (convertAttributesSet_inv _ _ Hset)
    as (data0 & data' & Hdata0 & Hdata' & -> & Hresp & _ & Hkeep).
  rewrite Hdata' in Hrun. cbn [bind outcome_monad] in Hrun.
  bound Hrun. rename x into ext, E into Hext.
  bound Hrun. rename x into custom, E into Hcustom.
  bound Hrun. rename x into children, E into Hchildren.
  bound Hrun. rename x into u, E into Hu.
  bound Hrun. destruct x as [urlPath data1]. rename E into Hurl.
  bound Hrun. rename x into data2, E into Hdel1.
  bound Hrun. rename x into data3, E into Hdel2.
  bound Hrun. rename x into data4, E into Hput.
  bound Hrun. rename x into data5, E into Hkids.
  bound Hrun. rename x into breadcrumbs, E into Hcrumbs.
  bound Hrun. rename x into data6, E into Hbread.
  injection Hrun as <-.
  assert (Hobj' : isObject data' = true).
  { eapply get_prop_defined; [exact Hcustom|].
    intros ->. discriminate Hu. }
  destruct (get_prop data' "url_path") as [p|] eqn:Hp;
    [|by destruct data'].
  pose proof (fun k' Hne => has_del_ne _ _ k' _ Hne Hdel1) as Hh1.
  pose proof (fun k' Hne => get_del_ne _ _ k' _ Hne Hdel1) as Hg1.
  pose proof (fun k' Hne => has_del_ne _ _ k' _ Hne Hdel2) as Hh2.
  pose proof (fun k' Hne => get_del_ne _ _ k' _ Hne Hdel2) as Hg2.
  pose proof (has_del_eq _ _ _ Hdel1) as Hcreated.
  pose proof (has_del_eq _ _ _ Hdel2) as Hcount.
  apply set_prop_inv in Hput as [-> Hobj3].
  assert (Hobj5 : isObject data5 = true /\
                  (forall k, k <> "children_data" ->
                             has data5 k
                             = has (put_prop data3 "urlPath"
                                      (if truthy urlPath
                                       then convertPathToUrl urlPath
                                       else urlPath)) k /\
                             get_prop data5 k
                             = get_prop (put_prop data3 "urlPath"
                                           (if truthy urlPath
                                            then convertPathToUrl urlPath
                                            else urlPath)) k) /\
                  forall items named,
                    get_prop data5 "children_data" = Ok (VArr items named) ->
                    exists items0,
                      get_prop data0 "children_data"
                      = Ok (VArr items0 named) /\
                      Forall2
                        (fun item0 item =>
                           exists r',
                             convertCategoryData_upto stripHtml qs_stringify
                               JSON_parse fuel (VObj [("data", item0)])
                             = Ok r' /\
                             get_prop r' "data" = Ok item)
                        items0 items).
  { destruct (or_default children (arr [])) as [| | | | |items0 named0|]
      eqn:Hitems; try discriminate Hkids.
    bound Hkids. rename x into items', E into Hmap.
    injection Hkids as <-.
    destruct children; try discriminate Hitems; cbn [or_default] in Hitems.
    - split; [by obj|]. split; [done|].
      intros items named Hget.
      rewrite get_put_ne, Hg2, Hg1 in Hget by done.
      assert (Hsame : get_prop data1 "children_data" = Ok VUndef).
      { destruct (truthy u); cbn [negb] in Hurl.
        - by injection Hurl as _ <-.
        - bound Hurl. injection Hurl as _ <-.
          by rewrite (get_del_ne _ "url_path" "children_data" _
                        ltac:(done) E). }
      by rewrite Hsame in Hget.
    - injection Hitems as -> ->.
      split; [by obj|]. split.
      { intros k Hk. by rewrite has_put_ne, get_put_ne. }
      intros items named Hget. rewrite get_put_eq in Hget by (by obj).
      injection Hget as <- <-. exists items0.
      split; [by rewrite <- Hkeep|].
      apply mapM_Forall2 in Hmap.
      eapply Forall2_impl; [exact Hmap|].
      intros item0 item Hitem. cbn beta in Hitem. bound Hitem. by eauto. }
  destruct Hobj5 as (Hobj5 & Hsame5 & Hkids5).
  assert (Hsame6 : (forall k, k <> "breadcrumbs" ->
                              k <> "extension_attributes" ->
                              has data6 k = has data5 k /\
                              get_prop data6 k = get_prop data5 k)).
  { destruct (truthy breadcrumbs); [|by injection Hbread as <-].
    bound Hbread. bound Hbread. apply set_prop_inv in E0 as [-> _].
    injection Hbread as <-. intros k Hk1 Hk2.
    by rewrite !has_put_ne, !get_put_ne. }
  assert (Hstart : urlPath = (if truthy u then u else p) /\
                   (forall k, k <> "url_path" ->
                              has data1 k = has data' k /\
                              get_prop data1 k = get_prop data' k) /\
                   (if truthy u then get_prop data1 "url_path" = Ok p
                    else has data1 "url_path" = false)).
  { destruct (truthy u); cbn [negb] in Hurl.
    - by injection Hurl as <- <-.
    - cbn [bind outcome_monad] in Hurl. bound Hurl.
      injection Hurl as <- <-. split; [done|]. split.
      + intros k Hk. split; [by eapply has_del_ne|by eapply get_del_ne].
      + by eapply has_del_eq. }
  destruct Hstart as (-> & Hsame1 & Hpath1).
  exists data0, data6, custom, u, p.
  split; [done|]. split; [unfold with_data; apply get_put_eq; by obj|].
  assert (Hrest : forall k, k <> "breadcrumbs" ->
                            k <> "extension_attributes" ->
                            k <> "children_data" -> k <> "urlPath" ->
                            k <> "product_count" -> k <> "created_at" ->
                            has data6 k = has data1 k /\
                            get_prop data6 k = get_prop data1 k).
  { intros k H1 H2 H3 H4 H5 H6.
    destruct (Hsame6 k) as [-> ->]; [done..|].
    destruct (Hsame5 k) as [-> ->]; [done|].
    by rewrite has_put_ne, get_put_ne, Hh2, Hg2, Hh1, Hg1. }
  split.
  { destruct (Hsame6 "created_at") as [-> _]; [done..|].
    destruct (Hsame5 "created_at") as [-> _]; [done|].
    by rewrite has_put_ne, Hh2. }
  split.
  { destruct (Hsame6 "product_count") as [-> _]; [done..|].
    destruct (Hsame5 "product_count") as [-> _]; [done|].
    by rewrite has_put_ne. }
  split.
  { destruct (Hsame6 "urlPath") as [-> _]; [done..|].
    destruct (Hsame5 "urlPath") as [-> _]; [done|].
    by apply has_put_eq. }
  split.
  { destruct (Hrest "custom_attributes") as [_ ->]; [done..|].
    by destruct (Hsame1 "custom_attributes") as [_ ->]. }
  split; [done|]. split; [by rewrite <- Hkeep|]. split.
  { destruct (Hsame6 "urlPath") as [_ ->]; [done..|].
    destruct (Hsame5 "urlPath") as [_ ->]; [done|].
    rewrite get_put_eq by done. unfold convertPathToUrl.
    by destruct (truthy (if truthy u then u else p)). }
  split.
  { destruct (Hrest "url_path") as [-> ->]; [done..|]. exact Hpath1. }
  intros items named Hget.
  destruct (Hsame6 "children_data") as [_ Hc]; [done..|].
  rewrite Hc in Hget. by apply Hkids5.
Qed.

Lemma convertCategoryData_upto_tree stripHtml qs_stringify JSON_parse :
  forall fuel response r data,
    convertCategoryData_upto stripHtml qs_stringify JSON_parse fuel response
    = Ok r ->
    get_prop r "data" = Ok data ->
    converted_category data.
Proof.
  induction fuel as [|fuel IH]; intros response r data Hrun Hdata;
    [discriminate Hrun|].
  destruct (convertCategoryData_upto_node _ _ _ _ _ _ Hrun)
    as (data0 & data1 & custom & u & p & _ & Hdata1 & Hcreated & Hcount
        & HurlPath & _ & _ & _ & _ & _ & Hkids).
  rewrite Hdata in Hdata1. injection Hdata1 as <-.
  constructor; try done.
  intros items named Hitems.
  destruct (Hkids items named Hitems) as (items0 & _ & Hall).
  clear -Hall IH. induction Hall as [|item0 item l0 l (r' & Hr' & Hitem) _ IHl];
    constructor; [by eapply IH|done].
Qed.



(** ** convertCartData *)

Lemma find_item_found itemId l : forall i j t,
  find_item itemId i l = Ok (Some (j, t)) ->
  exists n found,
    j = (i + n)%nat /\ l !! n = Some t /\
    get_prop t "itemId" = Ok found /\ strict_eq found itemId = true.
Proof.
  induction l as [|x l IH]; intros i j t H; cbn [find_item] in H; [done|].
  bound H. destruct (strict_eq x0 itemId) eqn:Heq.
  - injection H as <- <-. exists 0%nat, x0. by rewrite Nat.add_0_r.
  - apply IH in H as (n & found & -> & Hn & Hfound & Hstrict).
    exists (S n), found. split; [lia|done].
Qed.

Lemma processPrice_object parseFloat data field fields r :
  processPrice parseFloat data (field :: fields) = Ok r ->
  isObject (or_default data (VObj [])) = true.
Proof.
  unfold processPrice. cbn [foldM]. intros H. bound H. bound E.
  by apply set_prop_inv in E as [_ ?].
Qed.

Lemma processPrice_keeps parseFloat data field fields r k :
  processPrice parseFloat data (field :: fields) = Ok r ->
  k ∉ field :: fields ->
  get_prop r k = get_prop (or_default data (VObj [])) k.
Proof.
  intros H Hk. pose proof (processPrice_object _ _ _ _ _ H) as Hobj.
  destruct (processPrice_fold parseFloat (field :: fields) _ Hobj)
    as (r' & Hr' & _ & Hout & _).
  unfold processPrice in H. rewrite Hr' in H. injection H as <-.
  by apply Hout.
Qed.

(** Merging one item finds its entry in the totals and leaves the item
    ids of the totals as they were. *)
Lemma mergeCartItem_inv JSON_parse parseFloat totalsItems item
  totalsItems' merged :
  mergeCartItem JSON_parse parseFloat totalsItems item
  = Ok (totalsItems', merged) ->
  itemIds totalsItems' = itemIds totalsItems /\
  has_totals totalsItems item.
Proof.
  unfold mergeCartItem. intros H.
  destruct totalsItems as [| | | | |elems named|]; try discriminate H.
  bound H. rename x into itemId, E into HitemId.
  bound H. destruct x as [[j t]|]; [|discriminate H]. rename E into Hfind.
  apply find_item_found in Hfind as (n & found & -> & Hn & Hfound & Hstrict).
  cbn [Nat.add] in H.
  bound H. rename x into ext, E into Hext.
  bound H. rename x into t1, E into Hdel.
  bound H. rename x into t2, E into Hprice.
  bound H. bound H. bound H. bound H. bound H. bound H.
  rename x4 into t3, E4 into Hoptions.
  injection H as <- <-.
  assert (Ht1 : get_prop t1 "itemId" = Ok found).
  { by rewrite (get_del_ne _ "extensionAttributes" "itemId" _
                  ltac:(done) Hdel). }
  assert (Ht2 : get_prop t2 "itemId" = Ok found).
  { rewrite (processPrice_keeps _ _ _ _ _ "itemId" Hprice).
    - by destruct t1.
    - intros Hin. apply list_elem_of_In in Hin. cbn in Hin.
      intuition discriminate. }
  assert (Ht3 : get_prop t3 "itemId" = Ok found).
  { destruct (truthy x3); [|by injection Hoptions as <-].
    bound Hoptions. apply set_prop_inv in Hoptions as [-> _].
    by rewrite get_put_ne. }
  split.
  - cbn [itemIds]. rewrite list_fmap_insert, Ht3, <- Hfound.
    apply list_insert_id. by rewrite list_lookup_fmap, Hn.
  - exists itemId, found. split; [done|]. split; [|done].
    cbn [itemIds]. rewrite <- Hfound.
    apply list_elem_of_fmap. exists t. split; [done|].
    by eapply list_elem_of_lookup_2.
Qed.

Lemma mergeCartItems_inv JSON_parse parseFloat items :
  forall totalsItems merged,
    mergeCartItems JSON_parse parseFloat totalsItems items = Ok merged ->
    length merged = length items /\
    Forall (has_totals totalsItems) items.
Proof.
  induction items as [|item items IH]; intros totalsItems merged H;
    cbn [mergeCartItems] in H.
  - by injection H as <-.
  - bound H. destruct x as [totalsItems' first]. bound H.
    injection H as <-.
    apply mergeCartItem_inv in E as [Hids Hfirst].
    apply IH in E0 as [Hlen Hrest].
    split; [cbn [length]; by rewrite Hlen|].
    constructor; [done|].
    eapply Forall_impl; [exact Hrest|].
    intros other (itemId & found & ? & ? & ?). exists itemId, found.
    by rewrite <- Hids.
Qed.

(** X22.  A cart [convertCartData] returns has as many items as the quote
    and as many totals as the totals data has segments, and every item of
    the quote has an entry in the items of the totals data with the same
    item id: when an item has none, the conversion throws. *)
Theorem convertCartData_items_have_totals :
  forall JSON_parse parseFloat quoteData totalsData converted,
    convertCartData JSON_parse parseFloat quoteData totalsData
    = Ok converted ->
    exists quoteItems named segments named' totalsItems items totals,
      get_prop quoteData "items" = Ok (VArr quoteItems named) /\
      get_prop totalsData "totalSegments" = Ok (VArr segments named') /\
      get_prop totalsData "items" = Ok totalsItems /\
      get_prop converted "items" = Ok (arr items) /\
      get_prop converted "totals" = Ok (arr totals) /\
      length items = length quoteItems /\
      length totals = length segments /\
      Forall (has_totals totalsItems) quoteItems.
Proof.
  intros JSON_parse parseFloat quoteData totalsData converted H.
  unfold convertCartData in H.
  do 9 bound H.
  apply set_prop_inv in E0 as [-> Hobj]. apply set_prop_inv in E2 as [-> _].
  apply set_prop_inv in E4 as [-> _]. apply set_prop_inv in E6 as [-> _].
  rename x7 into totalSegments.
  bound H. rename x0 into totals, E0 into Htotals.
  destruct totalSegments as [| | | | |segments named'|];
    try discriminate Htotals.
  apply mapM_length in Htotals.
  bound H. apply set_prop_inv in E0 as [-> _].
  bound H. rename x0 into quoteItems, E0 into Hitems.
  rewrite !get_put_ne in Hitems by done.
  destruct quoteItems as [| | | | |quoteItems named|]; try discriminate H.
  bound H. rename x0 into totalsItems, E0 into HtotalsItems.
  bound H. rename x0 into items, E0 into Hmerge.
  apply set_prop_inv in H as [-> _].
  apply mergeCartItems_inv in Hmerge as [Hlen Hall].
  exists quoteItems, named, segments, named', totalsItems, items, totals.
  do 3 (split; [done|]).
  split; [apply get_put_eq; by obj|].
  split; [rewrite get_put_ne by done; apply get_put_eq; by obj|].
  done.
Qed.

Lemma convertCartData_items_have_totals_witness :
  exists converted,
    convertCartData never_parsed no_float sample_quote sample_totals
    = Ok converted /\
    exists quoteItems named segments named' totalsItems items totals,
      get_prop sample_quote "items" = Ok (VArr quoteItems named) /\
      get_prop sample_totals "totalSegments" = Ok (VArr segments named') /\
      get_prop sample_totals "items" = Ok totalsItems /\
      get_prop converted "items" = Ok (arr items) /\
      get_prop converted "totals" = Ok (arr totals) /\
      length items = length quoteItems /\
      length totals = length segments /\
      Forall (has_totals totalsItems) quoteItems.
Proof.
  eexists. split; [reflexivity|].
  by apply (convertCartData_items_have_totals never_parsed no_float
              sample_quote sample_totals).
Defined.

(** ** cart, continued *)

Lemma rest_with_run backend hook m p data ctx w response result converted :
  backend (requests w)
    {| method := m; path := p; payload := data; context := ctx |}
  = Ok response ->
  get_prop response "data" = Ok result ->
  hook result = Ok converted ->
  rest_with backend hook m p data ctx w
  = (Ok (with_data response converted),
     {| session := session w; saves := saves w;
        requests := {| method := m; path := p; payload := data;
                       context := ctx |} :: requests w |}).
Proof.
  intros Hresponse Hresult Hhook. unfold rest_with.
  rewrite bind_M, rest_run, Hresponse. rewrite bind_M. unfold lift at 1.
  rewrite Hresult. rewrite bind_M. unfold lift at 1. by rewrite Hhook.
Qed.

(** X23.  When both fetches of [cart] are answered, the quote and the
    totals are converted and merged.  If the merge returns, [cart]
    returns the merged cart and the session is as it was; if it throws,
    as it does when an item of the quote has no totals, [cart] returns
    the empty cart, and the cart is removed from the session and the
    session saved, although the backend has answered. *)
Theorem cart_converts_or_forgets :
  forall backend convertKeys parseFloat JSON_parse w c
         quoteResponse totalsResponse quote totals,
    Session.cart (session w) = Some c ->
    truthy (quoteId c) = true ->
    let cartPath :=
      if truthy (token_of (Session.customerToken (session w)))
      then "/carts/mine"
      else "/guest-carts/" +:+ to_string (quoteId c) in
    backend (requests w) (quote_request cartPath) = Ok quoteResponse ->
    backend (quote_request cartPath :: requests w) (totals_request cartPath)
    = Ok totalsResponse ->
    isObject quoteResponse = true ->
    isObject totalsResponse = true ->
    get_prop quoteResponse "data" = Ok quote ->
    get_prop totalsResponse "data" = Ok totals ->
    cart backend convertKeys parseFloat JSON_parse w
    = match convertCartData JSON_parse parseFloat (convertKeys quote)
              (convertKeys totals) with
      | Ok converted =>
          (Ok converted,
           {| session := session w; saves := saves w;
              requests := totals_request cartPath :: quote_request cartPath
                          :: requests w |})
      | Throw _ =>
          (Ok emptyCart,
           {| session := Session.set_cart None (session w);
              saves := S (saves w);
              requests := totals_request cartPath :: quote_request cartPath
                          :: requests w |})
      end.
Proof.
  intros backend convertKeys parseFloat JSON_parse w c quoteResponse
    totalsResponse quote totals Hc Hq cartPath HquoteResponse
    HtotalsResponse Hobj1 Hobj2 Hquote Htotals.
  unfold cart. rewrite bind_M. cbn [getSession]. rewrite Hc.
  cbn [quoteId_of]. rewrite Hq. cbn [negb].
  rewrite bind_M, (getCartPath_with_cart w c Hc). fold cartPath.
  unfold try_catch. rewrite bind_M. unfold promise_all2.
  rewrite (rest_with_run backend _ GET cartPath (VObj []) (VObj []) w
             quoteResponse quote (convertKeys quote) HquoteResponse Hquote
             eq_refl).
  rewrite (rest_with_run backend _ GET (cartPath +:+ "/totals") (VObj [])
             (VObj [])
             {| session := session w; saves := saves w;
                requests := quote_request cartPath :: requests w |}
             totalsResponse totals (convertKeys totals)
             HtotalsResponse Htotals eq_refl).
  cbn [bind outcome_monad fst snd session saves requests].
  rewrite bind_M. unfold lift at 1. unfold with_data.
  rewrite get_put_eq by done. rewrite bind_M. unfold lift at 1.
  rewrite get_put_eq by done. unfold lift.
  by destruct (convertCartData _ _ _ _).
Qed.

Lemma cart_converts_or_forgets_witness :
  (exists converted,
     cart (fun served request =>
             match served with
             | [] => Ok (VObj [("data", sample_quote)])
             | _ => Ok (VObj [("data", sample_totals)])
             end)
       camelCase_already no_float never_parsed
       (world_of (guest_session (VStr "q1")))
     = (Ok converted,
        {| session := guest_session (VStr "q1"); saves := 0;
           requests := [totals_request "/guest-carts/q1";
                        quote_request "/guest-carts/q1"] |})) /\
  cart (backend_constant sample_quote) camelCase_already no_float
    never_parsed (world_of (guest_session (VStr "q1")))
  = (Ok emptyCart,
     {| session := new_session; saves := 1;
        requests := [totals_request "/guest-carts/q1";
                     quote_request "/guest-carts/q1"] |}).
Proof.
  split.
  - eexists.
    by rewrite (cart_converts_or_forgets
                  (fun served request =>
                     match served with
                     | [] => Ok (VObj [("data", sample_quote)])
                     | _ => Ok (VObj [("data", sample_totals)])
                     end)
                  camelCase_already no_float never_parsed
                  (world_of (guest_session (VStr "q1")))
                  {| quoteId := VStr "q1" |} _ _ sample_quote sample_totals
                  eq_refl eq_refl eq_refl eq_refl eq_refl eq_refl eq_refl
                  eq_refl).
  - by rewrite (cart_converts_or_forgets (backend_constant sample_quote)
                  camelCase_already no_float never_parsed
                  (world_of (guest_session (VStr "q1")))
                  {| quoteId := VStr "q1" |} _ _ sample_quote sample_quote
                  eq_refl eq_refl eq_refl eq_refl eq_refl eq_refl eq_refl
                  eq_refl).
Defined.

(** ** products *)

Lemma filtersToCheck_fold items : forall acc toCheck,
  foldM (fun acc item =>
           field <- get_prop item "field" ;;
           val <- get_prop item "value" ;;
           Ok (set_key (to_string field) val acc)) acc items = Ok toCheck ->
  (forall k,
     k <> "__proto__" ->
     obj_get k (own toCheck)
     = match filter_value k items with
       | Some v => Some v
       | None => obj_get k (own acc)
       end) /\
  (forall v,
     obj_get "__proto__" (own toCheck) = Some v ->
     match filter_value "__proto__" items with
     | Some v' => v = v'
     | None => obj_get "__proto__" (own acc) = Some v
     end) /\
  (obj_get "__proto__" (own acc) = None ->
   reaches_setter (proto acc) = true ->
   (forall item field val,
      item ∈ items ->
      get_prop item "field" = Ok field -> to_string field = "__proto__" ->
      get_prop item "value" = Ok val ->
      keeps_setter val = true) ->
   obj_get "__proto__" (own toCheck) = None).
Proof.
  induction items as [|item items IH]; intros acc toCheck H;
    cbn [foldM filter_value] in *.
  - injection H as <-. by repeat split.
  - bound H. bound E. bound E. injection E as <-.
    rename x0 into field, x1 into val.
    destruct (IH _ _ H) as (Hget & Hlast & Hnone). split; [|split].
    + intros k Hk. rewrite (Hget k Hk).
      destruct (filter_value k items); [done|].
      rewrite obj_get_set_key by done.
      by destruct (String.eqb k (to_string field)).
    + intros v Hv. specialize (Hlast v Hv).
      destruct (filter_value "__proto__" items); [done|].
      unfold set_key in Hlast.
      destruct (String.eqb_spec (to_string field) "__proto__") as [Hf|Hf].
      * rewrite Hf in *. cbn [String.eqb Ascii.eqb Bool.eqb andb] in *.
        destruct (obj_get "__proto__" (own acc)) as [v0|] eqn:Hown;
          cbn [negb andb own] in Hlast.
        -- rewrite obj_get_set_eq in Hlast. by injection Hlast as <-.
        -- destruct (reaches_setter (proto acc)); cbn [own] in Hlast.
           ++ destruct val; cbn [own] in Hlast; congruence.
           ++ rewrite obj_get_set_eq in Hlast. by injection Hlast as <-.
      * cbn [andb own] in Hlast. rewrite obj_get_set_ne in Hlast by done.
        destruct (String.eqb_spec "__proto__" (to_string field)); [|done].
        congruence.
    + intros Hown Hreach Hkeeps.
      destruct (set_key_no_proto (to_string field) val acc Hown Hreach)
        as [Hown' Hreach'].
      { intros Hf. apply (Hkeeps item field val); [by left|done..]. }
      apply Hnone; [exact Hown'|exact Hreach'|].
      intros item' field' val' Hin. apply Hkeeps. by right.
Qed.

Lemma filtersToCheck_value simpleFilters toCheck :
  filtersToCheck simpleFilters = Ok toCheck ->
  (forall k,
     k <> "__proto__" ->
     obj_get k (own toCheck) = filter_value k (elements simpleFilters)) /\
  (forall v,
     obj_get "__proto__" (own toCheck) = Some v ->
     filter_value "__proto__" (elements simpleFilters) = Some v) /\
  ((forall item field val,
      item ∈ elements simpleFilters ->
      get_prop item "field" = Ok field -> to_string field = "__proto__" ->
      get_prop item "value" = Ok val ->
      keeps_setter val = true) ->
   obj_get "__proto__" (own toCheck) = None).
Proof.
  unfold filtersToCheck. intros H. bound H.
  destruct (truthy x) eqn:Hlen.
  - destruct simpleFilters; try discriminate H. cbn [elements].
    destruct (filtersToCheck_fold _ _ _ H) as (Hget & Hlast & Hnone).
    split; [|split].
    + intros k Hk. rewrite (Hget k Hk).
      by destruct (filter_value k elems).
    + intros v Hv. specialize (Hlast v Hv).
      destruct (filter_value "__proto__" elems); [congruence|done].
    + by apply Hnone.
  - injection H as <-.
    assert (Hnone : elements simpleFilters = []).
    { destruct simpleFilters; try done.
      cbn [js_length] in E. injection E as <-. by destruct elems. }
    rewrite Hnone. by repeat split.
Qed.

Lemma insert_key_elem n k l x :
  x ∈ insert_key n k l <-> x = (n, k) \/ x ∈ l.
Proof.
  induction l as [|[m k'] l IH]; cbn [insert_key].
  - rewrite list_elem_of_singleton. split; [by left|].
    intros [?|H]; [done|by apply elem_of_nil in H].
  - destruct (n <? m).
    + by rewrite elem_of_cons.
    + rewrite !elem_of_cons, IH. tauto.
Qed.

Lemma Object_keys_elem {A} (o : props A) k :
  k ∈ Object_keys o <-> k ∈ map fst o.
Proof.
  unfold Object_keys. rewrite elem_of_app. set (keys := map fst o).
  assert (Hindices :
    k ∈ map snd
          (foldr (fun k acc => match index_of_key k with
                               | Some n => insert_key n k acc
                               | None => acc
                               end) [] keys)
    <-> k ∈ keys /\ defined (index_of_key k) = true).
  { clearbody keys. induction keys as [|k' keys IH]; cbn [foldr].
    - split; [intros H; by apply elem_of_nil in H|].
      intros [H _]. by apply elem_of_nil in H.
    - destruct (index_of_key k') as [n|] eqn:Hk'.
      + rewrite list_elem_of_fmap.
        setoid_rewrite insert_key_elem. rewrite elem_of_cons. split.
        * intros ([m k0] & -> & [[= -> ->]|Hin]); cbn [snd].
          -- split; [by left|by rewrite Hk'].
          -- assert (Hk : k0 ∈ map snd
                            (foldr (fun k acc =>
                                      match index_of_key k with
                                      | Some n => insert_key n k acc
                                      | None => acc
                                      end) [] keys)).
             { apply list_elem_of_fmap. by exists (m, k0). }
             apply IH in Hk as [??]. split; [by right|done].
        * intros [[->|Hin] Hdef].
          -- exists (n, k'). split; [done|by left].
          -- pose proof (proj2 IH (conj Hin Hdef)) as Hk.
             apply list_elem_of_fmap in Hk as (y & -> & Hy).
             exists y. split; [done|by right].
      + rewrite IH, elem_of_cons. split.
        * intros [??]. split; [by right|done].
        * intros [[->|?] Hdef]; [by rewrite Hk' in Hdef|done]. }
  assert (Hrest :
    k ∈ List.filter (fun k => negb (defined (index_of_key k))) keys
    <-> k ∈ keys /\ defined (index_of_key k) = false).
  { rewrite !list_elem_of_In, filter_In.
    destruct (defined (index_of_key k)); cbn [negb]; intuition congruence. }
  rewrite Hindices, Hrest.
  destruct (defined (index_of_key k)); intuition congruence.
Qed.

(** The loop of [products] over the keys: each key with a truthy value
    adds its group. *)
Lemma productsFilters_loop toCheck keys : forall params groups params',
  isObject params = true ->
  get_prop params "filters" = Ok (arr groups) ->
  foldM (fun params key =>
           if truthy (prop toCheck key)
           then addSearchFilter params (VStr key) (prop toCheck key) VUndef
           else Ok params) params keys = Ok params' ->
  params'
  = put_prop params "filters"
      (arr (groups
            ++ map (fun key => filter_group (VStr key) (prop toCheck key)
                                 (VStr "eq"))
                 (List.filter (fun key => truthy (prop toCheck key)) keys))).
Proof.
  induction keys as [|key keys IH]; intros params groups params' Hobj Hget H;
    cbn [foldM List.filter map] in *.
  - injection H as <-. rewrite app_nil_r. symmetry.
    by apply put_prop_same.
  - bound H. destruct (truthy (prop toCheck key)).
    + rewrite addSearchFilter_object, Hget in E by done.
      cbn [bind outcome_monad] in E.
      assert (Hnext : x = put_prop params "filters"
                            (arr (groups
                                  ++ [filter_group (VStr key)
                                        (prop toCheck key) (VStr "eq")]))).
      { destruct groups; by injection E as <-. }
      subst x.
      rewrite (IH _ (groups ++ [filter_group (VStr key) (prop toCheck key)
                                  (VStr "eq")]) _
                 (put_prop_object _ _ _ Hobj) (get_put_eq _ _ _ Hobj) H).
      by rewrite put_prop_twice, <- app_assoc.
    + injection E as <-. by apply IH.
Qed.

(** X24.  The filters [products] fetches with.  The filters given in
    [params.filters] are read as field and value pairs and replaced: each
    field whose last value is truthy becomes one [eq] filter, so does a
    truthy [categoryId] as field [category_id], and truthy [skus] become a
    last filter on [sku] with condition [in].  A field with a falsy value
    is filtered by nothing, and nothing else of the params changes.  The
    field [__proto__] is the exception: it is filtered by nothing, unless
    a filter on it has had the value [null] or an object with a property
    [__proto__] of its own. *)
Theorem productsFilters_sends_truthy_filters :
  forall params params',
    productsFilters params = Ok params' ->
    exists filters categoryId skus groups,
      get_prop params "filters" = Ok filters /\
      get_prop params "categoryId" = Ok categoryId /\
      get_prop params "skus" = Ok skus /\
      get_prop params' "filters" = Ok (arr groups) /\
      (forall k, k <> "filters" -> get_prop params' k = get_prop params k) /\
      let wanted k :=
        if String.eqb k "category_id" && truthy categoryId
        then Some categoryId
        else filter_value k (elements filters) in
      let skuFilter :=
        filter_group (VStr "sku") (VStr (to_string skus)) (VStr "in") in
      (forall k v,
         k <> "__proto__" ->
         wanted k = Some v -> truthy v = true ->
         filter_group (VStr k) v (VStr "eq") ∈ groups) /\
      (forall group,
         group ∈ groups ->
         (exists k v,
            wanted k = Some v /\ truthy v = true /\
            group = filter_group (VStr k) v (VStr "eq")) \/
         (truthy skus = true /\ group = skuFilter)) /\
      ((forall item field val,
          item ∈ elements filters ->
          get_prop item "field" = Ok field ->
          to_string field = "__proto__" ->
          get_prop item "value" = Ok val ->
          keeps_setter val = true) ->
       forall v conditionType,
         filter_group (VStr "__proto__") v conditionType ∉ groups) /\
      (truthy skus = true -> last groups = Some skuFilter).
Proof.
  intros params params' H. unfold productsFilters in H.
  bound H. rename x into filters, E into Hfilters.
  bound H. rename x into categoryId, E into HcategoryId.
  bound H. rename x into skus, E into Hskus.
  bound H. rename x into collected, E into Hcollected.
  bound H. apply set_prop_inv in E as [-> Hobj].
  bound H. rename x into params1, E into Hloop.
  set (toCheck := own (if truthy categoryId
                       then set_key "category_id" categoryId collected
                       else collected)) in *.
  apply (productsFilters_loop _ _ _ []) in Hloop;
    [|by obj|by apply get_put_eq].
  rewrite put_prop_twice in Hloop. cbn [app] in Hloop.
  set (eqFilters :=
         map (fun key => filter_group (VStr key) (prop toCheck key)
                           (VStr "eq"))
           (List.filter (fun key => truthy (prop toCheck key))
              (Object_keys toCheck))) in *.
  assert (Helements : elements (or_default filters (arr []))
                      = elements filters) by (by destruct filters).
  destruct (filtersToCheck_value _ _ Hcollected) as (Hget & Hlast & Hnone).
  rewrite Helements in Hget, Hlast, Hnone. clear Helements.
  assert (Hproto : obj_get "__proto__" toCheck
                   = obj_get "__proto__" (own collected)).
  { unfold toCheck. destruct (truthy categoryId); [|done].
    unfold set_key. cbn [String.eqb Ascii.eqb Bool.eqb andb own].
    by rewrite obj_get_set_ne. }
  assert (Hwanted :
    forall k, k <> "__proto__" ->
              obj_get k toCheck
              = if String.eqb k "category_id" && truthy categoryId
                then Some categoryId
                else filter_value k (elements filters)).
  { intros k Hk. unfold toCheck.
    destruct (truthy categoryId); [|by rewrite andb_false_r, Hget].
    rewrite andb_true_r, obj_get_set_key by done.
    destruct (String.eqb k "category_id"); [done|by apply Hget]. }
  assert (Hfiled :
    forall k v, obj_get k toCheck = Some v ->
                (if String.eqb k "category_id" && truthy categoryId
                 then Some categoryId
                 else filter_value k (elements filters)) = Some v).
  { intros k v Hk. destruct (String.eqb_spec k "__proto__") as [->|Hne].
    - cbn [String.eqb Ascii.eqb Bool.eqb andb]. apply Hlast. congruence.
    - by rewrite <- Hwanted. }
  assert (Heq :
    forall group,
      group ∈ eqFilters <->
      exists k v, obj_get k toCheck = Some v /\ truthy v = true /\
                  group = filter_group (VStr k) v (VStr "eq")).
  { intros group. unfold eqFilters. rewrite list_elem_of_fmap. split.
    - intros (k & -> & Hk). apply list_elem_of_In, filter_In in Hk as [Hk Hv].
      apply list_elem_of_In, Object_keys_elem, list_elem_of_fmap in Hk
        as ([k' v] & -> & Hin).
      unfold prop in *. cbn [fst] in *.
      destruct (obj_get k' toCheck) as [v'|] eqn:Hk'; [|done].
      by exists k', v'.
    - intros (k & v & Hk & Hv & ->). exists k.
      unfold prop. rewrite Hk. split; [done|].
      apply list_elem_of_In, filter_In. split.
      + apply list_elem_of_In, Object_keys_elem.
        clear -Hk. induction toCheck as [|[k' v'] o IH]; [done|].
        cbn [obj_get] in Hk. cbn [map fst].
        destruct (String.eqb_spec k k') as [->|]; [by left|].
        right. by apply IH.
      + unfold prop. by rewrite Hk. }
  assert (Hnoproto :
    (forall item field val,
       item ∈ elements filters ->
       get_prop item "field" = Ok field ->
       to_string field = "__proto__" ->
       get_prop item "value" = Ok val ->
       keeps_setter val = true) ->
    forall v conditionType,
      filter_group (VStr "__proto__") v conditionType ∉ eqFilters).
  { intros Hkeeps v conditionType Hin.
    apply Heq in Hin as (k & v' & Hk & _ & Hgroup).
    injection Hgroup as _ <- _.
    rewrite Hproto, (Hnone Hkeeps) in Hk. discriminate Hk. }
  exists filters, categoryId, skus.
  destruct (truthy skus) eqn:Htruthy.
  - destruct skus as [| | | | |l named|]; try discriminate H.
    rewrite addSearchFilter_object in H by (subst params1; by obj).
    subst params1. rewrite get_put_eq in H by done.
    cbn [bind outcome_monad or_default] in H.
    assert (params'
            = put_prop params "filters"
                (arr (eqFilters
                      ++ [filter_group (VStr "sku")
                            (VStr (to_string (VArr l named))) (VStr "in")])))
      as ->.
    { destruct eqFilters; injection H as <-; by rewrite put_prop_twice. }
    eexists. do 3 (split; [done|]). split; [by apply get_put_eq|].
    split; [intros k Hk; by rewrite get_put_ne|].
    cbn zeta. split; [|split; [|split]].
    + intros k v Hne Hk Hv. apply elem_of_app. left. apply Heq.
      exists k, v. by rewrite Hwanted.
    + intros group [Hin|Hin]%elem_of_app.
      * left. apply Heq in Hin as (k & v & Hk & Hv & ->).
        exists k, v. by rewrite (Hfiled k v Hk).
      * right. by apply list_elem_of_singleton in Hin as ->.
    + intros Hkeeps v conditionType [Hin|Hin]%elem_of_app.
      * by apply (Hnoproto Hkeeps v conditionType).
      * apply list_elem_of_singleton in Hin. discriminate Hin.
    + intros _. by rewrite last_snoc.
  - injection H as <-. subst params1.
    exists eqFilters. do 3 (split; [done|]). split; [by apply get_put_eq|].
    split; [intros k Hk; by rewrite get_put_ne|].
    cbn zeta. split; [|split; [|split; [|done]]].
    + intros k v Hne Hk Hv. apply Heq. exists k, v. by rewrite Hwanted.
    + intros group Hin. left. apply Heq in Hin as (k & v & Hk & Hv & ->).
      exists k, v. by rewrite (Hfiled k v Hk).
    + exact Hnoproto.
Qed.

Lemma productsFilters_sends_truthy_filters_witness :
  productsFilters sample_products_params
  = Ok (VObj [("filters",
               arr [filter_group (VStr "color") (VStr "blue") (VStr "eq");
                    filter_group (VStr "category_id") (VNum 4) (VStr "eq")]);
              ("categoryId", VNum 4)]) /\
  exists filters categoryId skus groups,
    get_prop sample_products_params "filters" = Ok filters /\
    get_prop sample_products_params "categoryId" = Ok categoryId /\
    get_prop sample_products_params "skus" = Ok skus /\
    get_prop
      (VObj [("filters",
              arr [filter_group (VStr "color") (VStr "blue") (VStr "eq");
                   filter_group (VStr "category_id") (VNum 4) (VStr "eq")]);
             ("categoryId", VNum 4)]) "filters" = Ok (arr groups).
Proof.
  split; [reflexivity|].
  destruct (productsFilters_sends_truthy_filters sample_products_params
              _ eq_refl)
    as (filters & categoryId & skus & groups & H1 & H2 & H3 & H4 & _).
  by exists filters, categoryId, skus, groups.
Defined.

(** ** Fetching more products *)

Lemma obj_set_new {A} k (x : A) o :
  k ∉ map fst o -> obj_set k x o = o ++ [(k, x)].
Proof.
  induction o as [|[k' v] o IH]; cbn [obj_set map fst app]; [done|].
  intros Hk. apply not_elem_of_cons in Hk as [Hne Hk].
  destruct (String.eqb_spec k k'); [done|]. by rewrite IH.
Qed.

Lemma assign_fresh (o : props value) : forall acc : props value,
  NoDup (map fst acc ++ map fst o) ->
  foldl (fun acc '(k, x) => obj_set k x acc) acc o = acc ++ o.
Proof.
  induction o as [|[k v] o IH]; intros acc Hnd; cbn [foldl].
  - by rewrite app_nil_r.
  - cbn [map fst] in Hnd.
    rewrite obj_set_new.
    + rewrite IH; [by rewrite <- app_assoc|].
      rewrite map_app. cbn [map fst]. by rewrite <- app_assoc.
    + apply NoDup_app in Hnd as (_ & Hdisjoint & _).
      intros Hk. apply (Hdisjoint k Hk). by left.
Qed.

(** An object spread copies an object whose keys are all different. *)
Lemma assign_copy o : NoDup (map fst o) -> assign [] (VObj o) = o.
Proof. intros Hnd. unfold assign. cbn [spread]. by rewrite assign_fresh. Qed.

(** X25.  [updateQuery] of [fetchMore] returns the previous result when
    nothing was fetched.  Otherwise the products of the result hold the
    previous items followed by the items fetched, and a copy of the
    pagination fetched; the other properties of the previous result are
    kept. *)
Theorem updateQuery_appends_items :
  forall prev options fetchMoreResult,
    get_prop options "fetchMoreResult" = Ok fetchMoreResult ->
    (truthy fetchMoreResult = false -> updateQuery prev options = Ok prev) /\
    (truthy fetchMoreResult = true ->
     forall result,
       updateQuery prev options = Ok result ->
       exists prevProducts prevItems moreProducts moreItems pagination
              products shown fetched,
         get_prop prev "products" = Ok prevProducts /\
         get_prop prevProducts "items" = Ok prevItems /\
         iterate prevItems = Ok shown /\
         get_prop fetchMoreResult "products" = Ok moreProducts /\
         get_prop moreProducts "items" = Ok moreItems /\
         iterate moreItems = Ok fetched /\
         get_prop moreProducts "pagination" = Ok pagination /\
         get_prop result "products" = Ok products /\
         get_prop products "items" = Ok (arr (shown ++ fetched)) /\
         get_prop products "pagination" = Ok (VObj (assign [] pagination)) /\
         (forall fields k,
            prev = VObj fields -> NoDup (map fst fields) ->
            k <> "products" ->
            get_prop result k = get_prop prev k) /\
         (forall fields k,
            prevProducts = VObj fields -> NoDup (map fst fields) ->
            k <> "items" -> k <> "pagination" ->
            get_prop products k = get_prop prevProducts k)).
Proof.
  intros prev options fetchMoreResult Hmore. unfold updateQuery.
  rewrite Hmore. cbn [bind outcome_monad]. split; intros ->; [done|].
  cbn [negb]. intros result H.
  bound H. rename x into prevProducts, E into HprevProducts.
  bound H. rename x into prevItems, E into HprevItems.
  bound H. rename x into shown, E into Hshown.
  bound H. rename x into moreProducts, E into HmoreProducts.
  bound H. rename x into moreItems, E into HmoreItems.
  bound H. rename x into fetched, E into Hfetched.
  bound H. rename x into pagination, E into Hpagination.
  injection H as <-.
  exists prevProducts, prevItems, moreProducts, moreItems, pagination.
  exists (VObj (obj_set "pagination" (VObj (assign [] pagination))
                  (obj_set "items" (arr (shown ++ fetched))
                     (assign [] prevProducts)))).
  exists shown, fetched. do 7 (split; [done|]).
  split.
  { cbn [get_prop assign spread foldl]. unfold prop.
    by rewrite obj_get_set_eq. }
  split.
  { cbn [get_prop]. unfold prop.
    by rewrite obj_get_set_ne, obj_get_set_eq. }
  split.
  { cbn [get_prop]. unfold prop. by rewrite obj_get_set_eq. }
  split.
  - intros fields k -> Hnd Hk. rewrite assign_copy by done.
    cbn [get_prop assign spread foldl]. unfold prop.
    by rewrite obj_get_set_ne.
  - intros fields k -> Hnd Hk1 Hk2. rewrite assign_copy by done.
    cbn [get_prop]. unfold prop. by rewrite !obj_get_set_ne.
Qed.

Lemma updateQuery_appends_items_witness :
  updateQuery (products_page [1; 2] 1 (VNum 2))
    (VObj [("fetchMoreResult", products_page [3] 2 VNull)])
  = Ok (products_page [1; 2; 3] 2 VNull) /\
  updateQuery (products_page [1; 2] 1 (VNum 2)) (VObj [])
  = Ok (products_page [1; 2] 1 (VNum 2)).
Proof.
  split; [reflexivity|].
  by apply (updateQuery_appends_items (products_page [1; 2] 1 (VNum 2))
              (VObj []) VUndef).
Defined.

(** ** Addresses of an order *)

(** What [prepareAddressForOrder] removes and what it keeps. *)
Lemma prepareAddressForOrder_removes address :
  has (prepareAddressForOrder address) "id" = false /\
  has (prepareAddressForOrder address) "defaultBilling" = false /\
  has (prepareAddressForOrder address) "defaultShipping" = false.
Proof.
  unfold prepareAddressForOrder. cbn [has]. split; [|split].
  - by rewrite obj_get_del_eq.
  - rewrite !obj_get_del_ne by done. by rewrite obj_get_del_eq.
  - rewrite obj_get_del_ne by done. by rewrite obj_get_del_eq.
Qed.

Lemma prepareAddressForOrder_keeps fields k :
  NoDup (map fst fields) ->
  k <> "id" -> k <> "defaultBilling" -> k <> "defaultShipping" ->
  get_prop (prepareAddressForOrder (VObj fields)) k = get_prop (VObj fields) k.
Proof.
  intros Hnd H1 H2 H3. unfold prepareAddressForOrder.
  rewrite assign_copy by done. cbn [get_prop]. unfold prop.
  by rewrite !obj_get_del_ne.
Qed.

(** X26.  [setShipping] posts the input as [addressInformation] to
    [/shipping-information] under the cart path, with the billing and the
    shipping address replaced by copies that have no [id],
    [defaultBilling] or [defaultShipping] and are the addresses given in
    every other property. *)
Theorem setShipping_sends_prepared_addresses :
  forall backend convertKeys args input billingAddress shippingAddress c w,
    get_prop args "input" = Ok input ->
    get_prop input "billingAddress" = Ok billingAddress ->
    get_prop input "shippingAddress" = Ok shippingAddress ->
    Session.cart (session w) = Some c ->
    truthy (quoteId c) = true ->
    exists information billing shipping,
      (setShipping backend convertKeys args w).2
      = {| session := session w; saves := saves w;
           requests :=
             {| method := POST;
                path := (if truthy (token_of
                                      (Session.customerToken (session w)))
                         then "/carts/mine"
                         else "/guest-carts/" +:+ to_string (quoteId c))
                        +:+ "/shipping-information";
                payload :=
                  VObj [("addressInformation", VObj information)];
                context := VUndef |} :: requests w |} /\
      obj_get "billingAddress" information = Some billing /\
      obj_get "shippingAddress" information = Some shipping /\
      (forall k,
         k = "id" \/ k = "defaultBilling" \/ k = "defaultShipping" ->
         has billing k = false /\ has shipping k = false) /\
      (forall fields k,
         billingAddress = VObj fields -> NoDup (map fst fields) ->
         k <> "id" -> k <> "defaultBilling" -> k <> "defaultShipping" ->
         get_prop billing k = get_prop billingAddress k) /\
      (forall fields k,
         shippingAddress = VObj fields -> NoDup (map fst fields) ->
         k <> "id" -> k <> "defaultBilling" -> k <> "defaultShipping" ->
         get_prop shipping k = get_prop shippingAddress k).
Proof.
  intros backend convertKeys args input billingAddress shippingAddress c w
    Hinput Hbilling Hshipping Hc Hq.
  exists (obj_set "shippingAddress" (prepareAddressForOrder shippingAddress)
            (obj_set "billingAddress" (prepareAddressForOrder billingAddress)
               (assign [] input))),
    (prepareAddressForOrder billingAddress),
    (prepareAddressForOrder shippingAddress).
  split; [|split; [|split; [|split; [|split]]]].
  - unfold setShipping. rewrite bind_M. unfold lift at 1. rewrite Hinput.
    rewrite bind_M. unfold lift at 1. rewrite Hbilling.
    rewrite bind_M. unfold lift at 1. rewrite Hshipping.
    rewrite bind_M, (performCartAction_run _ _ _ _ _ _ c Hc Hq). cbn zeta.
    destruct (bind (backend _ _) _) as [response|]; [|done].
    unfold lift. by destruct (get_prop response "data").
  - by rewrite obj_get_set_ne, obj_get_set_eq.
  - by rewrite obj_get_set_eq.
  - intros k Hk.
    destruct (prepareAddressForOrder_removes billingAddress) as (? & ? & ?).
    destruct (prepareAddressForOrder_removes shippingAddress) as (? & ? & ?).
    by destruct Hk as [->|[->| ->]].
  - intros fields k -> Hnd. by apply prepareAddressForOrder_keeps.
  - intros fields k -> Hnd. by apply prepareAddressForOrder_keeps.
Qed.

Lemma setShipping_sends_prepared_addresses_witness :
  exists information billing shipping,
    (setShipping backend_down camelCase_already
       (VObj [("input",
               VObj [("billingAddress",
                      VObj [("id", VNum 7); ("city", VStr "Warszawa")]);
                     ("shippingAddress",
                      VObj [("defaultShipping", VBool true);
                            ("city", VStr "Krakow")]);
                     ("shippingMethodCode", VStr "flatrate")])])
       (world_of (guest_session (VStr "q1")))).2
    = {| session := guest_session (VStr "q1"); saves := 0;
         requests :=
           [{| method := POST;
               path := "/guest-carts/q1/shipping-information";
               payload := VObj [("addressInformation", VObj information)];
               context := VUndef |}] |} /\
    obj_get "billingAddress" information = Some billing /\
    obj_get "shippingAddress" information = Some shipping /\
    has billing "id" = false /\
    get_prop billing "city" = Ok (VStr "Warszawa").
Proof.
  destruct (setShipping_sends_prepared_addresses backend_down
              camelCase_already
              (VObj [("input",
                      VObj [("billingAddress",
                             VObj [("id", VNum 7);
                                   ("city", VStr "Warszawa")]);
                            ("shippingAddress",
                             VObj [("defaultShipping", VBool true);
                                   ("city", VStr "Krakow")]);
                            ("shippingMethodCode", VStr "flatrate")])])
              _ _ _ {| quoteId := VStr "q1" |}
              (world_of (guest_session (VStr "q1")))
              eq_refl eq_refl eq_refl eq_refl eq_refl)
    as (information & billing & shipping & Hsent & Hb & Hs & Hnone & Hkeep
        & _).
  exists information, billing, shipping. do 3 (split; [done|]). split.
  - by destruct (Hnone "id" (or_introl eq_refl)).
  - rewrite (Hkeep _ "city" eq_refl); [done| |done..]. cbn [map fst].
    apply (bool_decide_unpack (NoDup ["id"; "city"])). by vm_compute.
Defined.

(** ** signUp *)

Lemma signUp_catch_throws e w : exists e', signUp_catch e w = (Throw e', w).
Proof.
  unfold signUp_catch. rewrite bind_M. unfold lift.
  destruct (get_prop e "statusCode") as [statusCode|]; [|by eexists].
  destruct (strict_eq statusCode (VNum 400)); [|by eexists].
  rewrite bind_M. destruct (set_prop e "userMessage" _) as [e1|]; [|by eexists].
  rewrite bind_M. destruct (set_prop e1 "noLogging" _); by eexists.
Qed.

(** X27.  [signUp] posts the new customer, with the guest quote id, to
    [/customers].  When that fails it throws and nothing else happens.
    When it succeeds, [signUp] returns [true] and leaves the session as
    it was unless [autoSignIn] is truthy; then it goes on as [signIn]
    with the email and the password, and an error of that sign-in is
    outside the [catch] block of [signUp]: a status code 400 of the token
    request is not marked as shown to the user. *)
Theorem signUp_creates_then_signs_in :
  forall backend convertKeys Date_now expirationTime_after args input
         email firstname lastname password autoSignIn w,
    get_prop args "input" = Ok input ->
    get_prop input "email" = Ok email ->
    get_prop input "firstname" = Ok firstname ->
    get_prop input "lastname" = Ok lastname ->
    get_prop input "password" = Ok password ->
    get_prop input "autoSignIn" = Ok autoSignIn ->
    let quote := or_default (quoteId_of (Session.cart (session w))) VNull in
    let request :=
      {| method := POST; path := "/customers";
         payload :=
           VObj [("customer",
                  VObj [("email", email); ("firstname", firstname);
                        ("lastname", lastname);
                        ("extension_attributes",
                         VObj [("guest_quote_id", quote)])]);
                 ("password", password)];
         context := VUndef |} in
    let tokenRequest :=
      {| method := POST; path := "/integration/customer/token";
         payload := VObj [("username", email); ("password", password);
                          ("guest_quote_id", quote)];
         context := VObj [("skipAuth", VBool true)] |} in
    let created :=
      {| session := session w; saves := saves w;
         requests := request :: requests w |} in
    let result :=
      signUp backend convertKeys Date_now expirationTime_after args w in
    (forall e,
       backend (requests w) request = Throw e ->
       exists e', result = (Throw e', created)) /\
    (forall response,
       backend (requests w) request = Ok response ->
       (truthy autoSignIn = false -> result = (Ok (VBool true), created)) /\
       (truthy autoSignIn = true ->
        result
        = signIn backend convertKeys Date_now expirationTime_after
            (VObj [("input", VObj [("email", email);
                                   ("password", password)])]) created /\
        forall message,
          backend (request :: requests w) tokenRequest
          = Throw (backend_error 400 message) ->
          result
          = (Throw (backend_error 400 message),
             {| session := session w; saves := saves w;
                requests := tokenRequest :: request :: requests w |}) /\
          user_visible (backend_error 400 message) = false)).
Proof.
  intros backend convertKeys Date_now expirationTime_after args input
    email firstname lastname password autoSignIn w Hinput Hemail Hfirstname
    Hlastname Hpassword HautoSignIn quote request tokenRequest created result.
  assert (Hrun :
    result
    = (try_catch (rest backend POST "/customers" (payload request) VUndef ;;
                  ret tt) signUp_catch ;;
       if truthy autoSignIn then
         signIn backend convertKeys Date_now expirationTime_after
           (VObj [("input", VObj [("email", email);
                                  ("password", password)])])
       else ret (VBool true)) w).
  { subst result. unfold signUp. rewrite bind_M. unfold lift at 1.
    rewrite Hinput. rewrite bind_M. unfold lift at 1. rewrite Hemail.
    rewrite bind_M. unfold lift at 1. rewrite Hfirstname.
    rewrite bind_M. unfold lift at 1. rewrite Hlastname.
    rewrite bind_M. unfold lift at 1. rewrite Hpassword.
    rewrite bind_M. unfold lift at 1. rewrite HautoSignIn.
    by rewrite bind_M. }
  assert (Hfailed : forall e, backend (requests w) request = Throw e ->
                              exists e', result = (Throw e', created)).
  { intros e He. rewrite Hrun, bind_M. unfold try_catch.
    rewrite bind_M, rest_run.
    change {| method := POST; path := "/customers"; payload := _;
              context := VUndef |} with request.
    rewrite He. fold created.
    destruct (signUp_catch_throws e created) as [e' ->]. by exists e'. }
  assert (Hcreated :
    forall response,
      backend (requests w) request = Ok response ->
      result
      = if truthy autoSignIn
        then signIn backend convertKeys Date_now expirationTime_after
               (VObj [("input", VObj [("email", email);
                                      ("password", password)])]) created
        else (Ok (VBool true), created)).
  { intros response Hresponse. rewrite Hrun, bind_M. unfold try_catch.
    rewrite bind_M, rest_run.
    change {| method := POST; path := "/customers"; payload := _;
              context := VUndef |} with request.
    rewrite Hresponse. by destruct (truthy autoSignIn). }
  clear Hrun. split.
  - exact Hfailed.
  - intros response Hresponse. rewrite (Hcreated response Hresponse).
    split; intros ->; [done|]. split; [done|]. intros message Hfail.
    split; [|done].
    unfold signIn. rewrite bind_M. unfold lift at 1.
    change (get_prop (VObj [("input", VObj [("email", email);
                                            ("password", password)])])
              "input")
      with (Ok (VObj [("email", email); ("password", password)])).
    cbn beta iota. rewrite bind_M. cbn [getSession]. unfold try_catch.
    rewrite bind_M. unfold lift at 1.
    change (get_prop (VObj [("email", email); ("password", password)])
              "email") with (Ok email).
    cbn beta iota. rewrite bind_M. unfold lift at 1.
    change (get_prop (VObj [("email", email); ("password", password)])
              "password") with (Ok password).
    cbn beta iota. rewrite bind_M, rest_run. cbn [session requests created].
    fold quote. fold tokenRequest. by rewrite Hfail.
Qed.

Lemma signUp_creates_then_signs_in_witness :
  signUp backend_down camelCase_already VNull (fun _ _ => VNull)
    (VObj [("input", VObj [("email", VStr "a@b.c");
                           ("password", VStr "secret")])])
    (world_of new_session)
  = (Throw (backend_error 503 "Service Unavailable"),
     {| session := new_session; saves := 0;
        requests :=
          [{| method := POST; path := "/customers";
              payload :=
                VObj [("customer",
                       VObj [("email", VStr "a@b.c"); ("firstname", VUndef);
                             ("lastname", VUndef);
                             ("extension_attributes",
                              VObj [("guest_quote_id", VNull)])]);
                      ("password", VStr "secret")];
              context := VUndef |}] |}) /\
  signUp (backend_constant VNull) camelCase_already VNull (fun _ _ => VNull)
    (VObj [("input", VObj [("email", VStr "a@b.c");
                           ("password", VStr "secret")])])
    (world_of new_session)
  = (Ok (VBool true),
     {| session := new_session; saves := 0;
        requests :=
          [{| method := POST; path := "/customers";
              payload :=
                VObj [("customer",
                       VObj [("email", VStr "a@b.c"); ("firstname", VUndef);
                             ("lastname", VUndef);
                             ("extension_attributes",
                              VObj [("guest_quote_id", VNull)])]);
                      ("password", VStr "secret")];
              context := VUndef |}] |}).
Proof.
  split; [reflexivity|].
  destruct (signUp_creates_then_signs_in (backend_constant VNull)
              camelCase_already VNull (fun _ _ => VNull)
              (VObj [("input", VObj [("email", VStr "a@b.c");
                                     ("password", VStr "secret")])])
              _ (VStr "a@b.c") VUndef VUndef (VStr "secret") VUndef
              (world_of new_session)
              eq_refl eq_refl eq_refl eq_refl eq_refl eq_refl) as [_ Hcreated].
  destruct (Hcreated (VObj [("data", VNull)]) eq_refl) as [Hdone _].
  by apply Hdone.
Defined.

(** ** Handlers that need a customer or a quote *)

(** X28.  Handlers of customer data refuse to work without a customer
    token, and handlers of coupons without a quote id: each throws its
    own error and leaves the world as it was, so that nothing is sent to
    the backend.  [order] refuses in the same way without an order id. *)
Theorem handlers_refuse_without_token_or_quote :
  forall backend convertKeys w,
    let token := token_of (Session.customerToken (session w)) in
    let quote := quoteId_of (Session.cart (session w)) in
    (truthy token = false ->
     (forall params query page perPage,
        get_prop params "query" = Ok query ->
        get_prop query "page" = Ok page ->
        get_prop query "perPage" = Ok perPage ->
        orders backend convertKeys params w
        = (Throw (new_Error
                    "Trying to fetch customer orders without valid customer token"),
           w)) /\
     (forall params id,
        get_prop params "id" = Ok id ->
        order backend params w
        = (Throw (new_Error "Failed to load an order."), w)) /\
     (forall args input password currentPassword,
        get_prop args "input" = Ok input ->
        get_prop input "password" = Ok password ->
        get_prop input "currentPassword" = Ok currentPassword ->
        changeCustomerPassword backend args w
        = (Throw (new_Error "You do not have an access to edit account data"),
           w))) /\
    (forall params id,
       get_prop params "id" = Ok id -> truthy id = false ->
       order backend params w
       = (Throw (new_Error "Failed to load an order."), w)) /\
    (truthy quote = false ->
     truthy token = true \/ defined (Session.cart (session w)) = true ->
     (forall args input,
        get_prop args "input" = Ok input ->
        applyCoupon backend args w
        = (Throw (new_Error
                    "Trying to apply coupon without quoteId in session"),
           w)) /\
     cancelCoupon backend w
     = (Throw (new_Error "Trying to remove coupon without quoteId in session"),
        w)).
Proof.
  intros backend convertKeys w token quote. split; [|split].
  - intros Htoken. split; [|split].
    + intros params query page perPage Hquery Hpage HperPage.
      unfold orders. rewrite bind_M. unfold lift at 1. rewrite Hquery.
      rewrite bind_M. unfold lift at 1. rewrite Hpage.
      rewrite bind_M. unfold lift at 1. rewrite HperPage.
      rewrite bind_M. cbn [getSession]. fold token. by rewrite Htoken.
    + intros params id Hid. unfold order. rewrite bind_M. unfold lift at 1.
      rewrite Hid. rewrite bind_M. cbn [getSession]. fold token.
      rewrite Htoken. by destruct (truthy id).
    + intros args input password currentPassword Hinput Hpassword Hcurrent.
      unfold changeCustomerPassword. rewrite bind_M. unfold lift at 1.
      rewrite Hinput. rewrite bind_M. unfold lift at 1. rewrite Hpassword.
      rewrite bind_M. unfold lift at 1. rewrite Hcurrent.
      rewrite bind_M. cbn [getSession]. fold token. by rewrite Htoken.
  - intros params id Hid Hfalsy. unfold order. rewrite bind_M.
    unfold lift at 1. rewrite Hid. rewrite bind_M. cbn [getSession].
    by rewrite Hfalsy.
  - intros Hquote Hsome.
    assert (Hpath : exists cartPath, getCartPath w = (Ok cartPath, w)).
    { unfold getCartPath. rewrite bind_M. cbn [getSession]. fold token.
      destruct (truthy token); cbn [negb andb]; [by eexists|].
      destruct Hsome as [|Hsome]; [done|]. rewrite Hsome. by eexists. }
    destruct Hpath as [cartPath Hpath]. split.
    + intros args input Hinput. unfold applyCoupon. rewrite bind_M.
      unfold lift at 1. rewrite Hinput. rewrite bind_M. cbn [getSession].
      rewrite bind_M, Hpath. fold quote. by rewrite Hquote.
    + unfold cancelCoupon. rewrite bind_M. cbn [getSession].
      rewrite bind_M, Hpath. fold quote. by rewrite Hquote.
Qed.

Lemma handlers_refuse_without_token_or_quote_witness :
  order backend_down (VObj [("id", VNum 1001)]) (world_of new_session)
  = (Throw (new_Error "Failed to load an order."), world_of new_session) /\
  cancelCoupon backend_down (world_of customer_session)
  = (Throw (new_Error "Trying to remove coupon without quoteId in session"),
     world_of customer_session).
Proof.
  destruct (handlers_refuse_without_token_or_quote backend_down
              camelCase_already (world_of new_session))
    as ((_ & Horder & _) & _); [reflexivity|].
  destruct (handlers_refuse_without_token_or_quote backend_down
              camelCase_already (world_of customer_session))
    as (_ & _ & Hcoupon).
  split; [by apply (Horder _ (VNum 1001))|].
  apply Hcoupon; [reflexivity|by left].
Defined.

(** ** customer *)

Lemma obj_get_None {A} k (o : props A) :
  obj_get k o = None <-> k ∉ map fst o.
Proof.
  induction o as [|[k' v] o IH]; cbn [obj_get map fst].
  - split; [intros _ H; by apply elem_of_nil in H|done].
  - rewrite not_elem_of_cons. destruct (String.eqb_spec k k'); [|tauto].
    split; [done|tauto].
Qed.

Lemma obj_set_NoDup {A} k (x : A) o :
  NoDup (map fst o) -> NoDup (map fst (obj_set k x o)).
Proof.
  induction o as [|[k' v] o IH]; cbn [obj_set map fst]; intros Hnd.
  - repeat constructor. intros H. by apply elem_of_nil in H.
  - apply NoDup_cons in Hnd as [Hk' Hnd].
    destruct (String.eqb_spec k k') as [->|Hne]; cbn [map fst].
    + by apply NoDup_cons.
    + apply NoDup_cons. split; [|by apply IH].
      intros Hin. apply Hk'. apply obj_get_None in Hk'.
      apply list_elem_of_fmap in Hin as ([k0 v0] & -> & Hin).
      cbn [fst]. apply list_elem_of_fmap.
      assert (Hget : obj_get k0 (obj_set k x o) <> None).
      { intros Hnone. apply obj_get_None in Hnone. apply Hnone.
        apply list_elem_of_fmap. by exists (k0, v0). }
      rewrite obj_get_set_ne in Hget by done.
      destruct (obj_get k0 o) as [v1|] eqn:Hv1; [|done].
      assert (Hin' : k0 ∈ map fst o).
      { destruct (decide (k0 ∈ map fst o)) as [|Hno]; [done|].
        apply obj_get_None in Hno. congruence. }
      apply list_elem_of_fmap in Hin' as ([k1 v2] & -> & ?).
      by exists (k1, v2).
Qed.

Lemma obj_del_NoDup {A} k (o : props A) :
  NoDup (map fst o) -> NoDup (map fst (obj_del k o)).
Proof.
  induction o as [|[k' v] o IH]; cbn [obj_del map fst]; intros Hnd; [done|].
  apply NoDup_cons in Hnd as [Hk' Hnd].
  destruct (String.eqb_spec k k') as [->|Hne]; [by apply IH|].
  cbn [map fst]. apply NoDup_cons. split; [|by apply IH].
  intros Hin. apply Hk'.
  destruct (decide (k' ∈ map fst o)) as [|Hno]; [done|].
  apply obj_get_None in Hno.
  assert (Hget : obj_get k' (obj_del k o) = None)
    by (by rewrite obj_get_del_ne).
  by apply obj_get_None in Hget.
Qed.

(** An object spread over properties [o]: the properties spread win. *)
Lemma obj_get_assign k (o : props value) v :
  NoDup (map fst (spread v)) ->
  obj_get k (assign o v)
  = match obj_get k (spread v) with
    | Some x => Some x
    | None => obj_get k o
    end.
Proof.
  unfold assign. generalize (spread v). intros l. revert o.
  induction l as [|[k' x] l IH]; intros o Hnd; cbn [foldl obj_get]; [done|].
  cbn [map fst] in Hnd. apply NoDup_cons in Hnd as [Hk' Hnd].
  rewrite IH by done. destruct (String.eqb_spec k k') as [->|Hne].
  - apply obj_get_None in Hk'. rewrite Hk'. apply obj_get_set_eq.
  - by rewrite obj_get_set_ne.
Qed.

(** X29.  What [customer] returns for a signed-in customer whose data
    has an array of addresses: one [GET] of [/customers/me] is sent; the
    customer has the converted addresses and the other properties of the
    data, but for the extension attributes, whose properties are moved
    into the customer and win over properties of the same name.  (The
    objects of the data have each key once.) *)
Theorem customer_flattens_extension_attributes :
  forall backend convertKeys w response data fields addresses named
         converted,
    truthy (token_of (Session.customerToken (session w))) = true ->
    let request :=
      {| method := GET; path := "/customers/me"; payload := VUndef;
         context := VUndef |} in
    backend (requests w) request = Ok response ->
    get_prop response "data" = Ok data ->
    convertKeys data = VObj fields ->
    NoDup (map fst fields) ->
    obj_get "addresses" fields = Some (VArr addresses named) ->
    mapM (convertAddressData convertKeys) addresses = Ok converted ->
    let extensionAttributes :=
      or_default (prop fields "extensionAttributes") (VObj []) in
    NoDup (map fst (spread extensionAttributes)) ->
    exists result,
      customer backend convertKeys w
      = (Ok (VObj result),
         {| session := session w; saves := saves w;
            requests := request :: requests w |}) /\
      (forall k x,
         obj_get k (spread extensionAttributes) = Some x ->
         obj_get k result = Some x) /\
      (forall k,
         obj_get k (spread extensionAttributes) = None ->
         obj_get k result
         = if String.eqb k "addresses" then Some (arr converted)
           else if String.eqb k "extensionAttributes"
                   && negb (isEmpty extensionAttributes)
           then None
           else obj_get k fields).
Proof.
  intros backend convertKeys w response data fields addresses named
    converted Htoken request Hresponse Hdata Hfields Hnd Haddresses Hmap
    extensionAttributes Hndext.
  exists (assign
            (assign []
               (if isEmpty extensionAttributes
                then VObj (obj_set "addresses" (arr converted) fields)
                else VObj (obj_del "extensionAttributes"
                             (obj_set "addresses" (arr converted) fields))))
            extensionAttributes).
  split; [|split].
  - unfold customer. rewrite bind_M. cbn [getSession]. rewrite Htoken.
    cbn [negb]. rewrite bind_M, rest_run. fold request. rewrite Hresponse.
    rewrite bind_M. unfold lift at 1. rewrite Hdata. rewrite Hfields.
    rewrite bind_M. unfold lift at 1. cbn [get_prop]. unfold prop at 1.
    rewrite Haddresses. cbn [default from_option id].
    rewrite bind_M. unfold lift at 1. rewrite Hmap.
    rewrite bind_M. unfold lift at 1. cbn [set_prop put_prop].
    rewrite bind_M. unfold lift at 1. cbn [get_prop].
    assert (Hext : prop (obj_set "addresses" (arr converted) fields)
                     "extensionAttributes"
                   = prop fields "extensionAttributes").
    { unfold prop. by rewrite obj_get_set_ne. }
    rewrite Hext. fold extensionAttributes. rewrite bind_M.
    by destruct (isEmpty extensionAttributes).
  - intros k x Hk. destruct (isEmpty extensionAttributes);
      cbn [negb]; rewrite obj_get_assign, Hk; done.
  - intros k Hk.
    assert (Hcopy :
      forall o, NoDup (map fst o) ->
                obj_get k (assign (assign [] (VObj o)) extensionAttributes)
                = obj_get k o).
    { intros o Hno. rewrite obj_get_assign, Hk by done.
      by rewrite assign_copy. }
    destruct (isEmpty extensionAttributes); cbn [negb andb].
    + rewrite andb_false_r, Hcopy by (by apply obj_set_NoDup).
      destruct (String.eqb_spec k "addresses") as [->|Hne].
      * apply obj_get_set_eq.
      * by rewrite obj_get_set_ne.
    + rewrite andb_true_r, Hcopy
        by (by apply obj_del_NoDup, obj_set_NoDup).
      destruct (String.eqb_spec k "addresses") as [->|Hne].
      * rewrite obj_get_del_ne by done. apply obj_get_set_eq.
      * destruct (String.eqb_spec k "extensionAttributes") as [->|Hne'].
        -- apply obj_get_del_eq.
        -- by rewrite obj_get_del_ne, obj_get_set_ne.
Qed.

Lemma customer_flattens_extension_attributes_witness :
  exists result,
    customer
      (backend_constant
         (VObj [("id", VNum 1); ("addresses", arr []);
                ("extensionAttributes",
                 VObj [("newsletterSubscriber", VBool true)])]))
      camelCase_already (world_of customer_session)
    = (Ok (VObj result),
       {| session := customer_session; saves := 0;
          requests := [{| method := GET; path := "/customers/me";
                          payload := VUndef; context := VUndef |}] |}) /\
    obj_get "newsletterSubscriber" result = Some (VBool true) /\
    obj_get "extensionAttributes" result = None.
Proof.
  destruct (customer_flattens_extension_attributes
              (backend_constant
                 (VObj [("id", VNum 1); ("addresses", arr []);
                        ("extensionAttributes",
                         VObj [("newsletterSubscriber", VBool true)])]))
              camelCase_already (world_of customer_session)
              _ _ _ [] [] [] eq_refl eq_refl eq_refl eq_refl)
    as (result & Hrun & Hext & Hrest).
  - apply (bool_decide_unpack
             (NoDup ["id"; "addresses"; "extensionAttributes"])).
    by vm_compute.
  - reflexivity.
  - reflexivity.
  - apply (bool_decide_unpack (NoDup ["newsletterSubscriber"])).
    by vm_compute.
  - exists result. split; [done|]. split.
    + by apply Hext.
    + by rewrite Hrest.
Defined.

(** ** estimateShippingMethods *)

Lemma mapM_set_currency currency methods :
  Forall (fun method => isObject method = true) methods ->
  mapM (fun method => set_prop method "currency" currency) methods
  = Ok (map (fun method => put_prop method "currency" currency) methods).
Proof.
  induction 1 as [|method methods Hobj _ IH]; cbn [mapM map]; [done|].
  by rewrite set_prop_object, IH.
Qed.

(** X30.  [estimateShippingMethods] posts a copy of the input to
    [/estimate-shipping-methods] under the cart path, with the address
    stripped of [id], [defaultBilling] and [defaultShipping].  When the
    backend answers with an array of methods, each method returned
    carries the currency of the session; an answer that is no array makes
    the handler throw a [TypeError] after the request. *)
Theorem estimateShippingMethods_adds_currency :
  forall backend convertKeys args input address c w response data,
    get_prop args "input" = Ok input ->
    get_prop input "address" = Ok address ->
    isObject input = true ->
    Session.cart (session w) = Some c ->
    truthy (quoteId c) = true ->
    let sent := put_prop input "address" (prepareAddressForOrder address) in
    let request :=
      {| method := POST;
         path := (if truthy (token_of (Session.customerToken (session w)))
                  then "/carts/mine"
                  else "/guest-carts/" +:+ to_string (quoteId c))
                 +:+ "/estimate-shipping-methods";
         payload := VObj (assign [] sent);
         context := VUndef |} in
    backend (requests w) request = Ok response ->
    isObject response = true ->
    get_prop response "data" = Ok data ->
    let result := estimateShippingMethods backend convertKeys args w in
    let w1 := {| session := session w; saves := saves w;
                 requests := request :: requests w |} in
    get_prop sent "address" = Ok (prepareAddressForOrder address) /\
    (forall methods named,
       convertKeys data = VArr methods named ->
       Forall (fun method => isObject method = true) methods ->
       result
       = (Ok (convertKeys
                (VArr (map (fun method =>
                              put_prop method "currency"
                                (Session.currency (session w)))
                         methods) named)), w1)) /\
    (isArray (convertKeys data) = false -> result = (Throw TypeError, w1)).
Proof.
  intros backend convertKeys args input address c w response data Hinput
    Haddress Hobj Hc Hq sent request Hresponse Hresp Hdata result w1.
  split; [by apply get_put_eq|].
  assert (Hrun :
    result
    = (data <- lift (get_prop
                       (if isObject (convertKeys data)
                        then with_data response (convertKeys data)
                        else put_prop response "data"
                               (VObj [("data", convertKeys data)]))
                       "data") ;;
       match data with
       | VArr methods named =>
           s <- getSession ;;
           methods <- lift (mapM (fun method =>
                                    set_prop method "currency"
                                      (Session.currency s))
                                 methods) ;;
           ret (convertKeys (VArr methods named))
       | _ => throw TypeError
       end) w1).
  { subst result. unfold estimateShippingMethods.
    rewrite bind_M. unfold lift at 1. rewrite Hinput.
    rewrite bind_M. unfold lift at 1. rewrite Haddress.
    rewrite bind_M. unfold lift at 1. rewrite set_prop_object by done.
    rewrite bind_M, (performCartAction_run _ _ _ _ _ _ c Hc Hq). cbn zeta.
    fold sent. fold request. rewrite Hresponse. cbn [bind outcome_monad].
    rewrite Hdata. cbn [bind outcome_monad]. fold w1.
    destruct (isObject (convertKeys data)); [done|].
    by rewrite set_prop_object. }
  rewrite Hrun. clear Hrun. split.
  - intros methods named Hmethods Hall. rewrite Hmethods. cbn [isObject].
    rewrite bind_M. unfold lift at 1. unfold with_data.
    rewrite get_put_eq by done. rewrite bind_M. cbn [getSession].
    rewrite bind_M. unfold lift at 1.
    by rewrite mapM_set_currency.
  - intros Hno. rewrite bind_M. unfold lift at 1.
    destruct (isObject (convertKeys data)) eqn:Hdataobj.
    + unfold with_data. rewrite get_put_eq by done.
      by destruct (convertKeys data).
    + by rewrite get_put_eq.
Qed.

Lemma estimateShippingMethods_adds_currency_witness :
  estimateShippingMethods
    (backend_constant (arr [VObj [("carrierCode", VStr "flatrate")]]))
    camelCase_already
    (VObj [("input",
            VObj [("address",
                   VObj [("id", VNum 7); ("city", VStr "Warszawa")])])])
    (world_of (guest_session (VStr "q1")))
  = (Ok (arr [VObj [("carrierCode", VStr "flatrate");
                    ("currency", VStr "EUR")]]),
     {| session := guest_session (VStr "q1"); saves := 0;
        requests :=
          [{| method := POST;
              path := "/guest-carts/q1/estimate-shipping-methods";
              payload := VObj [("address", VObj [("city", VStr "Warszawa")])];
              context := VUndef |}] |}).
Proof.
  destruct (estimateShippingMethods_adds_currency
              (backend_constant (arr [VObj [("carrierCode",
                                             VStr "flatrate")]]))
              camelCase_already
              (VObj [("input",
                      VObj [("address",
                             VObj [("id", VNum 7);
                                   ("city", VStr "Warszawa")])])])
              _ _ {| quoteId := VStr "q1" |}
              (world_of (guest_session (VStr "q1"))) _ _
              eq_refl eq_refl eq_refl eq_refl eq_refl eq_refl eq_refl eq_refl)
    as (_ & Hmethods & _).
  apply (Hmethods [VObj [("carrierCode", VStr "flatrate")]] []);
    [reflexivity|].
  by repeat constructor.
Defined.

(** ** Errors shown to the user *)

Lemma user_visible_marked v :
  isObject v = true ->
  user_visible (put_prop (put_prop v "userMessage" (VBool true))
                  "noLogging" (VBool true)) = true.
Proof.
  intros Hobj. unfold user_visible.
  rewrite get_put_ne by done. by rewrite get_put_eq.
Qed.

Lemma user_visible_put v k x :
  k <> "userMessage" -> user_visible (put_prop v k x) = user_visible v.
Proof. intros Hk. unfold user_visible. by rewrite get_put_ne. Qed.

(** The [catch] block of [addToCart] rethrows; it marks the error when
    the status code is 400 and the message begins as the stock message. *)
Lemma addToCart_catch_marks fields message w :
  prop fields "message" = VStr message ->
  exists e' w',
    addToCart_catch (VObj fields) w = (Throw e', w') /\
    user_visible e'
    = strict_eq (prop fields "statusCode") (VNum 400)
      && String.prefix "We don't have as many" message
      || user_visible (VObj fields).
Proof.
  intros Hmsg. unfold addToCart_catch. rewrite bind_M. unfold lift.
  cbn [get_prop].
  destruct (strict_eq (prop fields "statusCode") (VNum 400)); cbn [andb orb].
  - rewrite bind_M, Hmsg, bind_M. cbn [match_prefix].
    destruct (String.prefix "We don't have as many" message); cbn [orb].
    + do 2 eexists. split; [reflexivity|].
      by apply (user_visible_marked (put_prop (VObj fields) "code" _)).
    + by do 2 eexists.
  - rewrite bind_M, Hmsg, bind_M. cbn [match_prefix].
    destruct (String.prefix "No such entity with cartId" message).
    + do 2 eexists. split; [reflexivity|].
      by apply (user_visible_put (VObj fields)).
    + by do 2 eexists.
Qed.

(** A [catch] block that tests the status code only. *)
Lemma signIn_catch_marks fields w :
  exists e',
    signIn_catch (VObj fields) w = (Throw e', w) /\
    user_visible e'
    = strict_eq (prop fields "statusCode") (VNum 401)
      || user_visible (VObj fields).
Proof.
  unfold signIn_catch. rewrite bind_M. unfold lift. cbn [get_prop].
  destruct (strict_eq (prop fields "statusCode") (VNum 401)); cbn [orb].
  - eexists. split; [reflexivity|].
    by apply (user_visible_marked (VObj fields)).
  - by eexists.
Qed.

Lemma signUp_catch_marks fields w :
  exists e',
    signUp_catch (VObj fields) w = (Throw e', w) /\
    user_visible e'
    = strict_eq (prop fields "statusCode") (VNum 400)
      || user_visible (VObj fields).
Proof.
  unfold signUp_catch. rewrite bind_M. unfold lift. cbn [get_prop].
  destruct (strict_eq (prop fields "statusCode") (VNum 400)); cbn [orb].
  - eexists. split; [reflexivity|].
    by apply (user_visible_marked (VObj fields)).
  - by eexists.
Qed.

Lemma placeOrder_catch_marks fields w :
  exists e',
    placeOrder_catch (VObj fields) w = (Throw e', w) /\
    user_visible e'
    = strict_eq (prop fields "statusCode") (VNum 400)
      || user_visible (VObj fields).
Proof.
  unfold placeOrder_catch. rewrite bind_M. unfold lift. cbn [get_prop].
  destruct (strict_eq (prop fields "statusCode") (VNum 400)); cbn [orb].
  - eexists. split; [reflexivity|].
    by apply (user_visible_marked (VObj fields)).
  - by eexists.
Qed.

Lemma applyCoupon_catch_marks fields w :
  exists e',
    applyCoupon_catch (VObj fields) w = (Throw e', w) /\
    user_visible e'
    = strict_eq (prop fields "statusCode") (VNum 404)
      || user_visible (VObj fields).
Proof.
  unfold applyCoupon_catch. rewrite bind_M. unfold lift. cbn [get_prop].
  destruct (strict_eq (prop fields "statusCode") (VNum 404)); cbn [orb].
  - eexists. split; [reflexivity|].
    by apply (user_visible_marked (VObj fields)).
  - by eexists.
Qed.

Lemma changeCustomerPassword_catch_marks fields w :
  exists e',
    changeCustomerPassword_catch (VObj fields) w = (Throw e', w) /\
    user_visible e'
    = strict_eq (prop fields "statusCode") (VNum 401)
      || strict_eq (prop fields "statusCode") (VNum 503)
      || user_visible (VObj fields).
Proof.
  unfold changeCustomerPassword_catch. rewrite bind_M. unfold lift.
  cbn [get_prop].
  destruct (strict_eq (prop fields "statusCode") (VNum 401)
            || strict_eq (prop fields "statusCode") (VNum 503)); cbn [orb].
  - eexists. split; [reflexivity|].
    rewrite user_visible_put by done. unfold user_visible.
    cbn [put_prop get_prop]. unfold prop.
    by rewrite obj_get_del_ne, obj_get_set_eq.
  - by eexists.
Qed.

(** What [signUp] does once the customer is created. *)
Lemma signUp_created backend convertKeys Date_now expirationTime_after
  args input email firstname lastname password autoSignIn w response :
  get_prop args "input" = Ok input ->
  get_prop input "email" = Ok email ->
  get_prop input "firstname" = Ok firstname ->
  get_prop input "lastname" = Ok lastname ->
  get_prop input "password" = Ok password ->
  get_prop input "autoSignIn" = Ok autoSignIn ->
  let request :=
    {| method := POST; path := "/customers";
       payload :=
         VObj [("customer",
                VObj [("email", email); ("firstname", firstname);
                      ("lastname", lastname);
                      ("extension_attributes",
                       VObj [("guest_quote_id",
                              or_default
                                (quoteId_of (Session.cart (session w)))
                                VNull)])]);
               ("password", password)];
       context := VUndef |} in
  backend (requests w) request = Ok response ->
  signUp backend convertKeys Date_now expirationTime_after args w
  = (if truthy autoSignIn
     then signIn backend convertKeys Date_now expirationTime_after
            (VObj [("input", VObj [("email", email);
                                   ("password", password)])])
     else ret (VBool true))
      {| session := session w; saves := saves w;
         requests := request :: requests w |}.
Proof.
  intros Hinput Hemail Hfirst Hlast Hpassword Hauto request Hcreated.
  unfold signUp.
  rewrite bind_M. unfold lift at 1. rewrite Hinput.
  rewrite bind_M. unfold lift at 1. rewrite Hemail.
  rewrite bind_M. unfold lift at 1. rewrite Hfirst.
  rewrite bind_M. unfold lift at 1. rewrite Hlast.
  rewrite bind_M. unfold lift at 1. rewrite Hpassword.
  rewrite bind_M. unfold lift at 1. rewrite Hauto.
  rewrite bind_M. cbn [getSession]. cbn zeta.
  rewrite bind_M. unfold try_catch. rewrite bind_M, rest_run.
  fold request. by rewrite Hcreated.
Qed.

(** C1, as amended.  When the request of a handler fails with an error
    object, the handler throws, and whether the error it throws is marked
    as user-visible is decided as follows (an error that arrives marked
    stays marked).  [addToCart] marks it when the status code is 400 and
    the message begins with "We don't have as many": here the message
    decides.  The other handlers decide by the status code alone, whatever
    the message: [signIn] marks 401, [signUp] marks 400 of the request
    that creates the customer (and, for the sign-in that may follow, what
    [signIn] marks), [placeOrder] marks 400, [applyCoupon] marks 404 and
    [changeCustomerPassword] marks 401 and 503. *)
Theorem user_visible_by_status_or_message :
  forall backend convertKeys parseFloat Date_now expirationTime_after w
         fields,
    let e := VObj fields in
    let statusCode := prop fields "statusCode" in
    let sent request :=
      {| session := session w; saves := saves w;
         requests := request :: requests w |} in
    let quote := or_default (quoteId_of (Session.cart (session w))) VNull in
    let tokenRequest email password quote :=
      {| method := POST; path := "/integration/customer/token";
         payload := VObj [("username", email); ("password", password);
                          ("guest_quote_id", quote)];
         context := VObj [("skipAuth", VBool true)] |} in
    let cartPath c :=
      if truthy (token_of (Session.customerToken (session w)))
      then "/carts/mine"
      else "/guest-carts/" +:+ to_string (quoteId c) in
    (forall args request w1 message,
       addToCart_request backend args w = (Ok request, w1) ->
       backend (requests w1) request = Throw e ->
       prop fields "message" = VStr message ->
       exists e',
         (addToCart backend convertKeys parseFloat args w).1 = Throw e' /\
         user_visible e'
         = strict_eq statusCode (VNum 400)
           && String.prefix "We don't have as many" message
           || user_visible e) /\
    (forall args input email password,
       get_prop args "input" = Ok input ->
       get_prop input "email" = Ok email ->
       get_prop input "password" = Ok password ->
       backend (requests w) (tokenRequest email password quote) = Throw e ->
       exists e',
         (signIn backend convertKeys Date_now expirationTime_after args w).1
         = Throw e' /\
         user_visible e' = strict_eq statusCode (VNum 401) || user_visible e) /\
    (forall args input email firstname lastname password autoSignIn,
       get_prop args "input" = Ok input ->
       get_prop input "email" = Ok email ->
       get_prop input "firstname" = Ok firstname ->
       get_prop input "lastname" = Ok lastname ->
       get_prop input "password" = Ok password ->
       get_prop input "autoSignIn" = Ok autoSignIn ->
       let request :=
         {| method := POST; path := "/customers";
            payload :=
              VObj [("customer",
                     VObj [("email", email); ("firstname", firstname);
                           ("lastname", lastname);
                           ("extension_attributes",
                            VObj [("guest_quote_id", quote)])]);
                    ("password", password)];
            context := VUndef |} in
       let result :=
         signUp backend convertKeys Date_now expirationTime_after args w in
       (backend (requests w) request = Throw e ->
        exists e',
          result.1 = Throw e' /\
          user_visible e'
          = strict_eq statusCode (VNum 400) || user_visible e) /\
       (forall response,
          backend (requests w) request = Ok response ->
          truthy autoSignIn = true ->
          backend (request :: requests w) (tokenRequest email password quote)
          = Throw e ->
          exists e',
            result.1 = Throw e' /\
            user_visible e'
            = strict_eq statusCode (VNum 401) || user_visible e)) /\
    (forall args input c,
       get_prop args "input" = Ok input ->
       Session.cart (session w) = Some c ->
       truthy (quoteId c) = true ->
       backend (requests w)
         {| method := PUT; path := cartPath c +:+ "/deity-order";
            payload := VObj (assign [] input); context := VUndef |}
       = Throw e ->
       exists e',
         (placeOrder backend convertKeys args w).1 = Throw e' /\
         user_visible e' = strict_eq statusCode (VNum 400) || user_visible e) /\
    (forall args input couponCode c,
       get_prop args "input" = Ok input ->
       get_prop input "couponCode" = Ok couponCode ->
       Session.cart (session w) = Some c ->
       truthy (quoteId c) = true ->
       backend (requests w)
         {| method := PUT;
            path := cartPath c +:+ "/coupons/" +:+ to_string couponCode;
            payload := VUndef; context := VUndef |}
       = Throw e ->
       exists e',
         (applyCoupon backend args w).1 = Throw e' /\
         user_visible e' = strict_eq statusCode (VNum 404) || user_visible e) /\
    (forall args input password currentPassword,
       get_prop args "input" = Ok input ->
       get_prop input "password" = Ok password ->
       get_prop input "currentPassword" = Ok currentPassword ->
       truthy (token_of (Session.customerToken (session w))) = true ->
       backend (requests w)
         {| method := PUT; path := "/customers/me/password";
            payload := VObj [("currentPassword", currentPassword);
                             ("newPassword", password)];
            context := VUndef |}
       = Throw e ->
       exists e',
         (changeCustomerPassword backend args w).1 = Throw e' /\
         user_visible e'
         = strict_eq statusCode (VNum 401) || strict_eq statusCode (VNum 503)
           || user_visible e).
Proof.
  intros backend convertKeys parseFloat Date_now expirationTime_after w
    fields e statusCode sent quote tokenRequest cartPath.
  assert (HsignIn :
    forall w0 args input email password,
      get_prop args "input" = Ok input ->
      get_prop input "email" = Ok email ->
      get_prop input "password" = Ok password ->
      backend (requests w0)
        (tokenRequest email password
           (or_default (quoteId_of (Session.cart (session w0))) VNull))
      = Throw e ->
      exists e',
        (signIn backend convertKeys Date_now expirationTime_after args w0).1
        = Throw e' /\
        user_visible e' = strict_eq statusCode (VNum 401) || user_visible e).
  { intros w0 args input email password Hinput Hemail Hpassword Hfail.
    unfold signIn.
    rewrite bind_M. unfold lift at 1. rewrite Hinput.
    rewrite bind_M. cbn [getSession]. cbn zeta. unfold try_catch.
    rewrite bind_M. unfold lift at 1. rewrite Hemail.
    rewrite bind_M. unfold lift at 1. rewrite Hpassword.
    rewrite bind_M, rest_run. unfold tokenRequest in Hfail. rewrite Hfail.
    destruct (signIn_catch_marks fields
                {| session := session w0; saves := saves w0;
                   requests := tokenRequest email password
                                 (or_default
                                    (quoteId_of (Session.cart (session w0)))
                                    VNull) :: requests w0 |})
      as (e' & Hcatch & Hmarked).
    exists e'. split; [exact (f_equal fst Hcatch)|exact Hmarked]. }
  split; [|split; [|split; [|split; [|split]]]].
  - intros args request w1 message Hreq Hfail Hmsg.
    pose proof (addToCart_request_context _ _ _ _ _ Hreq) as [Hpost Hctx].
    rewrite addToCart_unfold, Hreq. unfold try_catch.
    rewrite bind_M, rest_run.
    assert (Hsame : {| method := POST; path := path request;
                       payload := payload request; context := VUndef |}
                    = request).
    { destruct request; cbn in *. by subst. }
    rewrite Hsame, Hfail.
    destruct (addToCart_catch_marks fields message
                {| session := session w1; saves := saves w1;
                   requests := request :: requests w1 |} Hmsg)
      as (e' & w' & Hcatch & Hmarked).
    exists e'. split; [exact (f_equal fst Hcatch)|exact Hmarked].
  - intros args input email password. apply HsignIn.
  - intros args input email firstname lastname password autoSignIn
      Hinput Hemail Hfirst Hlast Hpassword Hauto request result. split.
    + intros Hfail. subst result. unfold signUp.
      rewrite bind_M. unfold lift at 1. rewrite Hinput.
      rewrite bind_M. unfold lift at 1. rewrite Hemail.
      rewrite bind_M. unfold lift at 1. rewrite Hfirst.
      rewrite bind_M. unfold lift at 1. rewrite Hlast.
      rewrite bind_M. unfold lift at 1. rewrite Hpassword.
      rewrite bind_M. unfold lift at 1. rewrite Hauto.
      rewrite bind_M. cbn [getSession]. cbn zeta.
      rewrite bind_M. unfold try_catch. rewrite bind_M, rest_run.
      fold quote. fold request. rewrite Hfail.
      destruct (signUp_catch_marks fields (sent request))
        as (e' & Hcatch & Hmarked).
      unfold sent in Hcatch. unfold e. rewrite Hcatch.
      exists e'. by split.
    + intros response Hcreated Htruthy Hfail. subst result.
      rewrite (signUp_created _ _ _ _ _ _ _ _ _ _ _ _ _ Hinput Hemail Hfirst
                 Hlast Hpassword Hauto Hcreated), Htruthy.
      by apply (HsignIn _ _ (VObj [("email", email); ("password", password)])
                  email password).
  - intros args input c Hinput Hc Hq Hfail. unfold placeOrder.
    rewrite bind_M. unfold lift at 1. rewrite Hinput.
    rewrite bind_M. unfold try_catch.
    rewrite (performCartAction_run _ _ _ _ _ _ c Hc Hq). cbn zeta.
    fold (cartPath c). rewrite Hfail. cbn [bind outcome_monad].
    destruct (placeOrder_catch_marks fields
                (sent {| method := PUT; path := cartPath c +:+ "/deity-order";
                         payload := VObj (assign [] input);
                         context := VUndef |}))
      as (e' & Hcatch & Hmarked).
    unfold sent in Hcatch. unfold e. rewrite Hcatch.
    exists e'. by split.
  - intros args input couponCode c Hinput Hcode Hc Hq Hfail.
    unfold applyCoupon.
    rewrite bind_M. unfold lift at 1. rewrite Hinput.
    rewrite bind_M. cbn [getSession].
    rewrite bind_M, (getCartPath_with_cart w c Hc). fold (cartPath c).
    rewrite Hc. cbn [quoteId_of]. rewrite Hq. cbn [negb].
    unfold try_catch. rewrite bind_M. unfold lift at 1. rewrite Hcode.
    rewrite bind_M, rest_run, Hfail.
    destruct (applyCoupon_catch_marks fields
                (sent {| method := PUT;
                         path := cartPath c +:+ "/coupons/"
                                 +:+ to_string couponCode;
                         payload := VUndef; context := VUndef |}))
      as (e' & Hcatch & Hmarked).
    unfold sent in Hcatch. unfold e. rewrite Hcatch.
    exists e'. by split.
  - intros args input password currentPassword Hinput Hpassword Hcurrent
      Htoken Hfail. unfold changeCustomerPassword.
    rewrite bind_M. unfold lift at 1. rewrite Hinput.
    rewrite bind_M. unfold lift at 1. rewrite Hpassword.
    rewrite bind_M. unfold lift at 1. rewrite Hcurrent.
    rewrite bind_M. cbn [getSession]. rewrite Htoken. cbn [negb].
    unfold try_catch. rewrite bind_M, rest_run, Hfail.
    destruct (changeCustomerPassword_catch_marks fields
                (sent {| method := PUT; path := "/customers/me/password";
                         payload := VObj [("currentPassword", currentPassword);
                                          ("newPassword", password)];
                         context := VUndef |}))
      as (e' & Hcatch & Hmarked).
    unfold sent in Hcatch. unfold e. rewrite Hcatch.
    exists e'. by split.
Qed.

Lemma user_visible_by_status_or_message_witness :
  (exists e',
     (addToCart (backend_failing 400 "We don't have as many items")
        camelCase_already no_float addToCart_args
        (world_of (guest_session (VStr "q1")))).1 = Throw e' /\
     user_visible e' = true) /\
  (exists e',
     (addToCart (backend_failing 400 "Internal error")
        camelCase_already no_float addToCart_args
        (world_of (guest_session (VStr "q1")))).1 = Throw e' /\
     user_visible e' = false) /\
  (exists e',
     (signIn (backend_failing 401 "The account sign-in was incorrect")
        camelCase_already VUndef (fun _ _ => VUndef) signIn_args
        (world_of new_session)).1 = Throw e' /\
     user_visible e' = true) /\
  (exists e',
     (signUp (backend_failing 400 "A customer with the same email exists")
        camelCase_already VUndef (fun _ _ => VUndef) signUp_args
        (world_of new_session)).1 = Throw e' /\
     user_visible e' = true) /\
  (exists e',
     (signUp (backend_failing_after_first 400 "Bad request")
        camelCase_already VUndef (fun _ _ => VUndef) signUp_args
        (world_of new_session)).1 = Throw e' /\
     user_visible e' = false) /\
  (exists e',
     (placeOrder (backend_failing 400 "Payment was refused")
        camelCase_already placeOrder_args
        (world_of (guest_session (VStr "q1")))).1 = Throw e' /\
     user_visible e' = true) /\
  (exists e',
     (applyCoupon (backend_failing 404 "Coupon code is not valid")
        applyCoupon_args (world_of (guest_session (VStr "q1")))).1
     = Throw e' /\
     user_visible e' = true) /\
  (exists e',
     (changeCustomerPassword (backend_failing 503 "Service Unavailable")
        changeCustomerPassword_args (world_of customer_session)).1
     = Throw e' /\
     user_visible e' = true).
Proof.
  pose (decided backend statusCode message w :=
          user_visible_by_status_or_message backend camelCase_already
            no_float VUndef (fun _ _ => VUndef) w
            [("message", VStr message); ("statusCode", VNum statusCode)]).
  repeat split.
  - destruct (decided (backend_failing 400 "We don't have as many items")
                400 "We don't have as many items"
                (world_of (guest_session (VStr "q1"))))
      as (HaddToCart & _).
    exact (HaddToCart addToCart_args (addToCart_post "q1")
             (world_of (guest_session (VStr "q1")))
             "We don't have as many items" eq_refl eq_refl eq_refl).
  - destruct (decided (backend_failing 400 "Internal error")
                400 "Internal error" (world_of (guest_session (VStr "q1"))))
      as (HaddToCart & _).
    exact (HaddToCart addToCart_args (addToCart_post "q1")
             (world_of (guest_session (VStr "q1")))
             "Internal error" eq_refl eq_refl eq_refl).
  - destruct (decided
                (backend_failing 401 "The account sign-in was incorrect")
                401 "The account sign-in was incorrect"
                (world_of new_session)) as (_ & HsignIn & _).
    exact (HsignIn signIn_args _ _ _ eq_refl eq_refl eq_refl eq_refl).
  - destruct (decided
                (backend_failing 400 "A customer with the same email exists")
                400 "A customer with the same email exists"
                (world_of new_session)) as (_ & _ & HsignUp & _).
    destruct (HsignUp signUp_args _ _ _ _ _ _ eq_refl eq_refl eq_refl
                eq_refl eq_refl eq_refl) as [Hcreate _].
    exact (Hcreate eq_refl).
  - destruct (decided (backend_failing_after_first 400 "Bad request")
                400 "Bad request" (world_of new_session))
      as (_ & _ & HsignUp & _).
    destruct (HsignUp signUp_args _ _ _ _ _ _ eq_refl eq_refl eq_refl
                eq_refl eq_refl eq_refl) as [_ HsignIn].
    exact (HsignIn _ eq_refl eq_refl eq_refl).
  - destruct (decided (backend_failing 400 "Payment was refused")
                400 "Payment was refused"
                (world_of (guest_session (VStr "q1"))))
      as (_ & _ & _ & HplaceOrder & _).
    exact (HplaceOrder placeOrder_args _ {| quoteId := VStr "q1" |}
             eq_refl eq_refl eq_refl eq_refl).
  - destruct (decided (backend_failing 404 "Coupon code is not valid")
                404 "Coupon code is not valid"
                (world_of (guest_session (VStr "q1"))))
      as (_ & _ & _ & _ & HapplyCoupon & _).
    exact (HapplyCoupon applyCoupon_args _ _ {| quoteId := VStr "q1" |}
             eq_refl eq_refl eq_refl eq_refl eq_refl).
  - destruct (decided (backend_failing 503 "Service Unavailable")
                503 "Service Unavailable" (world_of customer_session))
      as (_ & _ & _ & _ & _ & HchangePassword).
    exact (HchangePassword changeCustomerPassword_args _ _ _
             eq_refl eq_refl eq_refl eq_refl eq_refl).
Defined.

(** Whether a session has a cart with a truthy quote id and whether it has
    a truthy customer token is all the coupon and password handlers ask
    of it before they send their request. *)
Ltac by_session w :=
  destruct w as [[[[quote]|] [[token expires]|] ? ? ? ? ? ? ? ?] ? ?];
  cbn in *;
  repeat match goal with
         | H : context [truthy ?x] |- _ => destruct (truthy x); cbn in *
         end;
  congruence.

(** C1, refuted as stated: for status code 401 the message of the error
    decides nothing, [signIn] marks every such error it throws; nor does
    the message decide anything in [applyCoupon] for 404 and in
    [changeCustomerPassword] for 401 and 503. *)
Lemma signIn_401_ignores_message :
  ~ message_decides
      (fun backend =>
         signIn backend camelCase_already VUndef (fun _ _ => VUndef)
           signIn_args) 401 /\
  ~ message_decides (fun backend => applyCoupon backend applyCoupon_args)
      404 /\
  ~ message_decides
      (fun backend =>
         changeCustomerPassword backend changeCustomerPassword_args) 401 /\
  ~ message_decides
      (fun backend =>
         changeCustomerPassword backend changeCustomerPassword_args) 503.
Proof.
  repeat split; intros (shown & logged & w & Hshown & Hlogged).
  - discriminate Hlogged.
  - unfold marked, thrown, applyCoupon in *. by_session w.
  - unfold marked, thrown, changeCustomerPassword in *. by_session w.
  - unfold marked, thrown, changeCustomerPassword in *. by_session w.
Qed.

(** In [addToCart] the message does decide, for status code 400. *)
Lemma addToCart_400_message_decides :
  message_decides
    (fun backend => addToCart backend camelCase_already no_float
                      addToCart_args) 400.
Proof.
  exists "We don't have as many items", "Internal error",
    (world_of (guest_session (VStr "q1"))).
  by split.
Qed.
